(** * PlantAGI: the live telemetry buffer of the asset view

    A shallow embedding of the streaming logic of
    [frontend/src/components/AssetView.jsx]: the tick generator
    [generateNewDataPoint], the sliding window kept in [historyData], the
    history seed loaded by [initializeAndStream], the reset effect on
    [timeRange], and the fallback of [combinedData].

    Modelling conventions.
    - A JavaScript number is an exact rational ([Q]); the rounding error of
      IEEE doubles in [+] and [*] is not modelled.  [Math.max], [Math.min],
      [Math.abs] are [Qmax], [Qmin], [Qabs].
    - [Math.random()] and [Date.now()] are inputs: every tick and every
      evaluation of the fallback receives the values it reads.
    - [Math.sin] and [Math.cos] are fields of the class [MathLib]; every
      theorem holds for all instances, concrete runs use [SeriesMath].
    - The display label [time] of a sample is a function of its [timestamp]
      alone and is left out of the record.
    - A history record is a JSON object with a valid [time] and metric fields
      that are numbers when present (absent and [null] are both [None]). *)

From Stdlib Require Import String Ascii DecimalString.
From Stdlib Require Import ZArith NArith QArith Qround Qabs Qminmax Lqa Lia.
From Stdlib Require Import Bool List.
Import ListNotations.

Local Open Scope Q_scope.

(* ===================================================================== *)
(** ** JavaScript numerics *)
(* ===================================================================== *)

(** [Math.sin] and [Math.cos]: the language only promises an
    implementation-approximated result, so they are an interface. *)
Class MathLib : Type := {
  Math_sin : Q -> Q;
  Math_cos : Q -> Q
}.

(** Number of decimal units in one: [10^digits]. *)
Definition scale (digits : nat) : positive :=
  Z.to_pos (10 ^ Z.of_nat digits).

(** The integer [n] that [Number.prototype.toFixed] picks: for [x < 0] the
    sign is split off first, then [n / 10^digits] is nearest to [x], the
    larger [n] on a tie. *)
Definition toFixed_units (digits : nat) (x : Q) : Z :=
  let n := Qfloor (Qabs x * inject_Z (Zpos (scale digits)) + (1 # 2)) in
  if Qle_bool 0 x then n else (- n)%Z.

(** [Number(x.toFixed(digits))]. *)
Definition toFixed (digits : nat) (x : Q) : Q :=
  Qmake (toFixed_units digits x) (scale digits).

(** [a || dflt] on an optional numeric field: [undefined], [null] and the
    number zero are falsy. *)
Definition falsy (q : Q) : bool := Qeq_bool q 0.

Definition or_default (field : option Q) (dflt : Q) : Q :=
  match field with
  | Some q => if falsy q then dflt else q
  | None => dflt
  end.

(** [arr.slice(-n)] for [n > 0]: the last [n] elements, all of them when the
    array is shorter. *)
Definition slice_last {A : Type} (n : nat) (arr : list A) : list A :=
  skipn (length arr - n) arr.

(** A list of integers in non-decreasing order. *)
Fixpoint nondecreasing (l : list Z) : bool :=
  match l with
  | [] => true
  | x :: tl =>
      match tl with
      | [] => true
      | y :: _ => (x <=? y)%Z && nondecreasing tl
      end
  end.

(** A list of rationals in non-decreasing order. *)
Fixpoint nondecreasingQ (l : list Q) : bool :=
  match l with
  | [] => true
  | x :: tl =>
      match tl with
      | [] => true
      | y :: _ => Qle_bool x y && nondecreasingQ tl
      end
  end.

(** A truncated power series for sine and cosine, good to nine decimals on
    [-2, 2]; it stands in for the engine's [Math.sin] in concrete runs. *)
Fixpoint series (terms : nat) (k : Z) (term x2 : Q) : Q :=
  match terms with
  | O => 0
  | S m =>
      term + series m (k + 2)
               (Qred (- term * x2 / inject_Z ((k + 1) * (k + 2)))) x2
  end.

Definition sin_series (x : Q) : Q := Qred (series 10 1 x (x * x)).
Definition cos_series (x : Q) : Q := Qred (series 10 0 1 (x * x)).

Definition SeriesMath : MathLib :=
  {| Math_sin := sin_series; Math_cos := cos_series |}.

(* ===================================================================== *)
(** ** Data model *)
(* ===================================================================== *)

(** One point of [historyData]. *)
Record Sample : Type := {
  timestamp : Z;
  Torque : Q;
  Temperature : Q;
  Speed : Q;
  Vibration : Q;
  current_tool_wear_pct : Q
}.

(** The object held by [prevValuesRef.current]. *)
Record PrevValues : Type := {
  prev_Torque : Q;
  prev_Temperature : Q;
  prev_Speed : Q;
  prev_Vibration : Q;
  prev_current_tool_wear_pct : Q
}.

(** The initial value of the ref, written again by the reset effect. *)
Definition defaultPrevValues : PrevValues :=
  {| prev_Torque := 40;
     prev_Temperature := 300;
     prev_Speed := 2800;
     prev_Vibration := 1 # 2;
     prev_current_tool_wear_pct := 35 |}.

Definition MAX_DATA_POINTS : nat := 100.

(** What one call of [generateNewDataPoint] reads from its environment:
    [Date.now()] and the five [Math.random()] draws in call order. *)
Record TickEnv : Type := {
  now : Z;
  rnd_torque : Q;
  rnd_temp : Q;
  rnd_speed : Q;
  rnd_vibration : Q;
  rnd_wear : Q
}.

(** [Math.random()] returns a number in [0, 1). *)
Definition unit_interval (r : Q) : Prop := 0 <= r /\ r < 1.

Definition valid_env (e : TickEnv) : Prop :=
  unit_interval (rnd_torque e) /\ unit_interval (rnd_temp e) /\
  unit_interval (rnd_speed e) /\ unit_interval (rnd_vibration e) /\
  unit_interval (rnd_wear e).

(* ===================================================================== *)
(** ** The tick generator *)
(* ===================================================================== *)

Section Generator.
Context {M : MathLib}.

Definition oscillation_of (tickCount : nat) : Q :=
  Math_sin (inject_Z (Z.of_nat tickCount) * (3 # 10)) * (1 # 2).

Definition tremor_of (tickCount : nat) : Q :=
  Math_sin (inject_Z (Z.of_nat tickCount) * (7 # 10)) * (3 # 10).

(** The values written to [prevValuesRef.current] by a tick. *)
Definition nextPrevValues (tickCount : nat) (e : TickEnv) (prevValues : PrevValues)
  : PrevValues :=
  let oscillation := oscillation_of tickCount in
  let tremor := tremor_of tickCount in
  let newTorque := Qmax 25 (Qmin 55
        (prev_Torque prevValues + (rnd_torque e - (1 # 2)) * 6 + oscillation * 3)) in
  let newTemp := Qmax 290 (Qmin 315
        (prev_Temperature prevValues + (rnd_temp e - (1 # 2)) * 3 + tremor * 2)) in
  let newSpeed := Qmax 2650 (Qmin 2950
        (prev_Speed prevValues + (rnd_speed e - (1 # 2)) * 80 + oscillation * 30)) in
  let newVibration := Qmax (1 # 4) (Qmin (17 # 20)
        (prev_Vibration prevValues + (rnd_vibration e - (1 # 2)) * (3 # 20)
         + tremor * (1 # 20))) in
  let wearIncrement := (1 # 5) + rnd_wear e * (2 # 5) + Qabs oscillation * (3 # 10) in
  let newToolWear := Qmin 95 (Qmax 5
        (prev_current_tool_wear_pct prevValues + wearIncrement)) in
  {| prev_Torque := newTorque;
     prev_Temperature := newTemp;
     prev_Speed := newSpeed;
     prev_Vibration := newVibration;
     prev_current_tool_wear_pct := newToolWear |}.

(** [generateNewDataPoint]: the new content of the ref and the returned
    point, whose metrics are the ref's values through [toFixed]. *)
Definition generateNewDataPoint (tickCount : nat) (e : TickEnv) (prevValues : PrevValues)
  : PrevValues * Sample :=
  let next := nextPrevValues tickCount e prevValues in
  (next,
   {| timestamp := now e;
      Torque := toFixed 1 (prev_Torque next);
      Temperature := toFixed 1 (prev_Temperature next);
      Speed := toFixed 0 (prev_Speed next);
      Vibration := toFixed 2 (prev_Vibration next);
      current_tool_wear_pct := toFixed 1 (prev_current_tool_wear_pct next) |}).

(** The updater passed to [setHistoryData] by the timer. *)
Definition appendPoint (prevData : list Sample) (newPoint : Sample) : list Sample :=
  slice_last MAX_DATA_POINTS (prevData ++ [newPoint]).

End Generator.

(* ===================================================================== *)
(** ** The history seed *)
(* ===================================================================== *)

(** One element of the array served by [/api/v1/history/{id}]; [h_time] is
    [new Date(d.time).getTime()]. *)
Record HistoryRecord : Type := {
  h_time : Z;
  h_Torque : option Q;
  h_Temperature : option Q;
  h_Speed : option Q;
  h_Vibration : option Q;
  h_tool_wear_pct : option Q
}.

(** The callback of [data.slice(-50).map(...)]. *)
Definition normalize (d : HistoryRecord) : Sample :=
  {| timestamp := h_time d;
     Torque := or_default (h_Torque d) 40;
     Temperature := or_default (h_Temperature d) 300;
     Speed := or_default (h_Speed d) 2800;
     Vibration := or_default (h_Vibration d) (1 # 2);
     current_tool_wear_pct := or_default (h_tool_wear_pct d) 35 |}.

Definition initialDataOf (data : list HistoryRecord) : list Sample :=
  map normalize (slice_last 50 data).

(** [arr[arr.length - 1]], [undefined] on the empty array. *)
Definition lastOf {A : Type} (arr : list A) : option A :=
  match arr with
  | [] => None
  | _ => nth_error arr (length arr - 1)
  end.

Definition prevValuesOfPoint (lastPoint : Sample) : PrevValues :=
  {| prev_Torque := Torque lastPoint;
     prev_Temperature := Temperature lastPoint;
     prev_Speed := Speed lastPoint;
     prev_Vibration := Vibration lastPoint;
     prev_current_tool_wear_pct := current_tool_wear_pct lastPoint |}.

(** What an awaited promise settles to. *)
Inductive JsError : Type :=
| NetworkError     (* [fetch] rejects *)
| SyntaxError.     (* [res.json()] rejects on a malformed body *)

Inductive Promise (A : Type) : Type :=
| Fulfilled (a : A)
| Rejected (err : JsError).
Arguments Fulfilled {A} a.
Arguments Rejected {A} err.

Definition await {A B : Type} (p : Promise A) (k : A -> Promise B) : Promise B :=
  match p with
  | Fulfilled a => k a
  | Rejected err => Rejected err
  end.

Definition try_catch {A : Type} (body : Promise A) (handler : JsError -> Promise A)
  : Promise A :=
  match body with
  | Fulfilled a => Fulfilled a
  | Rejected err => handler err
  end.

Notation "x <- p ;; k" := (await p (fun x => k))
  (at level 61, p at next level, right associativity).

(** The parsed body of a response. *)
Inductive JsonValue : Type :=
| JsonOther                               (* anything but an array *)
| JsonArray (items : list HistoryRecord).

Record Response : Type := {
  ok : bool;
  json : Promise JsonValue
}.

(* ===================================================================== *)
(** ** The component state and its event handlers *)
(* ===================================================================== *)

(** The variables closed over by one run of the streaming effect.
    [fetchPending] records that the run issued a [fetch] that has not
    settled yet. *)
Record Closure : Type := {
  isMounted : bool;
  tickCount : nat;
  fetchPending : bool
}.

Inductive LogEntry : Type :=
| LogTick (n : nat)
| LogInitialized (points : nat)
| WarnHistoryUnavailable (err : JsError).

Record View : Type := {
  attached : bool;                 (* the component is in the tree *)
  robotId : option string;         (* [robot?.id] *)
  timeRange : string;
  historyData : list Sample;
  prevValues : PrevValues;         (* [prevValuesRef.current] *)
  closures : list Closure;         (* one per run of the streaming effect *)
  console : list LogEntry
}.

Definition set_historyData (h : list Sample) (s : View) : View :=
  {| attached := attached s; robotId := robotId s; timeRange := timeRange s;
     historyData := h; prevValues := prevValues s;
     closures := closures s; console := console s |}.

Definition set_prevValues (p : PrevValues) (s : View) : View :=
  {| attached := attached s; robotId := robotId s; timeRange := timeRange s;
     historyData := historyData s; prevValues := p;
     closures := closures s; console := console s |}.

Definition set_closures (c : list Closure) (s : View) : View :=
  {| attached := attached s; robotId := robotId s; timeRange := timeRange s;
     historyData := historyData s; prevValues := prevValues s;
     closures := c; console := console s |}.

Definition set_timeRange (r : string) (s : View) : View :=
  {| attached := attached s; robotId := robotId s; timeRange := r;
     historyData := historyData s; prevValues := prevValues s;
     closures := closures s; console := console s |}.

Definition set_robotId (id : option string) (s : View) : View :=
  {| attached := attached s; robotId := id; timeRange := timeRange s;
     historyData := historyData s; prevValues := prevValues s;
     closures := closures s; console := console s |}.

Definition set_attached (b : bool) (s : View) : View :=
  {| attached := b; robotId := robotId s; timeRange := timeRange s;
     historyData := historyData s; prevValues := prevValues s;
     closures := closures s; console := console s |}.

Definition log (entry : LogEntry) (s : View) : View :=
  {| attached := attached s; robotId := robotId s; timeRange := timeRange s;
     historyData := historyData s; prevValues := prevValues s;
     closures := closures s; console := console s ++ [entry] |}.

(** Overwrite the closure of run [g]; nothing happens out of range. *)
Fixpoint set_closure (g : nat) (c : Closure) (l : list Closure) : list Closure :=
  match l, g with
  | [], _ => []
  | _ :: tl, O => c :: tl
  | x :: tl, S g' => x :: set_closure g' c tl
  end.

(** The run of the streaming effect that is current: the last one. *)
Definition currentRun (s : View) : nat := length (closures s) - 1.

Section Handlers.
Context {M : MathLib}.

(** The callback of [setInterval] in run [g] of the streaming effect. *)
Definition tickInterval (g : nat) (e : TickEnv) (s : View) : View :=
  match nth_error (closures s) g with
  | None => s
  | Some c =>
      if negb (isMounted c) then s
      else
        let tc := S (tickCount c) in
        let '(next, newPoint) := generateNewDataPoint tc e (prevValues s) in
        let s1 := set_closures
                    (set_closure g {| isMounted := isMounted c; tickCount := tc;
                                      fetchPending := fetchPending c |} (closures s)) s in
        let s2 := set_prevValues next s1 in
        let s3 := log (LogTick tc) s2 in
        set_historyData (appendPoint (historyData s3) newPoint) s3
  end.

(** The branch of [initializeAndStream] taken on a non-empty array while
    the run is mounted. *)
Definition seedWindow (data : list HistoryRecord) (s : View) : View :=
  let initialData := initialDataOf data in
  let s1 := match lastOf initialData with
            | Some lastPoint => set_prevValues (prevValuesOfPoint lastPoint) s
            | None => s
            end in
  log (LogInitialized (length initialData)) (set_historyData initialData s1).

(** [initializeAndStream] from its first [await] on, in a run whose
    [isMounted] reads [mounted] when the body has been parsed. *)
Definition initializeAndStream (mounted : bool) (fetched : Promise Response) (s : View)
  : Promise View :=
  try_catch
    (res <- fetched ;;
     if ok res then
       data <- json res ;;
       match data with
       | JsonArray items =>
           if (0 <? length items)%nat && mounted
           then Fulfilled (seedWindow items s)
           else Fulfilled s
       | JsonOther => Fulfilled s
       end
     else Fulfilled s)
    (fun err => Fulfilled (log (WarnHistoryUnavailable err) s)).

(** The state once the promise of [initializeAndStream] has settled; a
    rejection would leave the state as it was. *)
Definition settled (p : Promise View) (s : View) : View :=
  match p with
  | Fulfilled s' => s'
  | Rejected _ => s
  end.

(** The fetch issued by run [g] settles. *)
Definition historySettled (g : nat) (fetched : Promise Response) (s : View) : View :=
  match nth_error (closures s) g with
  | None => s
  | Some c =>
      if negb (fetchPending c) then s
      else
        let s1 := set_closures
                    (set_closure g {| isMounted := isMounted c; tickCount := tickCount c;
                                      fetchPending := false |} (closures s)) s in
        settled (initializeAndStream (isMounted c) fetched s1) s1
  end.

(** Body of the streaming effect: fresh [isMounted] and [tickCount], the
    fetch is issued only when [robot?.id] is there, the interval always. *)
Definition runStreamEffect (s : View) : View :=
  set_closures
    (closures s ++ [{| isMounted := true; tickCount := 0;
                       fetchPending := match robotId s with
                                       | Some _ => true
                                       | None => false
                                       end |}]) s.

(** Cleanup of the streaming effect: [isMounted = false] in the current run. *)
Definition cleanupStreamEffect (s : View) : View :=
  match lastOf (closures s) with
  | None => s
  | Some c =>
      set_closures
        (set_closure (currentRun s) {| isMounted := false; tickCount := tickCount c;
                                       fetchPending := fetchPending c |} (closures s)) s
  end.

(** The effect on [timeRange]. *)
Definition resetEffect (s : View) : View :=
  set_prevValues defaultPrevValues (set_historyData [] s).

Definition eqb_robot (a b : option string) : bool :=
  match a, b with
  | Some x, Some y => String.eqb x y
  | None, None => true
  | _, _ => false
  end.

(** The first commit: [useState] initial values, then both effects. *)
Definition mount (id : option string) : View :=
  resetEffect
    (runStreamEffect
       {| attached := true; robotId := id; timeRange := "1h";
          historyData := []; prevValues := defaultPrevValues;
          closures := []; console := [] |}).

(** [setTimeRange(r)]: a changed value re-runs the streaming effect (cleanup
    first) and then the reset effect. *)
Definition setTimeRange (r : string) (s : View) : View :=
  if negb (attached s) || String.eqb r (timeRange s) then s
  else resetEffect (runStreamEffect (cleanupStreamEffect (set_timeRange r s))).

(** [robot?.id] changes: only the streaming effect depends on it. *)
Definition robotChanged (id : option string) (s : View) : View :=
  if negb (attached s) || eqb_robot id (robotId s) then s
  else runStreamEffect (cleanupStreamEffect (set_robotId id s)).

Definition unmount (s : View) : View :=
  if negb (attached s) then s
  else set_attached false (cleanupStreamEffect s).

Inductive Event : Type :=
| TimerFired (g : nat) (e : TickEnv)
| HistorySettled (g : nat) (fetched : Promise Response)
| SetTimeRange (r : string)
| RobotChanged (id : option string)
| Unmount.

Definition step (s : View) (ev : Event) : View :=
  match ev with
  | TimerFired g e => tickInterval g e s
  | HistorySettled g fetched => historySettled g fetched s
  | SetTimeRange r => setTimeRange r s
  | RobotChanged id => robotChanged id s
  | Unmount => unmount s
  end.

(** Events are handled one at a time, each to completion. *)
Definition run (evs : list Event) (s : View) : View := fold_left step evs s.

(** [CurrentWindow()]: the state [historyData]. *)
Definition CurrentWindow (s : View) : list Sample := historyData s.

(* ===================================================================== *)
(** ** The fallback of [combinedData] *)
(* ===================================================================== *)

(** What one evaluation of the memo body reads: [new Date()] and the
    [Math.random()] draws, numbered in call order. *)
Record RenderEnv : Type := {
  render_now : Z;
  render_random : nat -> Q
}.

(** The callback of [Array.from({ length: 20 }, (_, i) => ...)]. *)
Definition mockPoint (env : RenderEnv) (i : nat) : Sample :=
  let iq := inject_Z (Z.of_nat i) in
  let timeAgo := (render_now env - (20 - Z.of_nat i) * 3 * 60 * 1000)%Z in
  let trend := iq * (1 # 2) in
  let random k := render_random env (5 * i + k)%nat in
  {| timestamp := timeAgo;
     Torque := 40 + Math_sin (iq / 3) * 5 + (random 0%nat - (1 # 2)) * 2;
     Temperature := 300 + Math_sin (iq / 4) * 3 + (random 1%nat - (1 # 2));
     Speed := 2800 + Math_cos (iq / 5) * 100 + (random 2%nat - (1 # 2)) * 20;
     Vibration := (2 # 5) + random 3%nat * (3 # 10);
     current_tool_wear_pct := 30 + trend + (random 4%nat * 4 - 2) |}.

(** The body of the [useMemo] that computes [combinedData]; React runs it
    again whenever [historyData] is a new array. *)
Definition combinedData (historyData : list Sample) (env : RenderEnv) : list Sample :=
  match historyData with
  | [] => map (mockPoint env) (seq 0 20)
  | _ => historyData
  end.

End Handlers.

(* ===================================================================== *)
(** ** Predicates used in the statements *)
(* ===================================================================== *)

(** The documented range of each bounded metric. *)
Definition in_range (pt : Sample) : Prop :=
  (25 <= Torque pt /\ Torque pt <= 55) /\
  (290 <= Temperature pt /\ Temperature pt <= 315) /\
  (2650 <= Speed pt /\ Speed pt <= 2950) /\
  ((1 # 4) <= Vibration pt /\ Vibration pt <= (17 # 20)).

(** The wear column of a window. *)
Definition wears (window : list Sample) : list Q :=
  map current_tool_wear_pct window.

(** Every value of a list is at most [hi]. *)
Definition all_at_most (hi : Q) (l : list Q) : bool :=
  forallb (fun x => Qle_bool x hi) l.

(** The array a settled fetch hands to the seeding branch: empty unless the
    response is OK and its body parses to an array. *)
Definition seed_items (fetched : Promise Response) : list HistoryRecord :=
  match fetched with
  | Fulfilled res =>
      if ok res then
        match json res with
        | Fulfilled (JsonArray items) => items
        | _ => []
        end
      else []
  | Rejected _ => []
  end.

(** A fetch that yields no seed: network error, non-OK status, malformed
    body, a body that is no array, or the empty array. *)
Definition seedFails (fetched : Promise Response) : bool :=
  match seed_items fetched with
  | [] => true
  | _ => false
  end.

(** A successful fetch of the given array. *)
Definition fetchedOk (items : list HistoryRecord) : Promise Response :=
  Fulfilled {| ok := true; json := Fulfilled (JsonArray items) |}.

(** [n] firings of the interval of run [g], one per environment. *)
Definition ticks (g : nat) (envs : list TickEnv) : list (Event) :=
  map (TimerFired g) envs.

(** Only the current run of the streaming effect can be mounted, and none
    is once the component has left the tree. *)
Definition only_current_mounted (s : View) : Prop :=
  forall g c, nth_error (closures s) g = Some c -> isMounted c = true ->
              g = currentRun s /\ attached s = true.

Section RunPredicates.
Context {M : MathLib}.

(** The points produced by consecutive ticks of one run, from the tick
    count and the ref content before the first of them. *)
Fixpoint generated (tickCount : nat) (prev : PrevValues) (envs : list TickEnv)
  : list Sample :=
  match envs with
  | [] => []
  | e :: rest =>
      let '(next, newPoint) := generateNewDataPoint (S tickCount) e prev in
      newPoint :: generated (S tickCount) next rest
  end.

(** The ways one event can touch the window and the ref. *)
Inductive DataChange (s s' : View) : Event -> Prop :=
| DataKept (ev : Event) :
    historyData s' = historyData s -> prevValues s' = prevValues s ->
    DataChange s s' ev
| DataTicked (g : nat) (e : TickEnv) (tc : nat) :
    historyData s' =
      appendPoint (historyData s) (snd (generateNewDataPoint tc e (prevValues s))) ->
    prevValues s' = nextPrevValues tc e (prevValues s) ->
    DataChange s s' (TimerFired g e)
| DataSeeded (g : nat) (fetched : Promise Response) (lastPoint : Sample) :
    seed_items fetched <> [] ->
    historyData s' = initialDataOf (seed_items fetched) ->
    lastOf (initialDataOf (seed_items fetched)) = Some lastPoint ->
    prevValues s' = prevValuesOfPoint lastPoint ->
    DataChange s s' (HistorySettled g fetched)
| DataCleared (ev : Event) :
    historyData s' = [] -> prevValues s' = defaultPrevValues ->
    DataChange s s' ev.

End RunPredicates.

(** Every batch the history service delivers is within the metric ranges. *)
Definition seeds_in_range (ev : Event) : Prop :=
  match ev with
  | HistorySettled _ fetched => Forall in_range (initialDataOf (seed_items fetched))
  | _ => True
  end.

(** The least wear value the next tick can show. *)
Definition wear_floor (p : PrevValues) : Q :=
  toFixed 1 (Qmin 95 (Qmax 5 (prev_current_tool_wear_pct p + (1 # 5)))).

(** The wear column is non-decreasing and at most 95, and the ref is not
    behind the newest sample. *)
Definition wear_inv (s : View) : Prop :=
  nondecreasingQ (wears (historyData s)) = true /\
  all_at_most 95 (wears (historyData s)) = true /\
  (forall pt, lastOf (historyData s) = Some pt ->
              current_tool_wear_pct pt <= wear_floor (prevValues s)).

(** Ticks read random draws from [0, 1); every batch the history service
    delivers, normalized as a seed stores it (the last 50 records, a
    missing or zero wear replaced by 35), has a wear column that is
    non-decreasing and at most 95. *)
Definition wear_event_ok (ev : Event) : Prop :=
  match ev with
  | TimerFired _ e => valid_env e
  | HistorySettled _ fetched =>
      nondecreasingQ (wears (initialDataOf (seed_items fetched))) = true /\
      all_at_most 95 (wears (initialDataOf (seed_items fetched))) = true
  | _ => True
  end.

(** Two states that later events cannot tell apart: same props and state,
    same window and ref, the same number of runs and the same current run. *)
Definition agree (s1 s2 : View) : Prop :=
  attached s1 = attached s2 /\ robotId s1 = robotId s2 /\
  timeRange s1 = timeRange s2 /\
  historyData s1 = historyData s2 /\ prevValues s1 = prevValues s2 /\
  length (closures s1) = length (closures s2) /\
  lastOf (closures s1) = lastOf (closures s2).




(** What the cleanup leaves of a closure. *)
Definition unmounted (c : Closure) : Closure :=
  {| isMounted := false; tickCount := tickCount c; fetchPending := fetchPending c |}.

(* ===================================================================== *)
(** ** Concrete inputs *)
(* ===================================================================== *)

Definition robot1 : option string := Some "ROBOT_1"%string.

(** The closure of a run that has just started for a robot with an id. *)
Definition fresh_closure : Closure :=
  {| isMounted := true; tickCount := 0; fetchPending := true |}.

(** The environment of a tick whose five random draws are all one half. *)
Definition env_at (t : Z) : TickEnv :=
  {| now := t; rnd_torque := 1 # 2; rnd_temp := 1 # 2; rnd_speed := 1 # 2;
     rnd_vibration := 1 # 2; rnd_wear := 1 # 2 |}.

(** 150 ticks, five seconds apart. *)
Definition envs150 : list TickEnv :=
  map (fun k => env_at (1700000000000 + 5000 * Z.of_nat k)) (seq 1 150).

(** A record with a time and nothing else. *)
Definition record_at (t : Z) : HistoryRecord :=
  {| h_time := t; h_Torque := None; h_Temperature := None; h_Speed := None;
     h_Vibration := None; h_tool_wear_pct := None |}.

Definition record_all_zero : HistoryRecord :=
  {| h_time := 1700000000000; h_Torque := Some 0; h_Temperature := Some 0;
     h_Speed := Some 0; h_Vibration := Some 0; h_tool_wear_pct := Some 0 |}.

Definition record_torque_only : HistoryRecord :=
  {| h_time := 1700000000000; h_Torque := Some 42; h_Temperature := None;
     h_Speed := None; h_Vibration := None; h_tool_wear_pct := None |}.

(** A record with a time and a Torque of 0, the other metric fields
    missing. *)
Definition record_torque_zero : HistoryRecord :=
  {| h_time := 1700000000000; h_Torque := Some 0; h_Temperature := None;
     h_Speed := None; h_Vibration := None; h_tool_wear_pct := None |}.

Definition record_in_range : HistoryRecord :=
  {| h_time := 1700000000000; h_Torque := Some 42; h_Temperature := Some 301;
     h_Speed := None; h_Vibration := Some (3 # 5); h_tool_wear_pct := Some 50 |}.

(** A record of a tool worn to 97 percent. *)
Definition record_worn : HistoryRecord :=
  {| h_time := 1700000000000; h_Torque := Some 42; h_Temperature := Some 301;
     h_Speed := Some 2790; h_Vibration := Some (3 # 5); h_tool_wear_pct := Some 97 |}.

(** A seed of one record within the ranges, then one tick. *)
Definition seed_then_tick : list Event :=
  [HistorySettled 0 (fetchedOk [record_in_range]); TimerFired 0 (env_at 1700000005000)].

(** The state after the mount and one tick, no seed yet. *)
Definition after_first_tick : View :=
  @tickInterval SeriesMath 0 (env_at 1700000005000) (mount robot1).

(** A history served newest first, then one tick. *)
Definition after_descending_seed : View :=
  @run SeriesMath
    [HistorySettled 0 (fetchedOk [record_at 1700000060000; record_at 1700000000000]);
     TimerFired 0 (env_at 1700000065000)]
    (mount robot1).

(** A seed with a wear of 97, then one tick. *)
Definition after_worn_seed : View :=
  @run SeriesMath
    [HistorySettled 0 (fetchedOk [record_worn]); TimerFired 0 (env_at 1700000005000)]
    (mount robot1).

(** The time range was changed once; run 0 is stale, run 1 is current. *)
Definition after_range_change : View :=
  @run SeriesMath [SetTimeRange "24h"] (mount robot1).

Definition robot2 : option string := Some "ROBOT_2"%string.

(** A seed and a tick for one robot, then another robot is selected: run 1
    and its fetch belong to the new robot. *)
Definition after_robot_change : View :=
  @run SeriesMath (seed_then_tick ++ [RobotChanged robot2]) (mount robot1).

(** The component has left the tree before the fetch of run 0 settled. *)
Definition after_unmount : View :=
  @run SeriesMath [Unmount] (mount robot1).

(** Two evaluations of the memo body, five seconds apart. *)
Definition render_early : RenderEnv :=
  {| render_now := 1700000000000; render_random := fun _ => 1 # 4 |}.




(* ===================================================================== *)
(** ** Strings and integers as the views use them *)
(* ===================================================================== *)

(** A template literal on an integral number: its decimal digits. *)
Definition string_of_Z (n : Z) : string := NilZero.string_of_int (Z.to_int n).

(** [Math.round]: the nearest integer, a half goes up. *)
Definition Math_round (x : Q) : Z := Qfloor (x + (1 # 2)).

(** [a < b] on numbers. *)
Definition Qlt_bool (a b : Q) : bool := negb (Qle_bool b a).

(** [toLowerCase] on a string of ASCII characters. *)
Definition lower_ascii (c : ascii) : ascii :=
  let n := N_of_ascii c in
  if ((65 <=? n) && (n <=? 90))%N then ascii_of_N (n + 32) else c.

Fixpoint toLowerCase (s : string) : string :=
  match s with
  | EmptyString => EmptyString
  | String c rest => String (lower_ascii c) (toLowerCase rest)
  end.

(** [s.includes(sub)]. *)
Fixpoint includes (s sub : string) : bool :=
  String.prefix sub s ||
  match s with
  | EmptyString => false
  | String _ rest => includes rest sub
  end.

(** [s || dflt] on an optional string: the empty string is falsy. *)
Definition string_or (s : option string) (dflt : option string) : option string :=
  match s with
  | Some EmptyString => dflt
  | Some x => Some x
  | None => dflt
  end.

(** An optional number that is there and not zero. *)
Definition truthy (field : option Q) : bool :=
  match field with
  | Some q => negb (falsy q)
  | None => false
  end.

(** [arr.map((x, i) => f(x, i))]. *)
Fixpoint map_indexed {A B : Type} (f : A -> nat -> B) (i : nat) (arr : list A) : list B :=
  match arr with
  | [] => []
  | x :: rest => f x i :: map_indexed f (S i) rest
  end.

(* ===================================================================== *)
(** ** The robots list of [App.jsx], the input of the asset view *)
(* ===================================================================== *)

(** The fields of [sensor_data] the views read. *)
Record Sensors : Type := {
  s_Torque : option Q;
  s_Temperature : option Q;
  s_Speed : option Q;
  s_Vibration : option Q;
  s_ToolWear : option Q;
  s_Slope_24h : option Q
}.

(** The object [{}]. *)
Definition noSensors : Sensors :=
  {| s_Torque := None; s_Temperature := None; s_Speed := None;
     s_Vibration := None; s_ToolWear := None; s_Slope_24h := None |}.

(** The body served by [/api/v1/predict/machine/{id}]. *)
Record Prediction : Type := {
  machine_id : option string;
  status : option string;
  failure_probability : option Q;
  rul_prediction : option Q;
  degradation_score : option Q;
  sensor_data : option Sensors
}.

Definition noPrediction : Prediction :=
  {| machine_id := None; status := None; failure_probability := None;
     rul_prediction := None; degradation_score := None; sensor_data := None |}.

(** What [fetch] for one machine settles to; the body may parse to [null]. *)
Record MachineResponse : Type := {
  m_ok : bool;
  m_json : Promise (option Prediction)
}.

Definition MACHINE_IDS : list string :=
  ["H29424"; "H29425"; "H29432"; "H29434"; "H29441"; "H29452"; "H29457"; "H29462"]%string.

(** The object returned by the [catch] of one machine's fetch. *)
Definition machineFallback (id : string) : Prediction :=
  {| machine_id := Some id; status := Some "unknown"%string;
     failure_probability := Some 0; rul_prediction := Some 0;
     degradation_score := None; sensor_data := Some noSensors |}.

(** The callback of [MACHINE_IDS.map(async (id) => ...)]: a rejected fetch,
    a non-OK status (which throws) and a body that does not parse all end
    in the [catch]. *)
Definition fetchMachine (id : string) (fetched : Promise MachineResponse)
  : option Prediction :=
  match fetched with
  | Fulfilled res =>
      if negb (m_ok res) then Some (machineFallback id)
      else match m_json res with
           | Fulfilled r => r
           | Rejected _ => Some (machineFallback id)
           end
  | Rejected _ => Some (machineFallback id)
  end.

(** One element of [robotsData]. *)
Record Robot : Type := {
  r_id : option string;
  r_name : string;
  r_status : string;
  r_risk : Q;
  r_prediction : string;
  r_degradation_score : Q;
  r_details : string;
  r_sensors : Sensors
}.

(** The [if] chain that sets [status]. *)
Definition statusOf (safeStatus : string) (failure_probability : option Q) : string :=
  if includes safeStatus "risk" || Qlt_bool (1 # 2) (or_default failure_probability 0)
  then "critical"%string
  else if includes safeStatus "warn" then "warning"%string
  else if String.eqb safeStatus "unknown" then "unknown"%string
  else "healthy"%string.

(** The callback of [results.map((r, i) => ...)].  The products
    [failure_probability * 100] and [rul_prediction * 4000] are exact here;
    the engine rounds them to a double before [Math.round], which can move
    the rounded value by one where the exact product is one of the
    half-integers or next to it (a probability of 0.285 gives 28 there and
    29 here). *)
Definition formatRobot (r : option Prediction) (i : nat) : Robot :=
  let safeR := match r with Some x => x | None => noPrediction end in
  let safeStatus :=
    toLowerCase (match string_or (status safeR) None with
                 | Some x => x
                 | None => EmptyString
                 end) in
  {| r_id := string_or (machine_id safeR) (nth_error MACHINE_IDS i);
     r_name := ("Robot " ++ string_of_Z (Z.of_nat i + 1))%string;
     r_status := statusOf safeStatus (failure_probability safeR);
     r_risk := match failure_probability safeR with
               | Some p => if falsy p then 0 else inject_Z (Math_round (p * 100))
               | None => 0
               end;
     r_prediction :=
       match rul_prediction safeR with
       | Some rul =>
           if falsy rul then "--"%string
           else (string_of_Z
                   (Z.max 1 (Math_round
                               ((if Qlt_bool rul 1 then rul * 4000 else rul) / 24)))
                 ++ " Days")%string
       | None => "--"%string
       end;
     r_degradation_score := or_default (degradation_score safeR) 0;
     r_details := safeStatus;
     r_sensors := match sensor_data safeR with
                  | Some x => x
                  | None => noSensors
                  end |}.

(** [results] and [formattedData] of [fetchData]; [outcome] tells what the
    fetch for each machine id settles to. *)
Definition fetchResults (outcome : string -> Promise MachineResponse)
  : list (option Prediction) :=
  map (fun id => fetchMachine id (outcome id)) MACHINE_IDS.

Definition formattedData (results : list (option Prediction)) : list Robot :=
  map_indexed formatRobot 0 results.

(** [fetchData] from [Promise.all] on: the state is replaced unless the
    effect has been cleaned up. *)
Definition fetchData (isMounted : bool) (outcome : string -> Promise MachineResponse)
    (robotsData : list Robot) : list Robot :=
  if negb isMounted then robotsData else formattedData (fetchResults outcome).

(* ===================================================================== *)
(** ** The rest of the asset view *)
(* ===================================================================== *)

(** [robots.find(r => r.id === id)]. *)
Definition findRobot (robots : list Robot) (id : string) : option Robot :=
  find (fun r => match r_id r with
                 | Some x => String.eqb x id
                 | None => false
                 end) robots.

(** [robot?.sensors || {}]. *)
Definition sensorsOf (robot : option Robot) : Sensors :=
  match robot with
  | Some r => r_sensors r
  | None => noSensors
  end.

(** The memo [liveSensors]. *)
Definition liveSensors (sensors : Sensors) (historyData : list Sample) : Sensors :=
  if truthy (s_Torque sensors) || truthy (s_Temperature sensors)
     || truthy (s_Speed sensors)
  then sensors
  else match lastOf historyData with
       | Some latest =>
           {| s_Torque := Some (Torque latest);
              s_Temperature := Some (Temperature latest);
              s_Speed := Some (Speed latest);
              s_Vibration := Some (Vibration latest);
              s_ToolWear := Some (current_tool_wear_pct latest);
              s_Slope_24h := None |}
       | None =>
           {| s_Torque := Some 40; s_Temperature := Some 300; s_Speed := Some 2800;
              s_Vibration := Some (1 # 2); s_ToolWear := Some 35;
              s_Slope_24h := None |}
       end.

(** The number a metric card shows: [value?.toFixed(digits)]. *)
Definition cardValue (digits : nat) (value : option Q) : option Q :=
  option_map (toFixed digits) value.

(** The colour of the failure probability card. *)
Definition riskColor (robot : Robot) : string :=
  if Qlt_bool 50 (r_risk robot) then "#ef4444"%string else "#10b981"%string.

(** One point of the degradation chart; [null] is [None]. *)
Record TrendPoint : Type := {
  tp_day : string;
  tp_Trend : option Q;
  tp_Projection : option Q
}.

(** One row of the RUL chart. *)
Record RulPoint : Type := {
  rp_time : option string;
  rp_rul_prediction : option Q
}.

Section Memos.
Context {M : MathLib}.

(** The memo [rulHistory]. *)
Definition rulHistory : list RulPoint :=
  map (fun i =>
         let iq := inject_Z (Z.of_nat i) in
         let day := (30 - Z.of_nat i)%Z in
         let baseRul := 45 - iq * (6 # 5) in
         let noise := Math_sin iq * 2 in
         {| rp_time := Some ("Day -" ++ string_of_Z day)%string;
            rp_rul_prediction := Some (Qmax 0 (baseRul + noise)) |})
      (seq 0 30).

Definition currentRiskOf (robot : option Robot) : Q :=
  match robot with
  | Some r => if falsy (r_risk r) then 5 else r_risk r
  | None => 5
  end.

(** The memo [trendHistory]. *)
Definition trendHistory (robot : option Robot) : list TrendPoint :=
  let currentRisk := currentRiskOf robot in
  let startHealth := 85 - currentRisk * (1 # 5) in
  let endHealth := 100 - currentRisk - 20 in
  let dailyDecline := (startHealth - endHealth) / 6 in
  let todayValue := endHealth in
  let historicalData :=
    map (fun i =>
           let iq := inject_Z (Z.of_nat i) in
           let day := (Z.of_nat i - 6)%Z in
           let baseValue := startHealth - iq * dailyDecline in
           let noise := Math_sin (iq * (3 # 2)) * 3 in
           let actualValue := Qmax 5 (Qmin 95 (baseValue + noise)) in
           {| tp_day := if (day =? 0)%Z then "Today"%string
                        else (string_of_Z day ++ "d")%string;
              tp_Trend := Some actualValue;
              tp_Projection := if (day =? 0)%Z then Some actualValue else None |})
        (seq 0 7) in
  let projectionData :=
    map (fun i =>
           let day := (Z.of_nat i + 1)%Z in
           let projectedValue := todayValue - dailyDecline * inject_Z day * (11 # 10) in
           {| tp_day := ("+" ++ string_of_Z day ++ "d")%string;
              tp_Trend := None;
              tp_Projection := Some (Qmax 0 (Qmin 95 projectedValue)) |})
        (seq 0 5) in
  historicalData ++ projectionData.

End Memos.

(* ===================================================================== *)
(** ** The charts fed by the asset view *)
(* ===================================================================== *)

(** [toLocaleTimeString] of the date at a timestamp, with or without the
    seconds; the result depends on the locale of the browser. *)
Class Locale : Type := {
  toLocaleTimeString : Z -> bool -> string
}.

(** A point of the window as the charts see it: an object whose keys may be
    missing. *)
Record DataRow : Type := {
  d_timestamp : option Z;
  d_time : option string;
  d_Torque : option Q;
  d_Temperature : option Q;
  d_Speed : option Q;
  d_Vibration : option Q;
  d_current_tool_wear_pct : option Q
}.

(** One point of the multi-line chart. *)
Record PlotPoint : Type := {
  p_time : string;
  p_value : Q;
  p_metric : string
}.

(** What a chart component returns: a placeholder with its text, or the
    line plot with its data.  The charts copy their data through
    [JSON.parse(JSON.stringify(...))] first, which leaves rows of numbers
    and strings with missing keys as they are. *)
Inductive Rendered (A : Type) : Type :=
| Placeholder (text : string)
| LinePlot (data : list A).
Arguments Placeholder {A} text.
Arguments LinePlot {A} data.

(** [Number(x) || 0] on a number. *)
Definition numberOr0 (x : Q) : Q := if falsy x then 0 else x.

(** [Number(x) || 0] on a key that may be missing: [Number(undefined)] is
    [NaN], which is falsy. *)
Definition numberOr0_opt (x : option Q) : Q :=
  match x with
  | Some q => numberOr0 q
  | None => 0
  end.

Definition nonEmptyString (s : option string) : bool :=
  match s with
  | Some (String _ _) => true
  | _ => false
  end.

Definition isSome {A : Type} (x : option A) : bool :=
  match x with
  | Some _ => true
  | None => false
  end.

(** The body of [data.forEach(d => ...)] in the trend chart, on the array
    built so far. *)
Definition pushMetrics (transformedData : list PlotPoint) (d : DataRow)
  : list PlotPoint :=
  match d_time d with
  | Some (String c rest) =>
      let time := String c rest in
      let t1 := match d_Vibration d with
                | Some v => transformedData
                            ++ [{| p_time := time; p_value := numberOr0 v;
                                   p_metric := "Vibration" |}]
                | None => transformedData
                end in
      let t2 := match d_Torque d with
                | Some v => t1 ++ [{| p_time := time; p_value := numberOr0 v;
                                      p_metric := "Torque" |}]
                | None => t1
                end in
      match d_Temperature d with
      | Some v => t2 ++ [{| p_time := time; p_value := numberOr0 v;
                            p_metric := "Temperature" |}]
      | None => t2
      end
  | _ => transformedData
  end.

(** [MultiMetricTrendChart]; [data] is [None] when the prop is no array. *)
Definition MultiMetricTrendChart (data : option (list DataRow)) (loading : bool)
  : Rendered PlotPoint :=
  if loading then Placeholder "Loading Trend Data..."
  else match data with
       | None | Some [] => Placeholder "No telemetry data available"
       | Some (firstItem :: rest) =>
           let hasRequiredFields :=
             isSome (d_time firstItem) &&
             (isSome (d_Vibration firstItem) || isSome (d_Torque firstItem)
              || isSome (d_Temperature firstItem)) in
           if negb hasRequiredFields then Placeholder "Invalid data format"
           else match fold_left pushMetrics (firstItem :: rest) [] with
                | [] => Placeholder "No valid data points to display"
                | transformedData => LinePlot transformedData
                end
       end.

(** [SpcChart]. *)
Definition SpcChart (data : option (list DataRow)) (loading : bool)
  : Rendered DataRow :=
  if loading then Placeholder "Loading SPC Data..."
  else match data with
       | None | Some [] => Placeholder "No SPC data available"
       | Some (firstItem :: rest) =>
           if negb (isSome (d_time firstItem))
           then Placeholder "Data error: Missing 'time' field"
           else if negb (isSome (d_current_tool_wear_pct firstItem))
           then Placeholder "Data error: Missing 'current_tool_wear_pct' field"
           else LinePlot
                  (map (fun item =>
                          {| d_timestamp := d_timestamp item;
                             d_time := d_time item;
                             d_Torque := d_Torque item;
                             d_Temperature := d_Temperature item;
                             d_Speed := d_Speed item;
                             d_Vibration := d_Vibration item;
                             d_current_tool_wear_pct :=
                               Some (numberOr0_opt (d_current_tool_wear_pct item)) |})
                       (firstItem :: rest))
       end.

(** [RulDecayChart]. *)
Definition RulDecayChart (data : option (list RulPoint)) (loading : bool)
  : Rendered RulPoint :=
  if loading then Placeholder "Calculating RUL Projection..."
  else match data with
       | None | Some [] => Placeholder "No RUL data available"
       | Some (firstItem :: rest) =>
           if negb (isSome (rp_time firstItem))
           then Placeholder "Data error: Missing 'time' field"
           else if negb (isSome (rp_rul_prediction firstItem))
           then Placeholder "Data error: Missing 'rul_prediction' field"
           else LinePlot
                  (map (fun item =>
                          {| rp_time := rp_time item;
                             rp_rul_prediction :=
                               Some (numberOr0_opt (rp_rul_prediction item)) |})
                       (firstItem :: rest))
       end.

Section Wiring.
Context {M : MathLib} {L : Locale}.

(** A sample as the object it is; the label has seconds in the window and
    none in the mock data. *)
Definition rowOfSample (withSeconds : bool) (pt : Sample) : DataRow :=
  {| d_timestamp := Some (timestamp pt);
     d_time := Some (toLocaleTimeString (timestamp pt) withSeconds);
     d_Torque := Some (Torque pt);
     d_Temperature := Some (Temperature pt);
     d_Speed := Some (Speed pt);
     d_Vibration := Some (Vibration pt);
     d_current_tool_wear_pct := Some (current_tool_wear_pct pt) |}.

(** The three points the trend chart draws for one sample. *)
Definition threePoints (withSeconds : bool) (pt : Sample) : list PlotPoint :=
  [ {| p_time := toLocaleTimeString (timestamp pt) withSeconds;
       p_value := numberOr0 (Vibration pt); p_metric := "Vibration" |};
    {| p_time := toLocaleTimeString (timestamp pt) withSeconds;
       p_value := numberOr0 (Torque pt); p_metric := "Torque" |};
    {| p_time := toLocaleTimeString (timestamp pt) withSeconds;
       p_value := numberOr0 (Temperature pt); p_metric := "Temperature" |} ].

(** The array [combinedData] as the charts receive it. *)
Definition combinedRows (historyData : list Sample) (env : RenderEnv) : list DataRow :=
  map (rowOfSample (match historyData with [] => false | _ => true end))
      (combinedData historyData env).

(** [<MultiMetricTrendChart data={combinedData} loading={!combinedData.length} />]. *)
Definition telemetryChart (historyData : list Sample) (env : RenderEnv)
  : Rendered PlotPoint :=
  let rows := combinedRows historyData env in
  MultiMetricTrendChart (Some rows) (Nat.eqb (length rows) 0).

(** [<SpcChart data={combinedData} loading={!combinedData.length} />]. *)
Definition spcChart (historyData : list Sample) (env : RenderEnv) : Rendered DataRow :=
  let rows := combinedRows historyData env in
  SpcChart (Some rows) (Nat.eqb (length rows) 0).

(** [<RulDecayChart data={rulHistory} loading={false} />]. *)
Definition rulChart : Rendered RulPoint := RulDecayChart (Some rulHistory) false.

End Wiring.

(* ===================================================================== *)
(** ** Predicates and concrete inputs for the views *)
(* ===================================================================== *)

(** A fetch for one machine that ends in the [catch]. *)
Definition machineFails (fetched : Promise MachineResponse) : bool :=
  match fetched with
  | Fulfilled res =>
      negb (m_ok res) || match m_json res with
                         | Fulfilled _ => false
                         | Rejected _ => true
                         end
  | Rejected _ => true
  end.

(** The response repeats the id it was asked for, or leaves it out. *)
Definition echoes (id : string) (r : option Prediction) : Prop :=
  match r with
  | Some x => string_or (machine_id x) (Some id) = Some id
  | None => True
  end.

(** No metric of the sample is zero. *)
Definition nonzero_sample (pt : Sample) : Prop :=
  ~ Torque pt == 0 /\ ~ Temperature pt == 0 /\ ~ Speed pt == 0 /\
  ~ Vibration pt == 0 /\ ~ current_tool_wear_pct pt == 0.

(** The API object has no reading the view accepts. *)
Definition noUsableSensors (sensors : Sensors) : Prop :=
  truthy (s_Torque sensors) = false /\ truthy (s_Temperature sensors) = false /\
  truthy (s_Speed sensors) = false.

(** A prediction for a machine at 80 percent failure probability. *)
Definition prediction_at_risk : Prediction :=
  {| machine_id := None; status := Some "High RiSk level"%string;
     failure_probability := Some (4 # 5); rul_prediction := Some 120;
     degradation_score := None; sensor_data := None |}.

(** A prediction for a machine at 90 percent failure probability. *)
Definition prediction_at_higher_risk : Prediction :=
  {| machine_id := None; status := None;
     failure_probability := Some (9 # 10); rul_prediction := None;
     degradation_score := None; sensor_data := None |}.

(** The first machine answers, the fetches for the others are rejected. *)
Definition one_machine_answers (id : string) : Promise MachineResponse :=
  if String.eqb id "H29424"
  then Fulfilled {| m_ok := true; m_json := Fulfilled (Some prediction_at_risk) |}
  else Rejected NetworkError.

(** A stand-in for the locale of the browser in concrete runs: the label
    is the timestamp in digits after a "T", with an "s" when seconds are
    asked for. *)
Definition EpochLocale : Locale :=
  {| toLocaleTimeString := fun t withSeconds =>
       String "T" (string_of_Z t ++ (if withSeconds then "s" else ""))%string |}.

(** Two rows, the second without a time label. *)
Definition row_with_all : DataRow :=
  {| d_timestamp := Some 1700000000000%Z; d_time := Some "10:00:00"%string;
     d_Torque := Some 42; d_Temperature := Some 301; d_Speed := Some 2790;
     d_Vibration := Some (3 # 5); d_current_tool_wear_pct := Some 50 |}.

Definition row_without_time_and_wear : DataRow :=
  {| d_timestamp := Some 1700000005000%Z; d_time := None;
     d_Torque := Some 43; d_Temperature := Some 302; d_Speed := Some 2795;
     d_Vibration := Some (3 # 5); d_current_tool_wear_pct := None |}.

(* ===================================================================== *)
(** ** Facts about the numerics *)
(* ===================================================================== *)

Lemma Qle_same_den (a b : Z) (d : positive) :
  (a <= b)%Z <-> a # d <= b # d.
Proof.
  unfold Qle; simpl. split; intro H.
  - apply Z.mul_le_mono_nonneg_r; lia.
  - apply Z.mul_le_mono_pos_r in H; lia.
Qed.

Lemma round_arg_nonneg (x s : Q) :
  0 <= s -> (0 <= Qfloor (Qabs x * s + (1 # 2)))%Z.
Proof.
  intro Hs.
  change 0%Z with (Qfloor 0).
  apply Qfloor_resp_le.
  pose proof (Qabs_nonneg x) as Hx.
  pose proof (Qmult_le_0_compat _ _ Hx Hs). lra.
Qed.

Lemma inject_pos_nonneg (p : positive) : 0 <= inject_Z (Zpos p).
Proof. unfold Qle; simpl; lia. Qed.

Lemma toFixed_units_mono (digits : nat) (x y : Q) :
  x <= y -> (toFixed_units digits x <= toFixed_units digits y)%Z.
Proof.
  intro Hxy. unfold toFixed_units.
  set (s := inject_Z (Zpos (scale digits))).
  assert (Hs : 0 <= s) by apply inject_pos_nonneg.
  pose proof (round_arg_nonneg x s Hs) as Hx0.
  pose proof (round_arg_nonneg y s Hs) as Hy0.
  destruct (Qle_bool 0 x) eqn:Ex; destruct (Qle_bool 0 y) eqn:Ey.
  - apply Qle_bool_iff in Ex, Ey.
    rewrite (Qabs_pos x Ex), (Qabs_pos y Ey).
    apply Qfloor_resp_le.
    pose proof (Qmult_le_compat_r _ _ s Hxy Hs). lra.
  - apply Qle_bool_iff in Ex.
    assert (Hy : ~ 0 <= y) by (intro H; apply Qle_bool_iff in H; congruence).
    exfalso. apply Hy. lra.
  - lia.
  - assert (Hx : ~ 0 <= x) by (intro H; apply Qle_bool_iff in H; congruence).
    assert (Hy : ~ 0 <= y) by (intro H; apply Qle_bool_iff in H; congruence).
    assert (Hx' : x <= 0) by lra.
    assert (Hy' : y <= 0) by lra.
    rewrite (Qabs_neg x Hx'), (Qabs_neg y Hy').
    apply Z.opp_le_mono. rewrite !Z.opp_involutive.
    apply Qfloor_resp_le.
    assert (Hneg : - y <= - x) by lra.
    pose proof (Qmult_le_compat_r _ _ s Hneg Hs). lra.
Qed.

(** Rounding keeps the order. *)
Lemma toFixed_mono (digits : nat) (x y : Q) :
  x <= y -> toFixed digits x <= toFixed digits y.
Proof.
  intro H. unfold toFixed. apply Qle_same_den.
  now apply toFixed_units_mono.
Qed.

(** A value between two numbers that [toFixed] leaves alone stays between
    them after rounding. *)
Lemma toFixed_between (digits : nat) (lo hi x : Q) :
  toFixed digits lo == lo -> toFixed digits hi == hi ->
  lo <= x -> x <= hi ->
  lo <= toFixed digits x /\ toFixed digits x <= hi.
Proof.
  intros Hlo Hhi H1 H2. split.
  - rewrite <- Hlo. now apply toFixed_mono.
  - rewrite <- Hhi. now apply toFixed_mono.
Qed.

(** Rounding a non-negative number to one decimal loses at most 1/20. *)
Lemma toFixed1_lower (x : Q) :
  0 <= x -> x - (1 # 20) <= toFixed 1 x.
Proof.
  intro Hx. unfold toFixed, toFixed_units.
  assert (E : Qle_bool 0 x = true) by now apply Qle_bool_iff.
  rewrite E, (Qabs_pos x Hx).
  change (scale 1) with 10%positive.
  set (a := x * inject_Z 10 + (1 # 2)).
  pose proof (Qlt_floor a) as Hf.
  assert (Hq : Qfloor a # 10 == inject_Z (Qfloor a) / 10).
  { unfold Qeq, Qdiv, Qmult, Qinv, inject_Z; simpl. lia. }
  rewrite Hq.
  assert (Ha : inject_Z (Qfloor a + 1) == inject_Z (Qfloor a) + 1).
  { rewrite inject_Z_plus. reflexivity. }
  rewrite Ha in Hf.
  assert (Hax : a == x * 10 + (1 # 2)) by reflexivity.
  clearbody a.
  apply Qle_shift_div_l; [reflexivity|]. lra.
Qed.

Lemma clamp_between (lo hi x : Q) :
  lo <= hi -> lo <= Qmax lo (Qmin hi x) /\ Qmax lo (Qmin hi x) <= hi.
Proof.
  intro H. split.
  - apply Q.le_max_l.
  - apply Q.max_lub; [exact H | apply Q.le_min_l].
Qed.

Lemma wear_between (x : Q) :
  5 <= Qmin 95 (Qmax 5 x) /\ Qmin 95 (Qmax 5 x) <= 95.
Proof.
  split.
  - apply Q.min_glb; [lra | apply Q.le_max_l].
  - apply Q.le_min_l.
Qed.

Lemma wear_clamp_mono (x y : Q) :
  x <= y -> Qmin 95 (Qmax 5 x) <= Qmin 95 (Qmax 5 y).
Proof.
  intro H. apply Q.min_le_compat_l. apply Q.max_le_compat_l. exact H.
Qed.

(* ===================================================================== *)
(** ** Facts about arrays *)
(* ===================================================================== *)

Lemma slice_last_length {A : Type} (n : nat) (arr : list A) :
  length (slice_last n arr) = Nat.min (length arr) n.
Proof. unfold slice_last. rewrite length_skipn. lia. Qed.

Lemma slice_last_all {A : Type} (n : nat) (arr : list A) :
  (length arr <= n)%nat -> slice_last n arr = arr.
Proof.
  intro H. unfold slice_last.
  replace (length arr - n)%nat with 0%nat by lia. reflexivity.
Qed.

Lemma slice_last_map {A B : Type} (f : A -> B) (n : nat) (arr : list A) :
  map f (slice_last n arr) = slice_last n (map f arr).
Proof. unfold slice_last. rewrite length_map. symmetry. apply skipn_map. Qed.

Lemma slice_last_incl {A : Type} (n : nat) (arr : list A) (x : A) :
  In x (slice_last n arr) -> In x arr.
Proof.
  unfold slice_last. intro H.
  rewrite <- (firstn_skipn (length arr - n) arr). apply in_or_app. now right.
Qed.

(** Sliding twice is sliding once over everything that was appended. *)
Lemma slice_last_app_slide {A : Type} (n : nat) (arr more : list A) :
  slice_last n (slice_last n arr ++ more) = slice_last n (arr ++ more).
Proof.
  unfold slice_last.
  rewrite !length_app, length_skipn.
  destruct (Nat.le_gt_cases (length arr) n) as [Hle | Hgt].
  - replace (length arr - n)%nat with 0%nat by lia. simpl.
    now rewrite Nat.sub_0_r.
  - rewrite !skipn_app, length_skipn.
    rewrite skipn_skipn.
    replace (length arr - (length arr - n) + length more - n
             + (length arr - n))%nat
      with (length arr + length more - n)%nat by lia.
    replace (length arr - (length arr - n) + length more - n
             - (length arr - (length arr - n)))%nat
      with (length arr + length more - n - length arr)%nat by lia.
    reflexivity.
Qed.

Lemma slice_last_full_push {A : Type} (n : nat) (arr : list A) (x : A) :
  length arr = n -> (0 < n)%nat -> slice_last n (arr ++ [x]) = tl arr ++ [x].
Proof.
  intros Hlen Hn. unfold slice_last. rewrite length_app. simpl.
  replace (length arr + 1 - n)%nat with 1%nat by lia.
  destruct arr as [| a arr']; simpl in *; [lia | reflexivity].
Qed.

Lemma lastOf_app {A : Type} (arr : list A) (x : A) : lastOf (arr ++ [x]) = Some x.
Proof.
  unfold lastOf. destruct (arr ++ [x]) eqn:E.
  - destruct arr; discriminate.
  - rewrite <- E. rewrite length_app. simpl.
    replace (length arr + 1 - 1)%nat with (length arr + 0)%nat by lia.
    rewrite nth_error_app2 by lia.
    replace (length arr + 0 - length arr)%nat with 0%nat by lia. reflexivity.
Qed.

Lemma lastOf_nonempty {A : Type} (arr : list A) :
  arr <> [] -> exists front x, arr = front ++ [x].
Proof.
  intro H. destruct (exists_last H) as [front [x E]]. now exists front, x.
Qed.

Lemma lastOf_slice_push {A : Type} (n : nat) (arr : list A) (x : A) :
  (0 < n)%nat -> lastOf (slice_last n (arr ++ [x])) = Some x.
Proof.
  intro Hn. unfold slice_last. rewrite length_app. simpl.
  destruct (Nat.le_gt_cases (length arr + 1) n) as [Hle | Hgt].
  - replace (length arr + 1 - n)%nat with 0%nat by lia. apply lastOf_app.
  - rewrite skipn_app.
    replace (length arr + 1 - n - length arr)%nat with 0%nat by lia.
    simpl. apply lastOf_app.
Qed.

Lemma nondecreasing_cons (x : Z) (l : list Z) :
  nondecreasing (x :: l) = true -> nondecreasing l = true.
Proof.
  destruct l as [| y l']; [reflexivity |].
  simpl. intro H. apply andb_true_iff in H. tauto.
Qed.

Lemma nondecreasing_skipn (k : nat) (l : list Z) :
  nondecreasing l = true -> nondecreasing (skipn k l) = true.
Proof.
  revert l. induction k as [| k IH]; intros l H; [exact H |].
  destruct l as [| x l']; [reflexivity |].
  simpl. apply IH. now apply nondecreasing_cons in H.
Qed.

Lemma nondecreasing_slice_last (n : nat) (l : list Z) :
  nondecreasing l = true -> nondecreasing (slice_last n l) = true.
Proof. apply nondecreasing_skipn. Qed.

(* ===================================================================== *)
(** ** Facts about the closure store *)
(* ===================================================================== *)

Lemma set_closure_length (g : nat) (c : Closure) (l : list Closure) :
  length (set_closure g c l) = length l.
Proof.
  revert g. induction l as [| x l IH]; intros [| g]; simpl; auto.
Qed.

Lemma set_closure_same (g : nat) (c : Closure) (l : list Closure) :
  (g < length l)%nat -> nth_error (set_closure g c l) g = Some c.
Proof.
  revert g. induction l as [| x l IH]; intros [| g] H; simpl in *; try lia; auto.
  apply IH. lia.
Qed.

Lemma set_closure_other (g h : nat) (c : Closure) (l : list Closure) :
  g <> h -> nth_error (set_closure g c l) h = nth_error l h.
Proof.
  revert g h. induction l as [| x l IH]; intros [| g] [| h] H; simpl; auto;
    try congruence.
Qed.

Lemma nth_error_in_range {A : Type} (l : list A) (g : nat) (x : A) :
  nth_error l g = Some x -> (g < length l)%nat.
Proof. intro H. apply nth_error_Some. congruence. Qed.

(* ===================================================================== *)
(** ** What each handler does to the window and to the ref *)
(* ===================================================================== *)

Section HandlerFacts.
Context {M : MathLib}.

Lemma tickInterval_live (g : nat) (e : TickEnv) (s : View) (c : Closure) :
  nth_error (closures s) g = Some c -> isMounted c = true ->
  tickInterval g e s =
    {| attached := attached s; robotId := robotId s; timeRange := timeRange s;
       historyData :=
         appendPoint (historyData s)
           (snd (generateNewDataPoint (S (tickCount c)) e (prevValues s)));
       prevValues := nextPrevValues (S (tickCount c)) e (prevValues s);
       closures := set_closure g {| isMounted := true; tickCount := S (tickCount c);
                                    fetchPending := fetchPending c |} (closures s);
       console := console s ++ [LogTick (S (tickCount c))] |}.
Proof.
  intros Hc Hm. unfold tickInterval. rewrite Hc, Hm. reflexivity.
Qed.

Lemma tickInterval_dead (g : nat) (e : TickEnv) (s : View) :
  (forall c, nth_error (closures s) g = Some c -> isMounted c = false) ->
  tickInterval g e s = s.
Proof.
  intro H. unfold tickInterval.
  destruct (nth_error (closures s) g) as [c |] eqn:Hc; [| reflexivity].
  now rewrite (H c eq_refl).
Qed.

(** Whatever the fetch settles to, [initializeAndStream] fulfils. *)
Lemma initializeAndStream_fulfils (mounted : bool) (fetched : Promise Response) (s : View) :
  exists s', initializeAndStream mounted fetched s = Fulfilled s'.
Proof.
  unfold initializeAndStream.
  destruct fetched as [res | err]; simpl; [| eexists; reflexivity].
  destruct (ok res); [| eexists; reflexivity].
  destruct (json res) as [[| items] | err]; simpl; try (eexists; reflexivity).
  destruct ((0 <? length items)%nat && mounted); eexists; reflexivity.
Qed.

(** Outside a mounted run the seed never reaches the window or the ref. *)
Lemma initializeAndStream_unmounted (fetched : Promise Response) (s : View) :
  let s' := settled (initializeAndStream false fetched s) s in
  historyData s' = historyData s /\ prevValues s' = prevValues s /\
  closures s' = closures s /\ attached s' = attached s /\
  robotId s' = robotId s /\ timeRange s' = timeRange s.
Proof.
  unfold initializeAndStream.
  destruct fetched as [res | err]; simpl; [| tauto].
  destruct (ok res); simpl; [| tauto].
  destruct (json res) as [[| items] | err]; simpl; try tauto.
  rewrite andb_false_r. simpl. tauto.
Qed.

(** On a non-empty array in a mounted run the window and the ref are
    overwritten by the seed. *)
Lemma initializeAndStream_seeds (items : list HistoryRecord) (s : View) :
  items <> [] ->
  initializeAndStream true
    (Fulfilled {| ok := true; json := Fulfilled (JsonArray items) |}) s
  = Fulfilled (seedWindow items s).
Proof.
  intro H. unfold initializeAndStream. simpl.
  destruct items; [congruence | reflexivity].
Qed.

Lemma initialDataOf_length (data : list HistoryRecord) :
  length (initialDataOf data) = Nat.min (length data) 50.
Proof. unfold initialDataOf. now rewrite length_map, slice_last_length. Qed.

Lemma initialDataOf_nonempty (data : list HistoryRecord) :
  data <> [] -> initialDataOf data <> [].
Proof.
  intros H E. apply (f_equal (@length Sample)) in E.
  rewrite initialDataOf_length in E. destruct data; [congruence | simpl in E; lia].
Qed.

Lemma seedWindow_data (items : list HistoryRecord) (s : View) :
  items <> [] ->
  historyData (seedWindow items s) = initialDataOf items /\
  exists lastPoint, lastOf (initialDataOf items) = Some lastPoint /\
                    prevValues (seedWindow items s) = prevValuesOfPoint lastPoint.
Proof.
  intro H. unfold seedWindow. split.
  - destruct (lastOf (initialDataOf items)); reflexivity.
  - destruct (lastOf_nonempty _ (initialDataOf_nonempty items H)) as [front [x E]].
    exists x. rewrite E, lastOf_app. split; reflexivity.
Qed.

End HandlerFacts.

(* ===================================================================== *)
(** ** Seeding: defaults for missing and for falsy fields *)
(* ===================================================================== *)

Lemma or_default_zero (q dflt : Q) : q == 0 -> or_default (Some q) dflt = dflt.
Proof.
  intro H. unfold or_default, falsy.
  apply Qeq_bool_iff in H. now rewrite H.
Qed.

Lemma or_default_kept (q dflt : Q) : ~ q == 0 -> or_default (Some q) dflt = q.
Proof.
  intro H. unfold or_default, falsy.
  destruct (Qeq_bool q 0) eqn:E; [| reflexivity].
  apply Qeq_bool_iff in E. contradiction.
Qed.

Section Seeding.
Context {M : MathLib}.

Lemma historySettled_seeds (g : nat) (s : View) (c : Closure) (data : list HistoryRecord) :
  nth_error (closures s) g = Some c -> isMounted c = true -> fetchPending c = true ->
  data <> [] ->
  historyData (historySettled g (fetchedOk data) s) = initialDataOf data /\
  (exists lastPoint, lastOf (initialDataOf data) = Some lastPoint /\
     prevValues (historySettled g (fetchedOk data) s) = prevValuesOfPoint lastPoint) /\
  closures (historySettled g (fetchedOk data) s)
  = set_closure g {| isMounted := true; tickCount := tickCount c;
                     fetchPending := false |} (closures s).
Proof.
  intros Hc Hm Hp Hd. unfold historySettled. rewrite Hc, Hp, Hm. simpl negb. cbv iota.
  unfold fetchedOk. rewrite (initializeAndStream_seeds data _ Hd). simpl settled.
  destruct (seedWindow_data data
              (set_closures
                 (set_closure g {| isMounted := true; tickCount := tickCount c;
                                   fetchPending := false |} (closures s)) s) Hd)
    as [Hh Hl].
  split; [exact Hh |]. split; [exact Hl |].
  unfold seedWindow. destruct (lastOf (initialDataOf data)); reflexivity.
Qed.

(** C9 (amended): a record of a non-empty batch whose metric fields are
    missing gets the per-metric default (Torque 40, Temperature 300, Speed
    2800, Vibration 0.5, wear 35) in each missing field, keeps every field
    that is present and non-zero, and is seeded together with the rest of
    the batch: the window holds the last 50 records, normalized. *)
Theorem seed_recovers_missing_fields
    (g : nat) (s : View) (c : Closure) (data : list HistoryRecord) (d : HistoryRecord) :
  nth_error (closures s) g = Some c -> isMounted c = true -> fetchPending c = true ->
  In d (slice_last 50 data) ->
  let window := historyData (historySettled g (fetchedOk data) s) in
  length window = Nat.min (length data) 50 /\
  In (normalize d) window /\
  timestamp (normalize d) = h_time d /\
  (h_Torque d = None -> Torque (normalize d) = 40) /\
  (h_Temperature d = None -> Temperature (normalize d) = 300) /\
  (h_Speed d = None -> Speed (normalize d) = 2800) /\
  (h_Vibration d = None -> Vibration (normalize d) = 1 # 2) /\
  (h_tool_wear_pct d = None -> current_tool_wear_pct (normalize d) = 35) /\
  (forall q, h_Torque d = Some q -> ~ q == 0 -> Torque (normalize d) = q) /\
  (forall q, h_Temperature d = Some q -> ~ q == 0 -> Temperature (normalize d) = q) /\
  (forall q, h_Speed d = Some q -> ~ q == 0 -> Speed (normalize d) = q) /\
  (forall q, h_Vibration d = Some q -> ~ q == 0 -> Vibration (normalize d) = q) /\
  (forall q, h_tool_wear_pct d = Some q -> ~ q == 0 ->
             current_tool_wear_pct (normalize d) = q).
Proof.
  intros Hc Hm Hp Hin window.
  assert (Hd : data <> []).
  { intro E. subst data. exact Hin. }
  destruct (historySettled_seeds g s c data Hc Hm Hp Hd) as [Hh _].
  subst window. rewrite Hh.
  split; [apply initialDataOf_length |].
  split; [unfold initialDataOf; now apply in_map |].
  split; [reflexivity |].
  unfold normalize; simpl.
  repeat split; intros.
  all: try (match goal with H : _ = None |- _ => rewrite H end; reflexivity).
  all: match goal with H : _ = Some _ |- _ => rewrite H end;
       now apply or_default_kept.
Qed.

(** C10: during seeding a metric field that is present with the value 0 is
    replaced by the per-metric default, for each of the five metrics. *)
Theorem seed_zero_becomes_default
    (g : nat) (s : View) (c : Closure) (data : list HistoryRecord) (d : HistoryRecord) :
  nth_error (closures s) g = Some c -> isMounted c = true -> fetchPending c = true ->
  In d (slice_last 50 data) ->
  In (normalize d) (historyData (historySettled g (fetchedOk data) s)) /\
  (forall q, h_Torque d = Some q -> q == 0 -> Torque (normalize d) = 40) /\
  (forall q, h_Temperature d = Some q -> q == 0 -> Temperature (normalize d) = 300) /\
  (forall q, h_Speed d = Some q -> q == 0 -> Speed (normalize d) = 2800) /\
  (forall q, h_Vibration d = Some q -> q == 0 -> Vibration (normalize d) = 1 # 2) /\
  (forall q, h_tool_wear_pct d = Some q -> q == 0 ->
             current_tool_wear_pct (normalize d) = 35).
Proof.
  intros Hc Hm Hp Hin.
  assert (Hd : data <> []).
  { intro E. subst data. exact Hin. }
  destruct (historySettled_seeds g s c data Hc Hm Hp Hd) as [Hh _].
  rewrite Hh.
  split; [unfold initialDataOf; now apply in_map |].
  unfold normalize; simpl.
  repeat split; intros q Hq Hz; rewrite Hq; now apply or_default_zero.
Qed.

End Seeding.

(* ===================================================================== *)
(** ** The tick generator: ranges and rounding *)
(* ===================================================================== *)

Section GeneratorFacts.
Context {M : MathLib}.

Lemma generated_in_range (tickCount : nat) (e : TickEnv) (prevValues : PrevValues) :
  in_range (snd (generateNewDataPoint tickCount e prevValues)).
Proof.
  unfold in_range, generateNewDataPoint, nextPrevValues; simpl.
  repeat split.
  all: match goal with
       | |- _ <= toFixed ?k (Qmax ?lo (Qmin ?hi ?x)) =>
           apply (toFixed_between k lo hi);
           [reflexivity | reflexivity | apply clamp_between; lra
           | apply clamp_between; lra]
       | |- toFixed ?k (Qmax ?lo (Qmin ?hi ?x)) <= _ =>
           apply (toFixed_between k lo hi);
           [reflexivity | reflexivity | apply clamp_between; lra
           | apply clamp_between; lra]
       end.
Qed.

Lemma generated_wear_between (tickCount : nat) (e : TickEnv) (prevValues : PrevValues) :
  5 <= current_tool_wear_pct (snd (generateNewDataPoint tickCount e prevValues)) /\
  current_tool_wear_pct (snd (generateNewDataPoint tickCount e prevValues)) <= 95.
Proof.
  unfold generateNewDataPoint, nextPrevValues; simpl.
  apply (toFixed_between 1 5 95); try reflexivity; apply wear_between.
Qed.

Lemma appendPoint_Forall (P : Sample -> Prop) (window : list Sample) (pt : Sample) :
  Forall P window -> P pt -> Forall P (appendPoint window pt).
Proof.
  intros Hw Hp. apply Forall_forall. intros x Hx.
  unfold appendPoint in Hx. apply slice_last_incl in Hx.
  apply in_app_or in Hx. destruct Hx as [Hx | [Hx | []]].
  - revert x Hx. now apply Forall_forall.
  - now subst.
Qed.

(** Preservation along a run: what every step keeps, the run keeps. *)
Lemma run_invariant (P : View -> Prop) (Q : Event -> Prop) :
  (forall s ev, P s -> Q ev -> P (step s ev)) ->
  forall evs s, Forall Q evs -> P s -> P (run evs s).
Proof.
  intros Hstep evs. induction evs as [| ev evs IH]; intros s HQ HP; [exact HP |].
  inversion HQ; subst. simpl. apply IH; auto.
Qed.

End GeneratorFacts.

(* ===================================================================== *)
(** ** One event at a time *)
(* ===================================================================== *)

Section StepFacts.
Context {M : MathLib}.

Lemma cleanupStreamEffect_data (s : View) :
  historyData (cleanupStreamEffect s) = historyData s /\
  prevValues (cleanupStreamEffect s) = prevValues s /\
  attached (cleanupStreamEffect s) = attached s /\
  robotId (cleanupStreamEffect s) = robotId s /\
  timeRange (cleanupStreamEffect s) = timeRange s.
Proof.
  unfold cleanupStreamEffect. destruct (lastOf (closures s)); simpl; tauto.
Qed.

Lemma seed_items_fetchedOk (fetched : Promise Response) :
  seed_items fetched <> [] -> fetched = fetchedOk (seed_items fetched).
Proof.
  unfold seed_items, fetchedOk.
  destruct fetched as [[okb js] | err]; simpl; [| congruence].
  destruct okb; [| congruence].
  destruct js as [[| items] | err]; congruence.
Qed.

Lemma initializeAndStream_no_seed (mounted : bool) (fetched : Promise Response) (s : View) :
  seed_items fetched = [] ->
  let s' := settled (initializeAndStream mounted fetched s) s in
  historyData s' = historyData s /\ prevValues s' = prevValues s /\
  closures s' = closures s /\ attached s' = attached s /\
  robotId s' = robotId s /\ timeRange s' = timeRange s /\
  (console s' = console s \/
   exists err, console s' = console s ++ [WarnHistoryUnavailable err]).
Proof.
  unfold seed_items, initializeAndStream.
  destruct fetched as [[okb js] | err]; simpl.
  - destruct okb; simpl; [| tauto].
    destruct js as [[| items] | err]; simpl; intro H; try tauto.
    + subst items. simpl. tauto.
    + repeat split; try reflexivity. right. now exists err.
  - intros _. repeat split; try reflexivity. right. now exists err.
Qed.

(** Every event falls under one of the four data changes. *)
Lemma step_data_change (s : View) (ev : Event) : DataChange s (step s ev) ev.
Proof.
  destruct ev as [g e | g fetched | r | id |]; simpl.
  - unfold tickInterval.
    destruct (nth_error (closures s) g) as [c |] eqn:Hc; [| now apply DataKept].
    destruct (isMounted c) eqn:Hm; simpl; [| now apply DataKept].
    apply (DataTicked _ _ g e (S (tickCount c))); reflexivity.
  - unfold historySettled.
    destruct (nth_error (closures s) g) as [c |] eqn:Hc; [| now apply DataKept].
    destruct (fetchPending c) eqn:Hp; simpl; [| now apply DataKept].
    set (s1 := set_closures _ s).
    destruct (isMounted c) eqn:Hm.
    + destruct (seed_items fetched) as [| d items] eqn:Hs.
      * destruct (initializeAndStream_no_seed true fetched s1 Hs) as (H1 & H2 & _).
        apply DataKept; [rewrite H1 | rewrite H2]; reflexivity.
      * assert (Hne : seed_items fetched <> []) by (rewrite Hs; discriminate).
        rewrite (seed_items_fetchedOk fetched Hne).
        unfold fetchedOk at 1.
        rewrite (initializeAndStream_seeds _ s1 Hne). simpl settled.
        destruct (seedWindow_data (seed_items fetched) s1 Hne) as [Hh [lp [Hl Hv]]].
        rewrite <- (seed_items_fetchedOk fetched Hne).
        now apply (DataSeeded _ _ g fetched lp).
    + destruct (initializeAndStream_unmounted fetched s1) as (H1 & H2 & _).
      apply DataKept; [rewrite H1 | rewrite H2]; reflexivity.
  - unfold setTimeRange.
    destruct (negb (attached s) || String.eqb r (timeRange s)).
    + now apply DataKept.
    + now apply DataCleared.
  - unfold robotChanged.
    destruct (negb (attached s) || eqb_robot id (robotId s)); [now apply DataKept |].
    destruct (cleanupStreamEffect_data (set_robotId id s)) as (H1 & H2 & _).
    apply DataKept; simpl; [rewrite H1 | rewrite H2]; reflexivity.
  - unfold unmount.
    destruct (negb (attached s)); [now apply DataKept |].
    destruct (cleanupStreamEffect_data s) as (H1 & H2 & _).
    apply DataKept; simpl; [rewrite H1 | rewrite H2]; reflexivity.
Qed.

End StepFacts.

(** Case analysis on what [step s ev] did to the window and the ref; the
    stepped state is abstracted first, so that the cases speak about it. *)
Ltac step_cases s ev H :=
  pose proof (step_data_change s ev) as H;
  let s' := fresh "s'" in
  let E := fresh "E" in
  remember (step s ev) as s' eqn:E; clear E.

(* ===================================================================== *)
(** ** Ranges of the bounded metrics *)
(* ===================================================================== *)

Section Ranges.
Context {M : MathLib}.

Lemma step_keeps_in_range (s : View) (ev : Event) :
  Forall in_range (historyData s) -> seeds_in_range ev ->
  Forall in_range (historyData (step s ev)).
Proof.
  intros Hs Hev. step_cases s ev H. revert Hev.
  destruct H as [? H1 _ | g e tc H1 _ | g f lp _ H1 _ _ | ? H1 _];
    intro Hev; rewrite H1.
  - exact Hs.
  - apply appendPoint_Forall; [exact Hs | apply generated_in_range].
  - exact Hev.
  - constructor.
Qed.

(** C3: whatever the tick count, the environment and the content of the ref,
    the point a tick generates has Torque in [25, 55], Temperature in
    [290, 315], Speed in [2650, 2950] and Vibration in [0.25, 0.85]; and in
    every run of the mounted component whose seed batches are within these
    ranges, so is every sample of the window. *)
Theorem tick_metrics_in_range
    (tickCount : nat) (e : TickEnv) (prev : PrevValues)
    (id : option string) (evs : list Event) :
  Forall seeds_in_range evs ->
  in_range (snd (generateNewDataPoint tickCount e prev)) /\
  Forall in_range (historyData (run evs (mount id))).
Proof.
  intro Hev. split; [apply generated_in_range |].
  apply (run_invariant (fun s => Forall in_range (historyData s)) seeds_in_range);
    [apply step_keeps_in_range | exact Hev | constructor].
Qed.

(** C7 (amended): a tick of a mounted run replaces the ref with the new
    clamped values and appends a sample whose metrics are those values
    rounded by [toFixed]: one decimal for Torque, Temperature and wear, none
    for Speed, two for Vibration. *)
Theorem tick_sample_is_rounded_ref
    (g : nat) (e : TickEnv) (s : View) (c : Closure) :
  nth_error (closures s) g = Some c -> isMounted c = true ->
  let s' := tickInterval g e s in
  prevValues s' = nextPrevValues (S (tickCount c)) e (prevValues s) /\
  exists newPoint,
    lastOf (historyData s') = Some newPoint /\
    timestamp newPoint = now e /\
    Torque newPoint = toFixed 1 (prev_Torque (prevValues s')) /\
    Temperature newPoint = toFixed 1 (prev_Temperature (prevValues s')) /\
    Speed newPoint = toFixed 0 (prev_Speed (prevValues s')) /\
    Vibration newPoint = toFixed 2 (prev_Vibration (prevValues s')) /\
    current_tool_wear_pct newPoint
    = toFixed 1 (prev_current_tool_wear_pct (prevValues s')).
Proof.
  intros Hc Hm s'. subst s'. rewrite (tickInterval_live g e s c Hc Hm). simpl.
  split; [reflexivity |].
  eexists. split.
  - unfold appendPoint. apply lastOf_slice_push. unfold MAX_DATA_POINTS. lia.
  - simpl. repeat split.
Qed.

End Ranges.

(* ===================================================================== *)
(** ** The sliding window under ticks *)
(* ===================================================================== *)

Section Window.
Context {M : MathLib}.

Lemma generated_length (tc : nat) (prev : PrevValues) (envs : list TickEnv) :
  length (generated tc prev envs) = length envs.
Proof.
  revert tc prev. induction envs as [| e envs IH]; intros tc prev; simpl; [reflexivity |].
  now rewrite IH.
Qed.

Lemma generated_timestamps (tc : nat) (prev : PrevValues) (envs : list TickEnv) :
  map timestamp (generated tc prev envs) = map now envs.
Proof.
  revert tc prev. induction envs as [| e envs IH]; intros tc prev; simpl; [reflexivity |].
  now rewrite IH.
Qed.

(** [n] ticks of a mounted run: the window is the last 100 of the old
    window followed by the generated points. *)
Lemma run_ticks (g : nat) (envs : list TickEnv) :
  forall (s : View) (c : Closure),
  nth_error (closures s) g = Some c -> isMounted c = true ->
  (length (historyData s) <= MAX_DATA_POINTS)%nat ->
  historyData (run (ticks g envs) s)
  = slice_last MAX_DATA_POINTS
      (historyData s ++ generated (tickCount c) (prevValues s) envs).
Proof.
  induction envs as [| e envs IH]; intros s c Hc Hm Hlen.
  - simpl. rewrite app_nil_r. symmetry. now apply slice_last_all.
  - simpl. rewrite (tickInterval_live g e s c Hc Hm).
    set (c1 := {| isMounted := true; tickCount := S (tickCount c);
                  fetchPending := fetchPending c |}).
    match goal with |- historyData (run _ ?st) = _ => set (s1 := st) end.
    assert (Hc1 : nth_error (closures s1) g = Some c1).
    { subst s1; simpl. apply set_closure_same. eapply nth_error_in_range; eauto. }
    assert (Hlen1 : (length (historyData s1) <= MAX_DATA_POINTS)%nat).
    { subst s1; simpl. unfold appendPoint. rewrite slice_last_length. lia. }
    rewrite (IH s1 c1 Hc1 eq_refl Hlen1).
    subst s1; simpl. unfold appendPoint.
    rewrite slice_last_app_slide, <- app_assoc. reflexivity.
Qed.

Lemma mount_closures (id : option string) :
  exists c, nth_error (closures (mount id)) 0 = Some c /\
            isMounted c = true /\ tickCount c = 0%nat /\
            historyData (mount id) = [] /\ prevValues (mount id) = defaultPrevValues.
Proof. eexists. simpl. repeat split. Qed.

Lemma hd_slice_last {A : Type} (n : nat) (l : list A) (x : A) :
  (n <= length l)%nat -> nth_error l (length l - n) = Some x ->
  hd_error (slice_last n l) = Some x.
Proof.
  intros Hn Hx. unfold slice_last. now rewrite hd_error_skipn.
Qed.

Lemma step_keeps_window_bounded (s : View) (ev : Event) :
  (length (historyData s) <= MAX_DATA_POINTS)%nat ->
  (length (historyData (step s ev)) <= MAX_DATA_POINTS)%nat.
Proof.
  intro Hs. step_cases s ev H.
  destruct H as [? H1 _ | g e tc H1 _ | g f lp _ H1 _ _ | ? H1 _]; rewrite H1.
  - exact Hs.
  - unfold appendPoint. rewrite slice_last_length. lia.
  - rewrite initialDataOf_length. unfold MAX_DATA_POINTS. lia.
  - simpl. lia.
Qed.

(** The window never holds more than 100 samples. *)
Lemma reachable_window_bounded (id : option string) (evs : list Event) :
  (length (historyData (run evs (mount id))) <= MAX_DATA_POINTS)%nat.
Proof.
  apply (run_invariant (fun s => (length (historyData s) <= MAX_DATA_POINTS)%nat)
           (fun _ => True)).
  - intros s ev H _. now apply step_keeps_window_bounded.
  - apply Forall_forall. intros; exact I.
  - simpl. lia.
Qed.

(** C1 (amended): in every state the mounted component can reach, with a
    window of N_seed samples (a seed is the last 50 records of the fetched
    batch at most), N ticks of the mounted run leave min(N_seed + N, 100)
    samples; their timestamps are the last 100 of the window's timestamps
    followed by the clock readings of the ticks, so they are non-decreasing
    whenever that sequence is; a tick on a full window drops exactly the
    oldest sample; and 150 ticks from the empty window leave 100 samples,
    the first one being the 51st generated sample, with the clock reading
    of the 51st tick. *)
Theorem window_after_ticks
    (id : option string) (evs : list Event)
    (g : nat) (c : Closure) (envs : list TickEnv) :
  let s := run evs (mount id) in
  let window := historyData (run (ticks g envs) s) in
  nth_error (closures s) g = Some c -> isMounted c = true ->
  length window = Nat.min (length (historyData s) + length envs) 100 /\
  map timestamp window
  = slice_last 100 (map timestamp (historyData s) ++ map now envs) /\
  (nondecreasing (map timestamp (historyData s) ++ map now envs) = true ->
   nondecreasing (map timestamp window) = true) /\
  (length (historyData s) = 100%nat ->
   forall e, exists newPoint,
     timestamp newPoint = now e /\
     historyData (tickInterval g e s) = tl (historyData s) ++ [newPoint]) /\
  (forall data : list HistoryRecord,
     fetchPending c = true -> data <> [] ->
     length (historyData (run (ticks g envs) (historySettled g (fetchedOk data) s)))
     = Nat.min (Nat.min (length data) 50 + length envs) 100) /\
  (forall (envs150 : list TickEnv) (e51 : TickEnv),
     length envs150 = 150%nat -> nth_error envs150 50 = Some e51 ->
     length (historyData (run (ticks 0 envs150) (mount id))) = 100%nat /\
     exists first,
       nth_error (generated 0 defaultPrevValues envs150) 50 = Some first /\
       hd_error (historyData (run (ticks 0 envs150) (mount id))) = Some first /\
       timestamp first = now e51).
Proof.
  intros s window Hc Hm.
  assert (Hlen : (length (historyData s) <= MAX_DATA_POINTS)%nat)
    by apply reachable_window_bounded.
  assert (Hw : window = slice_last MAX_DATA_POINTS
                 (historyData s ++ generated (tickCount c) (prevValues s) envs))
    by (subst window; now apply run_ticks).
  assert (Hts : map timestamp window
                = slice_last 100 (map timestamp (historyData s) ++ map now envs)).
  { rewrite Hw, slice_last_map, map_app, generated_timestamps. reflexivity. }
  split.
  { rewrite Hw, slice_last_length, length_app, generated_length. reflexivity. }
  split; [exact Hts |]. split.
  { intro Hs. rewrite Hts. now apply nondecreasing_slice_last. }
  split.
  { intros Hfull e. rewrite (tickInterval_live g e s c Hc Hm). simpl.
    eexists. split; [| unfold appendPoint; apply slice_last_full_push;
                       [exact Hfull | unfold MAX_DATA_POINTS; lia]].
    reflexivity. }
  split.
  { intros data Hp Hd.
    destruct (historySettled_seeds g s c data Hc Hm Hp Hd) as (Hh & _ & Hcl).
    set (s' := historySettled g (fetchedOk data) s) in *.
    assert (Hc' : nth_error (closures s') g
                  = Some {| isMounted := true; tickCount := tickCount c;
                            fetchPending := false |}).
    { rewrite Hcl. apply set_closure_same. eapply nth_error_in_range; eauto. }
    assert (Hlen' : (length (historyData s') <= MAX_DATA_POINTS)%nat).
    { rewrite Hh, initialDataOf_length. unfold MAX_DATA_POINTS. lia. }
    rewrite (run_ticks g envs s' _ Hc' eq_refl Hlen').
    rewrite slice_last_length, length_app, generated_length, Hh, initialDataOf_length.
    reflexivity. }
  intros envs150 e51 H150 H51.
  destruct (mount_closures id) as (c0 & Hc0 & Hm0 & Htc0 & Hh0 & Hp0).
  assert (Hlen0 : (length (historyData (mount id)) <= MAX_DATA_POINTS)%nat)
    by (rewrite Hh0; simpl; lia).
  pose proof (run_ticks 0 envs150 (mount id) c0 Hc0 Hm0 Hlen0) as Hrun.
  rewrite Hh0, Htc0, Hp0 in Hrun. simpl app in Hrun.
  split.
  { rewrite Hrun, slice_last_length, generated_length, H150. reflexivity. }
  assert (Hpt : exists first,
             nth_error (generated 0 defaultPrevValues envs150) 50 = Some first /\
             timestamp first = now e51).
  { pose proof (generated_timestamps 0 defaultPrevValues envs150) as Ht.
    pose proof (map_nth_error now 50 envs150 H51) as Hn.
    rewrite <- Ht in Hn.
    destruct (nth_error (generated 0 defaultPrevValues envs150) 50)
      as [first |] eqn:Hf.
    - exists first. split; [reflexivity |].
      rewrite (map_nth_error timestamp 50 _ Hf) in Hn. congruence.
    - rewrite nth_error_map, Hf in Hn. discriminate Hn. }
  destruct Hpt as (first & Hf & Hts51).
  exists first. split; [exact Hf |]. split; [| exact Hts51].
  rewrite Hrun. apply hd_slice_last.
  - rewrite generated_length, H150. unfold MAX_DATA_POINTS. lia.
  - rewrite generated_length, H150. exact Hf.
Qed.

End Window.

(* ===================================================================== *)
(** ** The wear column *)
(* ===================================================================== *)

Lemma lastOf_cons {A : Type} (x y : A) (l : list A) :
  lastOf (x :: y :: l) = lastOf (y :: l).
Proof. unfold lastOf. simpl. now rewrite Nat.sub_0_r. Qed.

Lemma lastOf_map {A B : Type} (f : A -> B) (l : list A) :
  lastOf (map f l) = option_map f (lastOf l).
Proof.
  induction l as [| x [| y l] IH]; try reflexivity.
  change (map f (x :: y :: l)) with (f x :: f y :: map f l).
  rewrite !lastOf_cons. exact IH.
Qed.

Lemma nondecreasingQ_cons (x : Q) (l : list Q) :
  nondecreasingQ (x :: l) = true -> nondecreasingQ l = true.
Proof.
  destruct l as [| y l']; [reflexivity |].
  simpl. intro H. apply andb_true_iff in H. tauto.
Qed.

Lemma nondecreasingQ_skipn (k : nat) (l : list Q) :
  nondecreasingQ l = true -> nondecreasingQ (skipn k l) = true.
Proof.
  revert l. induction k as [| k IH]; intros l H; [exact H |].
  destruct l as [| x l']; [reflexivity |].
  simpl. apply IH. now apply nondecreasingQ_cons in H.
Qed.

Lemma nondecreasingQ_push (l : list Q) (x : Q) :
  nondecreasingQ l = true ->
  (forall y, lastOf l = Some y -> y <= x) ->
  nondecreasingQ (l ++ [x]) = true.
Proof.
  induction l as [| a [| b l] IH]; intros Hs Hlast.
  - reflexivity.
  - simpl. rewrite andb_true_r. apply Qle_bool_iff. now apply Hlast.
  - change ((a :: b :: l) ++ [x]) with (a :: b :: (l ++ [x])).
    change (nondecreasingQ (a :: b :: l ++ [x]))
      with (Qle_bool a b && nondecreasingQ ((b :: l) ++ [x])).
    change (nondecreasingQ (a :: b :: l))
      with (Qle_bool a b && nondecreasingQ (b :: l)) in Hs.
    apply andb_true_iff in Hs. destruct Hs as [Hab Hs].
    rewrite Hab. simpl andb. apply IH; [exact Hs |].
    intros y Hy. apply Hlast. now rewrite lastOf_cons.
Qed.

Lemma all_at_most_skipn (hi : Q) (k : nat) (l : list Q) :
  all_at_most hi l = true -> all_at_most hi (skipn k l) = true.
Proof.
  unfold all_at_most. rewrite !forallb_forall. intros H x Hx. apply H.
  rewrite <- (firstn_skipn k l). apply in_or_app. now right.
Qed.

Lemma all_at_most_push (hi : Q) (l : list Q) (x : Q) :
  all_at_most hi l = true -> x <= hi -> all_at_most hi (l ++ [x]) = true.
Proof.
  unfold all_at_most. intros Hl Hx. rewrite forallb_app, Hl. simpl.
  rewrite andb_true_r. now apply Qle_bool_iff.
Qed.

(** A wear value of at most 95 in the ref is not above what the next tick
    shows. *)
Lemma wear_floor_above (w : Q) (p : PrevValues) :
  prev_current_tool_wear_pct p = w -> w <= 95 -> w <= wear_floor p.
Proof.
  intros Hp Hw. unfold wear_floor. rewrite Hp.
  set (L := Qmin 95 (Qmax 5 (w + (1 # 5)))).
  assert (HL5 : 5 <= L) by apply wear_between.
  destruct (Q.min_spec 95 (Qmax 5 (w + (1 # 5)))) as [[Hlt HL] | [Hle HL]];
    fold L in HL.
  - assert (H95 : 95 <= L) by (rewrite HL; lra).
    apply (toFixed_mono 1) in H95.
    assert (Hfix : toFixed 1 95 == 95) by reflexivity.
    rewrite Hfix in H95. lra.
  - pose proof (Q.le_max_r 5 (w + (1 # 5))) as Hmax.
    assert (HwL : w + (1 # 5) <= L) by (rewrite HL; exact Hmax).
    pose proof (toFixed1_lower L) as Hround.
    assert (H0 : 0 <= L) by lra. specialize (Hround H0). lra.
Qed.

Section Wear.
Context {M : MathLib}.

Lemma wearIncrement_floor (tc : nat) (e : TickEnv) :
  0 <= rnd_wear e ->
  (1 # 5) <= (1 # 5) + rnd_wear e * (2 # 5) + Qabs (oscillation_of tc) * (3 # 10).
Proof.
  intro Hr. pose proof (Qabs_nonneg (oscillation_of tc)) as Ha. lra.
Qed.

Lemma next_wear (tc : nat) (e : TickEnv) (p : PrevValues) :
  prev_current_tool_wear_pct (nextPrevValues tc e p)
  = Qmin 95 (Qmax 5 (prev_current_tool_wear_pct p
                     + ((1 # 5) + rnd_wear e * (2 # 5)
                        + Qabs (oscillation_of tc) * (3 # 10)))).
Proof. reflexivity. Qed.

Lemma tick_keeps_wear_inv (s : View) (tc : nat) (e : TickEnv) (s' : View) :
  wear_inv s -> 0 <= rnd_wear e ->
  historyData s' =
    appendPoint (historyData s) (snd (generateNewDataPoint tc e (prevValues s))) ->
  prevValues s' = nextPrevValues tc e (prevValues s) ->
  wear_inv s'.
Proof.
  intros (Hsorted & Hmax & Hlast) Hr Hh Hp.
  set (pt := snd (generateNewDataPoint tc e (prevValues s))) in *.
  assert (Hpt : current_tool_wear_pct pt
                = toFixed 1 (prev_current_tool_wear_pct
                               (nextPrevValues tc e (prevValues s)))) by reflexivity.
  assert (Hge : forall y, lastOf (wears (historyData s)) = Some y ->
                          y <= current_tool_wear_pct pt).
  { intros y Hy. unfold wears in Hy. rewrite lastOf_map in Hy.
    destruct (lastOf (historyData s)) as [lp |] eqn:Hl; [| discriminate].
    simpl in Hy. injection Hy as <-.
    eapply Qle_trans; [apply Hlast; reflexivity |].
    rewrite Hpt, next_wear. unfold wear_floor. apply toFixed_mono.
    apply wear_clamp_mono.
    pose proof (wearIncrement_floor tc e Hr). lra. }
  assert (Hwears : wears (historyData s')
                   = slice_last MAX_DATA_POINTS
                       (wears (historyData s) ++ [current_tool_wear_pct pt])).
  { rewrite Hh. unfold wears, appendPoint. now rewrite slice_last_map, map_app. }
  unfold wear_inv. rewrite Hwears. repeat split.
  - apply nondecreasingQ_skipn. now apply nondecreasingQ_push.
  - apply all_at_most_skipn. apply all_at_most_push; [exact Hmax |].
    apply generated_wear_between.
  - intros pt' Hl. rewrite Hh in Hl. unfold appendPoint in Hl.
    rewrite lastOf_slice_push in Hl by (unfold MAX_DATA_POINTS; lia).
    injection Hl as <-. rewrite Hpt, Hp. unfold wear_floor.
    apply toFixed_mono.
    set (w := prev_current_tool_wear_pct (nextPrevValues tc e (prevValues s))).
    assert (Hw : 5 <= w /\ w <= 95) by apply wear_between.
    apply Q.min_glb; [tauto |].
    eapply Qle_trans; [| apply Q.le_max_r]. lra.
Qed.

Lemma all_at_most_last (hi : Q) (l : list Q) (y : Q) :
  all_at_most hi l = true -> lastOf l = Some y -> y <= hi.
Proof.
  unfold all_at_most. rewrite forallb_forall. intros H Hy.
  apply Qle_bool_iff. apply H.
  unfold lastOf in Hy. destruct l; [discriminate |].
  eapply nth_error_In; eauto.
Qed.

Lemma step_keeps_wear_inv (s : View) (ev : Event) :
  wear_inv s -> wear_event_ok ev -> wear_inv (step s ev).
Proof.
  intros Hs Hev. step_cases s ev H. revert Hev.
  destruct H as [? H1 H2 | g e tc H1 H2 | g f lp Hne H1 Hl H2 | ? H1 H2]; intro Hev.
  - destruct Hs as (Ha & Hb & Hc). unfold wear_inv. rewrite H1, H2. tauto.
  - simpl in Hev. apply (tick_keeps_wear_inv s tc e s' Hs); try assumption.
    apply Hev.
  - simpl in Hev. destruct Hev as [Ha Hb].
    unfold wear_inv. rewrite H1, H2. repeat split; try assumption.
    intros pt Hpt. rewrite Hl in Hpt. injection Hpt as <-.
    apply wear_floor_above; [reflexivity |].
    apply (all_at_most_last 95 (wears (initialDataOf (seed_items f)))); [exact Hb |].
    unfold wears. now rewrite lastOf_map, Hl.
  - unfold wear_inv. rewrite H1. simpl. repeat split. intros pt Hpt. discriminate.
Qed.

Lemma generated_cons (tc : nat) (prev : PrevValues) (e : TickEnv) (rest : list TickEnv) :
  generated tc prev (e :: rest)
  = snd (generateNewDataPoint (S tc) e prev)
    :: generated (S tc) (nextPrevValues (S tc) e prev) rest.
Proof. reflexivity. Qed.

Lemma nondecreasingQ_two (x y : Q) (l : list Q) :
  nondecreasingQ (x :: y :: l) = Qle_bool x y && nondecreasingQ (y :: l).
Proof. reflexivity. Qed.

(** The ref a tick leaves is not above the ref the next tick leaves. *)
Lemma next_wear_grows (tc tc' : nat) (e e' : TickEnv) (p : PrevValues) :
  0 <= rnd_wear e' ->
  prev_current_tool_wear_pct (nextPrevValues tc e p)
  <= prev_current_tool_wear_pct (nextPrevValues tc' e' (nextPrevValues tc e p)).
Proof.
  intro Hr. rewrite (next_wear tc' e' (nextPrevValues tc e p)).
  set (w := prev_current_tool_wear_pct (nextPrevValues tc e p)).
  assert (Hw : 5 <= w /\ w <= 95) by (subst w; rewrite next_wear; apply wear_between).
  pose proof (wearIncrement_floor tc' e' Hr) as Hinc.
  apply Q.min_glb; [tauto |].
  eapply Qle_trans; [| apply Q.le_max_r]. lra.
Qed.

(** Consecutive ticks never lower the wear they show, whatever the ref held
    before the first of them. *)
Lemma generated_wear_sorted (envs : list TickEnv) :
  Forall valid_env envs ->
  forall (tc : nat) (prev : PrevValues),
  nondecreasingQ (wears (generated tc prev envs)) = true.
Proof.
  induction 1 as [| e rest He Hrest IH]; intros tc prev; [reflexivity |].
  rewrite generated_cons.
  destruct rest as [| e2 rest']; [reflexivity |].
  specialize (IH (S tc) (nextPrevValues (S tc) e prev)).
  rewrite generated_cons in IH |- *.
  unfold wears in *. rewrite !map_cons in *.
  rewrite nondecreasingQ_two, IH, andb_true_r.
  apply Qle_bool_iff.
  change (toFixed 1 (prev_current_tool_wear_pct (nextPrevValues (S tc) e prev))
          <= toFixed 1 (prev_current_tool_wear_pct
                          (nextPrevValues (S (S tc)) e2 (nextPrevValues (S tc) e prev)))).
  apply toFixed_mono. apply next_wear_grows.
  inversion Hrest as [| ? ? He2 _]; subst. apply He2.
Qed.

Lemma generated_wear_capped (envs : list TickEnv) :
  forall (tc : nat) (prev : PrevValues),
  all_at_most 95 (wears (generated tc prev envs)) = true.
Proof.
  induction envs as [| e rest IH]; intros tc prev; [reflexivity |].
  rewrite generated_cons. unfold wears, all_at_most in *.
  rewrite map_cons. cbn [forallb]. rewrite IH, andb_true_r.
  apply Qle_bool_iff. apply generated_wear_between.
Qed.

(** C2 (amended): the point a tick generates has a wear between 5 and 95
    whatever the ref holds; the points consecutive ticks generate have a
    non-decreasing wear of at most 95 whatever the ref held before the
    first of them, and they are what these ticks append to the window of
    any reachable state; and in every run of the mounted component whose
    ticks draw from [0, 1) and whose delivered batches, normalized as a
    seed stores them (the last 50 records, a missing or zero wear replaced
    by 35), have a non-decreasing wear column of at most 95 (no batch at
    all is one case), the wear column of the whole window is
    non-decreasing and never exceeds 95. *)
Theorem wear_monotone_and_capped
    (tc : nat) (e : TickEnv) (prev : PrevValues) (envs : list TickEnv)
    (id : option string) (evs : list Event) (g : nat) (c : Closure) :
  let s := run evs (mount id) in
  (5 <= current_tool_wear_pct (snd (generateNewDataPoint tc e prev)) /\
   current_tool_wear_pct (snd (generateNewDataPoint tc e prev)) <= 95) /\
  (Forall valid_env envs ->
   nondecreasingQ (wears (generated tc prev envs)) = true /\
   all_at_most 95 (wears (generated tc prev envs)) = true) /\
  (nth_error (closures s) g = Some c -> isMounted c = true ->
   historyData (run (ticks g envs) s)
   = slice_last 100 (historyData s ++ generated (tickCount c) (prevValues s) envs)) /\
  (Forall wear_event_ok evs ->
   nondecreasingQ (wears (historyData s)) = true /\
   all_at_most 95 (wears (historyData s)) = true).
Proof.
  intro s. split; [apply generated_wear_between |].
  split; [intro Henvs; split;
          [now apply generated_wear_sorted | apply generated_wear_capped] |].
  split.
  { intros Hc Hm. apply (run_ticks g envs s c Hc Hm).
    apply reachable_window_bounded. }
  intro Hev.
  assert (H : wear_inv s).
  { apply (run_invariant wear_inv wear_event_ok);
      [apply step_keeps_wear_inv | exact Hev |].
    unfold wear_inv; simpl. repeat split. intros pt Hpt. discriminate. }
  destruct H as (Ha & Hb & _). tauto.
Qed.

End Wear.

(* ===================================================================== *)
(** ** Liveness of the runs of the streaming effect *)
(* ===================================================================== *)

Lemma lastOf_nth {A : Type} (l : list A) : lastOf l = nth_error l (length l - 1).
Proof. destruct l; reflexivity. Qed.

Lemma lastOf_set_current (g : nat) (c : Closure) (l : list Closure) :
  g = (length l - 1)%nat -> (g < length l)%nat -> lastOf (set_closure g c l) = Some c.
Proof.
  intros Hg Hlt. rewrite lastOf_nth, set_closure_length, <- Hg.
  now apply set_closure_same.
Qed.

Lemma lastOf_set_other (g : nat) (c : Closure) (l : list Closure) :
  g <> (length l - 1)%nat -> lastOf (set_closure g c l) = lastOf l.
Proof.
  intro Hg. rewrite !lastOf_nth, set_closure_length.
  now apply set_closure_other.
Qed.

Section Liveness.
Context {M : MathLib}.

(** [initializeAndStream] touches nothing but the window, the ref and the
    console; the window and the ref only in a mounted run with a seed. *)
Lemma initializeAndStream_frame (mounted : bool) (fetched : Promise Response) (s : View) :
  let s' := settled (initializeAndStream mounted fetched s) s in
  closures s' = closures s /\ attached s' = attached s /\
  robotId s' = robotId s /\ timeRange s' = timeRange s /\
  ((mounted = true /\ seed_items fetched <> [] /\
    historyData s' = initialDataOf (seed_items fetched) /\
    exists lastPoint, lastOf (initialDataOf (seed_items fetched)) = Some lastPoint /\
                      prevValues s' = prevValuesOfPoint lastPoint)
   \/
   ((mounted = false \/ seed_items fetched = []) /\
    historyData s' = historyData s /\ prevValues s' = prevValues s)).
Proof.
  destruct mounted.
  - destruct (seed_items fetched) as [| d items] eqn:Hs.
    + destruct (initializeAndStream_no_seed true fetched s Hs)
        as (H1 & H2 & H3 & H4 & H5 & H6 & _).
      simpl. repeat split; try assumption. right. tauto.
    + assert (Hne : seed_items fetched <> []) by (rewrite Hs; discriminate).
      simpl. rewrite (seed_items_fetchedOk fetched Hne). unfold fetchedOk at 1 2 3 4 5.
      rewrite (initializeAndStream_seeds _ s Hne). simpl settled.
      destruct (seedWindow_data (seed_items fetched) s Hne) as [Hh [lp [Hl Hv]]].
      rewrite Hs in *.
      assert (Hframe : closures (seedWindow (d :: items) s) = closures s /\
                       attached (seedWindow (d :: items) s) = attached s /\
                       robotId (seedWindow (d :: items) s) = robotId s /\
                       timeRange (seedWindow (d :: items) s) = timeRange s).
      { unfold seedWindow. destruct (lastOf (initialDataOf (d :: items))); simpl; tauto. }
      destruct Hframe as (F1 & F2 & F3 & F4).
      repeat split; try assumption. left.
      repeat split; try assumption; try discriminate. now exists lp.
  - destruct (initializeAndStream_unmounted fetched s) as (H1 & H2 & H3 & H4 & H5 & H6).
    simpl. repeat split; try assumption. right. tauto.
Qed.

Lemma historySettled_frame (g : nat) (fetched : Promise Response) (s : View) :
  attached (historySettled g fetched s) = attached s /\
  robotId (historySettled g fetched s) = robotId s /\
  timeRange (historySettled g fetched s) = timeRange s /\
  length (closures (historySettled g fetched s)) = length (closures s) /\
  (g <> currentRun s ->
   lastOf (closures (historySettled g fetched s)) = lastOf (closures s)).
Proof.
  unfold historySettled.
  destruct (nth_error (closures s) g) as [c |] eqn:Hc; [| tauto].
  destruct (fetchPending c); simpl; [| tauto].
  match goal with
  | |- context [initializeAndStream ?m fetched ?st] =>
      destruct (initializeAndStream_frame m fetched st) as (H1 & H2 & H3 & H4 & _)
  end.
  rewrite H1, H2, H3, H4. simpl. rewrite set_closure_length.
  repeat split. intro Hg. now apply lastOf_set_other.
Qed.

Lemma cleanup_closures (s : View) :
  length (closures (cleanupStreamEffect s)) = length (closures s) /\
  forall g c, nth_error (closures (cleanupStreamEffect s)) g = Some c ->
    (g = currentRun s /\ isMounted c = false) \/
    (g <> currentRun s /\ nth_error (closures s) g = Some c).
Proof.
  unfold cleanupStreamEffect.
  destruct (lastOf (closures s)) as [c0 |] eqn:Hl; simpl.
  - rewrite set_closure_length. split; [reflexivity |].
    intros g c Hg. destruct (Nat.eq_dec g (currentRun s)) as [-> | Hne].
    + left. split; [reflexivity |].
      rewrite set_closure_same in Hg.
      * now injection Hg as <-.
      * rewrite lastOf_nth in Hl. eapply nth_error_in_range; eauto.
    + right. split; [exact Hne |].
      rewrite set_closure_other in Hg by congruence. exact Hg.
  - split; [reflexivity |]. intros g c Hg.
    rewrite lastOf_nth in Hl.
    destruct (Nat.eq_dec g (currentRun s)) as [-> | Hne].
    + unfold currentRun in Hg. congruence.
    + right. tauto.
Qed.

Lemma step_closures_grow (s : View) (ev : Event) :
  (length (closures s) <= length (closures (step s ev)))%nat.
Proof.
  destruct ev as [g e | g fetched | r | id |]; simpl.
  - unfold tickInterval.
    destruct (nth_error (closures s) g) as [c |]; [| lia].
    destruct (isMounted c); simpl; [| lia].
    rewrite set_closure_length. lia.
  - destruct (historySettled_frame g fetched s) as (_ & _ & _ & H & _). lia.
  - unfold setTimeRange.
    destruct (negb (attached s) || String.eqb r (timeRange s)); [lia |].
    simpl. rewrite length_app.
    destruct (cleanup_closures (set_timeRange r s)) as [H _]. simpl in H. lia.
  - unfold robotChanged.
    destruct (negb (attached s) || eqb_robot id (robotId s)); [lia |].
    simpl. rewrite length_app.
    destruct (cleanup_closures (set_robotId id s)) as [H _]. simpl in H. lia.
  - unfold unmount. destruct (negb (attached s)); [lia |].
    simpl. destruct (cleanup_closures s) as [H _]. lia.
Qed.

Lemma run_closures_grow (evs : list Event) :
  forall s : View, (length (closures s) <= length (closures (run evs s)))%nat.
Proof.
  induction evs as [| ev evs IH]; intro s; simpl; [lia |].
  pose proof (step_closures_grow s ev). pose proof (IH (step s ev)). lia.
Qed.

(** Once a newer run exists, an older one is never the current run again. *)
Lemma older_run_is_stale (s : View) (later : list Event) (g : nat) :
  (g + 1 < length (closures s))%nat -> g <> currentRun (run later s).
Proof.
  intro Hg. unfold currentRun.
  pose proof (run_closures_grow later s). lia.
Qed.

Lemma setTimeRange_adds_run (r : string) (s : View) :
  attached s = true -> r <> timeRange s ->
  length (closures (setTimeRange r s)) = S (length (closures s)).
Proof.
  intros Ha Hr. unfold setTimeRange. rewrite Ha.
  apply String.eqb_neq in Hr. rewrite Hr. simpl. rewrite length_app.
  destruct (cleanup_closures (set_timeRange r s)) as [H _]. simpl in *. lia.
Qed.

Lemma robotChanged_adds_run (id : option string) (s : View) :
  attached s = true -> eqb_robot id (robotId s) = false ->
  length (closures (robotChanged id s)) = S (length (closures s)).
Proof.
  intros Ha Hr. unfold robotChanged. rewrite Ha, Hr. simpl. rewrite length_app.
  destruct (cleanup_closures (set_robotId id s)) as [H _]. simpl in *. lia.
Qed.

Lemma cleanup_all_unmounted (s : View) :
  only_current_mounted s ->
  forall g c, nth_error (closures (cleanupStreamEffect s)) g = Some c ->
              isMounted c = false.
Proof.
  intros Hinv g c Hg.
  destruct (proj2 (cleanup_closures s) g c Hg) as [[_ H] | [Hne H]]; [exact H |].
  destruct (isMounted c) eqn:Hm; [| reflexivity].
  destruct (Hinv g c H Hm) as [Hcur _]. contradiction.
Qed.

Lemma runStreamEffect_current (s : View) :
  attached s = true ->
  (forall g c, nth_error (closures s) g = Some c -> isMounted c = false) ->
  only_current_mounted (runStreamEffect s).
Proof.
  intros Ha Hall g c Hg Hm. unfold runStreamEffect, currentRun in *. simpl in *.
  rewrite length_app. simpl. split; [| exact Ha].
  destruct (Nat.lt_ge_cases g (length (closures s))) as [Hlt | Hge].
  - rewrite nth_error_app1 in Hg by exact Hlt.
    rewrite (Hall g c Hg) in Hm. discriminate.
  - assert (Hlen : (g < length (closures s ++ [c]))%nat).
    { rewrite length_app. simpl.
      apply nth_error_in_range in Hg. rewrite length_app in Hg. simpl in Hg. lia. }
    rewrite length_app in Hlen. simpl in Hlen. lia.
Qed.

Lemma only_current_set_closure (s : View) (g : nat) (c c' : Closure) :
  only_current_mounted s -> nth_error (closures s) g = Some c ->
  isMounted c' = isMounted c ->
  only_current_mounted (set_closures (set_closure g c' (closures s)) s).
Proof.
  intros Hinv Hc Hm h d Hh Hd. unfold currentRun; simpl in *.
  rewrite set_closure_length.
  destruct (Nat.eq_dec g h) as [<- | Hne].
  - rewrite set_closure_same in Hh by (eapply nth_error_in_range; eauto).
    injection Hh as <-. apply (Hinv g c Hc). congruence.
  - rewrite set_closure_other in Hh by exact Hne. now apply (Hinv h d).
Qed.

Lemma only_current_frame (s s' : View) :
  closures s' = closures s -> attached s' = attached s ->
  only_current_mounted s -> only_current_mounted s'.
Proof.
  intros Hc Ha Hinv g c Hg Hm. unfold currentRun. rewrite Hc, Ha.
  apply (Hinv g c); [now rewrite <- Hc | exact Hm].
Qed.

Lemma step_keeps_only_current (s : View) (ev : Event) :
  only_current_mounted s -> only_current_mounted (step s ev).
Proof.
  intro Hinv. destruct ev as [g e | g fetched | r | id |]; simpl.
  - unfold tickInterval.
    destruct (nth_error (closures s) g) as [c |] eqn:Hc; [| exact Hinv].
    destruct (isMounted c) eqn:Hm; simpl; [| exact Hinv].
    match goal with
    | |- only_current_mounted ?t =>
        apply (only_current_frame
                 (set_closures (set_closure g {| isMounted := true;
                                                 tickCount := S (tickCount c);
                                                 fetchPending := fetchPending c |}
                                  (closures s)) s) t)
    end; try reflexivity.
    now apply (only_current_set_closure s g c).
  - unfold historySettled.
    destruct (nth_error (closures s) g) as [c |] eqn:Hc; [| exact Hinv].
    destruct (fetchPending c) eqn:Hp; simpl; [| exact Hinv].
    set (s1 := set_closures _ s).
    destruct (initializeAndStream_frame (isMounted c) fetched s1) as (H1 & H2 & _).
    apply (only_current_frame s1); [exact H1 | exact H2 |].
    subst s1. now apply (only_current_set_closure s g c).
  - unfold setTimeRange.
    destruct (attached s) eqn:Ha; simpl; [| exact Hinv].
    destruct (String.eqb r (timeRange s)); [exact Hinv |].
    apply (only_current_frame
             (runStreamEffect (cleanupStreamEffect (set_timeRange r s))));
      try reflexivity.
    apply runStreamEffect_current.
    + destruct (cleanupStreamEffect_data (set_timeRange r s)) as (_ & _ & H & _).
      rewrite H. exact Ha.
    + apply cleanup_all_unmounted. exact Hinv.
  - unfold robotChanged.
    destruct (attached s) eqn:Ha; simpl; [| exact Hinv].
    destruct (eqb_robot id (robotId s)); [exact Hinv |].
    apply runStreamEffect_current.
    + destruct (cleanupStreamEffect_data (set_robotId id s)) as (_ & _ & H & _).
      rewrite H. exact Ha.
    + apply cleanup_all_unmounted. exact Hinv.
  - unfold unmount.
    destruct (attached s) eqn:Ha; simpl; [| exact Hinv].
    intros g c Hg Hm. simpl in Hg.
    rewrite (cleanup_all_unmounted s Hinv g c Hg) in Hm. discriminate.
Qed.

Lemma mount_only_current (id : option string) : only_current_mounted (mount id).
Proof.
  intros g c Hg Hm. unfold currentRun. simpl in *.
  destruct g as [| g]; [split; reflexivity |].
  destruct g; discriminate.
Qed.

Lemma run_keeps_only_current (evs : list Event) (s : View) :
  only_current_mounted s -> only_current_mounted (run evs s).
Proof.
  intro H. apply (run_invariant only_current_mounted (fun _ => True)).
  - intros s0 ev H0 _. now apply step_keeps_only_current.
  - apply Forall_forall. intros; exact I.
  - exact H.
Qed.

Lemma reachable_only_current (id : option string) (evs : list Event) :
  only_current_mounted (run evs (mount id)).
Proof. apply run_keeps_only_current, mount_only_current. Qed.

End Liveness.

(* ===================================================================== *)
(** ** The seed fetch against ticks and against newer runs *)
(* ===================================================================== *)

Section SeedRace.
Context {M : MathLib}.

Lemma run_ticks_closure (g : nat) (envs : list TickEnv) :
  forall (s : View) (c : Closure),
  nth_error (closures s) g = Some c -> isMounted c = true ->
  nth_error (closures (run (ticks g envs) s)) g
  = Some {| isMounted := true; tickCount := tickCount c + length envs;
            fetchPending := fetchPending c |}.
Proof.
  induction envs as [| e envs IH]; intros s c Hc Hm.
  - simpl. rewrite Hc, Nat.add_0_r. destruct c; simpl in *. now subst.
  - simpl. rewrite (tickInterval_live g e s c Hc Hm).
    match goal with |- nth_error (closures (run _ ?st)) _ = _ => set (s1 := st) end.
    rewrite (IH s1 {| isMounted := true; tickCount := S (tickCount c);
                      fetchPending := fetchPending c |}).
    + simpl. do 2 f_equal. lia.
    + subst s1; simpl. apply set_closure_same. eapply nth_error_in_range; eauto.
    + reflexivity.
Qed.

Lemma historySettled_stale (h : nat) (fetched : Promise Response) (s : View) :
  (forall c, nth_error (closures s) h = Some c -> isMounted c = false) ->
  historyData (historySettled h fetched s) = historyData s /\
  prevValues (historySettled h fetched s) = prevValues s.
Proof.
  intro Hdead. unfold historySettled.
  destruct (nth_error (closures s) h) as [c |] eqn:Hc; [| tauto].
  destruct (fetchPending c); simpl; [| tauto].
  rewrite (Hdead c eq_refl).
  match goal with
  | |- context [initializeAndStream false fetched ?st] =>
      destruct (initializeAndStream_unmounted fetched st) as (H1 & H2 & _)
  end.
  rewrite H1, H2. tauto.
Qed.

Lemma stale_run_unmounted (s : View) (h : nat) :
  only_current_mounted s -> h <> currentRun s \/ attached s = false ->
  forall c, nth_error (closures s) h = Some c -> isMounted c = false.
Proof.
  intros Hinv Hstale c Hc. destruct (isMounted c) eqn:Hm; [| reflexivity].
  destruct (Hinv h c Hc Hm) as [H1 H2].
  destruct Hstale as [H | H]; [contradiction | congruence].
Qed.

(** Once the component has left the tree it stays out of it. *)
Lemma step_keeps_detached (s : View) (ev : Event) :
  attached s = false -> attached (step s ev) = false.
Proof.
  intro Ha. destruct ev as [g e | g fetched' | r' | id0 |]; simpl.
  - unfold tickInterval.
    destruct (nth_error (closures s) g) as [c0 |]; [| exact Ha].
    destruct (isMounted c0); simpl; exact Ha.
  - destruct (historySettled_frame g fetched' s) as (H & _). now rewrite H.
  - unfold setTimeRange. now rewrite Ha.
  - unfold robotChanged. now rewrite Ha.
  - unfold unmount. now rewrite Ha.
Qed.

Lemma run_keeps_detached (evs : list Event) (s : View) :
  attached s = false -> attached (run evs s) = false.
Proof.
  revert s. induction evs as [| ev evs IH]; intros s Ha; [exact Ha |].
  simpl. apply IH. now apply step_keeps_detached.
Qed.

Lemma unmount_detaches (s : View) : attached (unmount s) = false.
Proof.
  unfold unmount. destruct (attached s) eqn:Ha; simpl; [reflexivity | exact Ha].
Qed.

(** C5: in every interleaving of events after the mount,
    (1) a tick of a mounted run whose fetch is still pending generates its
    point from the ref as it is, not yet seeded, writes the new values to
    the ref, appends the point to the window as it is (keeping the last
    100), and leaves the fetch pending;
    (2) when that fetch then settles with a non-empty array, however many
    ticks came in between, the window becomes the normalized last 50
    records, whatever it held, and the ref takes each of its five values
    from the last of them;
    (3) a fetch that settles for a run other than the current one, or
    after the component left the tree, finds [isMounted] false and changes
    neither the window nor the ref;
    (4) in particular, once the time range or the robot has changed, or the
    component has been unmounted, the fetch of the run that was current
    before changes neither of them, whenever it settles. *)
Theorem seed_race_policy
    (id : option string) (evs : list Event)
    (g : nat) (c : Closure) (e : TickEnv) (envs : list TickEnv)
    (data : list HistoryRecord) (fetched : Promise Response)
    (r : string) (id' : option string) (later : list Event) :
  let s := run evs (mount id) in
  nth_error (closures s) g = Some c -> isMounted c = true -> fetchPending c = true ->
  data <> [] ->
  (exists newPoint,
     generateNewDataPoint (S (tickCount c)) e (prevValues s)
     = (prevValues (tickInterval g e s), newPoint) /\
     historyData (tickInterval g e s) = slice_last 100 (historyData s ++ [newPoint]) /\
     lastOf (historyData (tickInterval g e s)) = Some newPoint /\
     timestamp newPoint = now e /\
     nth_error (closures (tickInterval g e s)) g
     = Some {| isMounted := true; tickCount := S (tickCount c);
               fetchPending := true |}) /\
  (let seeded := historySettled g (fetchedOk data) (run (ticks g envs) s) in
   historyData seeded = map normalize (slice_last 50 data) /\
   exists lastPoint,
     lastOf (historyData seeded) = Some lastPoint /\
     prev_Torque (prevValues seeded) = Torque lastPoint /\
     prev_Temperature (prevValues seeded) = Temperature lastPoint /\
     prev_Speed (prevValues seeded) = Speed lastPoint /\
     prev_Vibration (prevValues seeded) = Vibration lastPoint /\
     prev_current_tool_wear_pct (prevValues seeded) = current_tool_wear_pct lastPoint) /\
  (forall (evs' : list Event) (h : nat),
     let t := run evs' (mount id) in
     h <> currentRun t \/ attached t = false ->
     historyData (historySettled h fetched t) = historyData t /\
     prevValues (historySettled h fetched t) = prevValues t) /\
  (r <> timeRange s ->
   historyData (historySettled g fetched (run later (setTimeRange r s)))
   = historyData (run later (setTimeRange r s)) /\
   prevValues (historySettled g fetched (run later (setTimeRange r s)))
   = prevValues (run later (setTimeRange r s))) /\
  (eqb_robot id' (robotId s) = false ->
   historyData (historySettled g fetched (run later (robotChanged id' s)))
   = historyData (run later (robotChanged id' s)) /\
   prevValues (historySettled g fetched (run later (robotChanged id' s)))
   = prevValues (run later (robotChanged id' s))) /\
  (historyData (historySettled g fetched (run later (unmount s)))
   = historyData (run later (unmount s)) /\
   prevValues (historySettled g fetched (run later (unmount s)))
   = prevValues (run later (unmount s))).
Proof.
  intros s Hc Hm Hp Hd.
  assert (Hinv : only_current_mounted s) by apply reachable_only_current.
  destruct (Hinv g c Hc Hm) as [Hcur Hatt].
  assert (Hlt : (g < length (closures s))%nat)
    by (eapply nth_error_in_range; eauto).
  split; [| split; [| split; [| split; [| split]]]].
  - exists (snd (generateNewDataPoint (S (tickCount c)) e (prevValues s))).
    rewrite (tickInterval_live g e s c Hc Hm). cbn [historyData prevValues closures].
    split; [reflexivity |]. split; [reflexivity |].
    split; [unfold appendPoint; apply lastOf_slice_push; unfold MAX_DATA_POINTS; lia |].
    split; [reflexivity |].
    rewrite Hp. now apply set_closure_same.
  - pose proof (run_ticks_closure g envs s c Hc Hm) as Hc'.
    destruct (historySettled_seeds g (run (ticks g envs) s) _ data Hc' eq_refl Hp Hd)
      as (H1 & (lp & Hl & H2) & _).
    cbv zeta. split; [exact H1 |].
    exists lp. rewrite H1, H2. split; [exact Hl |]. repeat split.
  - intros evs' h t Hstale. apply historySettled_stale.
    apply stale_run_unmounted; [apply reachable_only_current | exact Hstale].
  - intro Hr. apply historySettled_stale. apply stale_run_unmounted.
    + apply run_keeps_only_current.
      now apply (step_keeps_only_current s (SetTimeRange r)).
    + left. apply older_run_is_stale.
      rewrite (setTimeRange_adds_run r s Hatt Hr). lia.
  - intro Hr. apply historySettled_stale. apply stale_run_unmounted.
    + apply run_keeps_only_current.
      now apply (step_keeps_only_current s (RobotChanged id')).
    + left. apply older_run_is_stale.
      rewrite (robotChanged_adds_run id' s Hatt Hr). lia.
  - apply historySettled_stale. apply stale_run_unmounted.
    + apply run_keeps_only_current.
      now apply (step_keeps_only_current s Unmount).
    + right. apply run_keeps_detached, unmount_detaches.
Qed.

(** The fetches that yield no seed, case by case. *)
Lemma seedFails_cases (fetched : Promise Response) :
  seedFails fetched = true <->
  (exists err, fetched = Rejected err) \/
  (exists res, fetched = Fulfilled res /\
     (ok res = false \/ (exists err, json res = Rejected err) \/
      json res = Fulfilled JsonOther \/ json res = Fulfilled (JsonArray []))).
Proof.
  unfold seedFails, seed_items. split.
  - destruct fetched as [res | err]; [| intros _; left; now exists err].
    intro H. right. exists res. split; [reflexivity |].
    destruct (ok res); [| now left].
    destruct (json res) as [[| items] | err].
    + right; right; now left.
    + destruct items; [right; right; now right | discriminate].
    + right; left; now exists err.
  - intros [[err ->] | [res [-> H]]]; [reflexivity |].
    destruct (ok res); [| reflexivity].
    destruct H as [H | [[err H] | [H | H]]]; try discriminate; now rewrite H.
Qed.

Lemma historySettled_no_seed (g : nat) (fetched : Promise Response) (s : View) :
  seed_items fetched = [] ->
  historyData (historySettled g fetched s) = historyData s /\
  prevValues (historySettled g fetched s) = prevValues s /\
  (forall h c, nth_error (closures s) h = Some c ->
     exists c', nth_error (closures (historySettled g fetched s)) h = Some c' /\
                isMounted c' = isMounted c /\ tickCount c' = tickCount c) /\
  (console (historySettled g fetched s) = console s \/
   exists err, console (historySettled g fetched s)
               = console s ++ [WarnHistoryUnavailable err]).
Proof.
  intro Hs. unfold historySettled.
  destruct (nth_error (closures s) g) as [c |] eqn:Hc.
  2: { repeat split; try tauto. intros h c Hh. now exists c. }
  destruct (fetchPending c) eqn:Hp; simpl.
  2: { repeat split; try tauto. intros h c0 Hh. now exists c0. }
  match goal with
  | |- context [initializeAndStream ?m fetched ?st] =>
      destruct (initializeAndStream_no_seed m fetched st Hs)
        as (H1 & H2 & H3 & _ & _ & _ & H4)
  end.
  rewrite H1, H2, H3. simpl. repeat split; try assumption.
  intros h c0 Hh. destruct (Nat.eq_dec g h) as [<- | Hne].
  - eexists. split.
    + apply set_closure_same. eapply nth_error_in_range; eauto.
    + simpl. split; congruence.
  - exists c0. rewrite set_closure_other by exact Hne. tauto.
Qed.

(** The run a change of the time range starts: mounted, no tick yet, on
    the empty window and the default ref. *)
Lemma setTimeRange_current (r : string) (s : View) :
  attached s = true -> r <> timeRange s ->
  exists c,
    nth_error (closures (setTimeRange r s)) (currentRun (setTimeRange r s)) = Some c /\
    isMounted c = true /\ tickCount c = 0%nat /\
    historyData (setTimeRange r s) = [] /\
    prevValues (setTimeRange r s) = defaultPrevValues.
Proof.
  intros Ha Hr. unfold setTimeRange. rewrite Ha.
  apply String.eqb_neq in Hr. rewrite Hr. cbn [negb orb].
  unfold resetEffect, runStreamEffect, currentRun.
  cbn [closures historyData prevValues set_prevValues set_historyData set_closures].
  rewrite length_app. cbn [length].
  replace (length (closures (cleanupStreamEffect (set_timeRange r s))) + 1 - 1)%nat
    with (length (closures (cleanupStreamEffect (set_timeRange r s))) + 0)%nat by lia.
  rewrite nth_error_app2 by lia.
  replace (length (closures (cleanupStreamEffect (set_timeRange r s))) + 0
           - length (closures (cleanupStreamEffect (set_timeRange r s))))%nat
    with 0%nat by lia.
  eexists. split; [reflexivity |]. repeat split.
Qed.

(** Ticks after a fetch that yielded no seed go on from the window and the
    ref as they were. *)
Lemma ticks_after_no_seed (g h : nat) (fetched : Promise Response) (s : View)
    (c : Closure) (envs : list TickEnv) :
  seed_items fetched = [] ->
  nth_error (closures s) h = Some c -> isMounted c = true ->
  (length (historyData s) <= MAX_DATA_POINTS)%nat ->
  historyData (run (ticks h envs) (historySettled g fetched s))
  = slice_last MAX_DATA_POINTS
      (historyData s ++ generated (tickCount c) (prevValues s) envs).
Proof.
  intros Hs Hc Hm Hlen.
  destruct (historySettled_no_seed g fetched s Hs) as (H1 & H2 & H3 & _).
  destruct (H3 h c Hc) as (c' & Hc' & Hm' & Htc').
  assert (Hlen' : (length (historyData (historySettled g fetched s))
                   <= MAX_DATA_POINTS)%nat) by (now rewrite H1).
  rewrite (run_ticks h envs _ c' Hc' (eq_trans Hm' Hm) Hlen').
  now rewrite H1, H2, Htc'.
Qed.

(** C8 (amended): when the seed fetch fails (network error, non-OK status,
    malformed body, a body that is no array) or returns the empty array,
    the promise of [initializeAndStream] still fulfils, at most one warning
    is logged, and the window and the ref are left as they were: empty and
    at the defaults (Torque 40, Temperature 300, Speed 2800, Vibration 0.5,
    wear 35) right after the first mount and right after a change of the
    time range, in any state the component can reach.  The ticks that
    follow go on from the window and the ref as they were, so after a mount
    or a change of the time range the window holds generated points only. *)
Theorem failed_seed_leaves_defaults
    (id : option string) (evs : list Event) (fetched : Promise Response)
    (g : nat) (s : View) (mounted : bool) (envs : list TickEnv)
    (r : string) (h : nat) (c : Closure) :
  seedFails fetched = true ->
  let t := run evs (mount id) in
  let defaults := {| prev_Torque := 40; prev_Temperature := 300; prev_Speed := 2800;
                     prev_Vibration := 1 # 2; prev_current_tool_wear_pct := 35 |} in
  (exists s', initializeAndStream mounted fetched s = Fulfilled s') /\
  (historyData (historySettled g fetched s) = historyData s /\
   prevValues (historySettled g fetched s) = prevValues s) /\
  (historyData (historySettled 0 fetched (mount id)) = [] /\
   prevValues (historySettled 0 fetched (mount id)) = defaults) /\
  (console (historySettled g fetched s) = console s \/
   exists err, console (historySettled g fetched s)
               = console s ++ [WarnHistoryUnavailable err]) /\
  (historyData (run (ticks 0 envs) (historySettled 0 fetched (mount id)))
   = slice_last 100 (generated 0 defaults envs) /\
   length (historyData (run (ticks 0 envs) (historySettled 0 fetched (mount id))))
   = Nat.min (length envs) 100) /\
  (attached t = true -> r <> timeRange t ->
   let restarted := setTimeRange r t in
   let failed := historySettled (currentRun restarted) fetched restarted in
   historyData failed = [] /\
   prevValues failed = defaults /\
   historyData (run (ticks (currentRun restarted) envs) failed)
   = slice_last 100 (generated 0 defaults envs)) /\
  (nth_error (closures t) h = Some c -> isMounted c = true ->
   historyData (run (ticks h envs) (historySettled g fetched t))
   = slice_last 100 (historyData t ++ generated (tickCount c) (prevValues t) envs)).
Proof.
  intros Hfail t defaults.
  assert (Hs : seed_items fetched = []).
  { unfold seedFails in Hfail. destruct (seed_items fetched); [reflexivity | discriminate]. }
  split; [apply initializeAndStream_fulfils |].
  destruct (historySettled_no_seed g fetched s Hs) as (H1 & H2 & _ & H4).
  split; [tauto |].
  destruct (historySettled_no_seed 0 fetched (mount id) Hs) as (M1 & M2 & _).
  destruct (mount_closures id) as (c0 & Hc0 & Hm0 & Htc0 & Hh0 & Hp0).
  rewrite Hh0 in M1. rewrite Hp0 in M2.
  split; [split; [exact M1 | exact M2] |]. split; [exact H4 |].
  assert (Hlen0 : (length (historyData (mount id)) <= MAX_DATA_POINTS)%nat)
    by (rewrite Hh0; simpl; lia).
  pose proof (ticks_after_no_seed 0 0 fetched (mount id) c0 envs Hs Hc0 Hm0 Hlen0)
    as Hrun.
  rewrite Hh0, Hp0, Htc0 in Hrun. simpl app in Hrun.
  split.
  { split; [exact Hrun |].
    rewrite Hrun, slice_last_length, generated_length. reflexivity. }
  split.
  - intros Ha Hr restarted failed.
    destruct (setTimeRange_current r t Ha Hr) as (c1 & Hc1 & Hm1 & Htc1 & Hh1 & Hp1).
    fold restarted in Hc1, Hh1, Hp1.
    destruct (historySettled_no_seed (currentRun restarted) fetched restarted Hs)
      as (R1 & R2 & _).
    fold failed in R1, R2. rewrite Hh1 in R1. rewrite Hp1 in R2.
    split; [exact R1 |]. split; [exact R2 |].
    assert (Hlen1 : (length (historyData restarted) <= MAX_DATA_POINTS)%nat)
      by (rewrite Hh1; simpl; lia).
    pose proof (ticks_after_no_seed (currentRun restarted) (currentRun restarted)
                  fetched restarted c1 envs Hs Hc1 Hm1 Hlen1) as Hrun1.
    fold failed in Hrun1. rewrite Hh1, Hp1, Htc1 in Hrun1. exact Hrun1.
  - intros Hc Hm.
    apply (ticks_after_no_seed g h fetched t c envs Hs Hc Hm).
    apply reachable_window_bounded.
Qed.

End SeedRace.

(* ===================================================================== *)
(** ** Nothing of the previous range survives a reset *)
(* ===================================================================== *)

Section Reset.
Context {M : MathLib}.

Lemma cleanup_lastOf (s : View) :
  lastOf (closures (cleanupStreamEffect s)) = option_map unmounted (lastOf (closures s)).
Proof.
  unfold cleanupStreamEffect.
  destruct (lastOf (closures s)) as [c |] eqn:Hl; simpl; [| exact Hl].
  apply lastOf_set_current; [reflexivity |].
  rewrite lastOf_nth in Hl. eapply nth_error_in_range; eauto.
Qed.

Lemma tick_agree (g : nat) (e : TickEnv) (s1 s2 : View) :
  only_current_mounted s1 -> only_current_mounted s2 -> agree s1 s2 ->
  agree (tickInterval g e s1) (tickInterval g e s2).
Proof.
  intros I1 I2 Hag. pose proof Hag as (Ha & Hr & Ht & Hh & Hp & Hlen & Hlast).
  destruct (Nat.eq_dec g (currentRun s1)) as [Hg | Hg].
  - assert (Hg2 : g = currentRun s2) by (unfold currentRun in *; congruence).
    assert (Hn1 : nth_error (closures s1) g = lastOf (closures s1))
      by (rewrite lastOf_nth; now subst g).
    assert (Hn2 : nth_error (closures s2) g = lastOf (closures s1))
      by (rewrite Hlast, lastOf_nth, Hg2; reflexivity).
    destruct (lastOf (closures s1)) as [c |] eqn:Hl.
    + destruct (isMounted c) eqn:Hm.
      * rewrite (tickInterval_live g e s1 c Hn1 Hm),
                (tickInterval_live g e s2 c Hn2 Hm).
        unfold agree; simpl. rewrite !set_closure_length, Hh, Hp.
        repeat split; try assumption.
        rewrite !lastOf_set_current; try reflexivity;
          try (eapply nth_error_in_range; eauto);
          unfold currentRun in *; congruence.
      * rewrite !tickInterval_dead; [exact Hag | |];
          intros c' Hc'; congruence.
    + rewrite !tickInterval_dead; [exact Hag | |];
        intros c' Hc'; congruence.
  - assert (Hg2 : g <> currentRun s2) by (unfold currentRun in *; congruence).
    rewrite !tickInterval_dead; [exact Hag | |].
    + apply stale_run_unmounted; [exact I2 | now left].
    + apply stale_run_unmounted; [exact I1 | now left].
Qed.

Lemma settle_agree (g : nat) (fetched : Promise Response) (s1 s2 : View) :
  only_current_mounted s1 -> only_current_mounted s2 -> agree s1 s2 ->
  agree (historySettled g fetched s1) (historySettled g fetched s2).
Proof.
  intros I1 I2 (Ha & Hr & Ht & Hh & Hp & Hlen & Hlast).
  destruct (historySettled_frame g fetched s1) as (A1 & R1 & T1 & L1 & O1).
  destruct (historySettled_frame g fetched s2) as (A2 & R2 & T2 & L2 & O2).
  destruct (Nat.eq_dec g (currentRun s1)) as [Hg | Hg].
  - assert (Hg2 : g = currentRun s2) by (unfold currentRun in *; congruence).
    assert (Hn1 : nth_error (closures s1) g = lastOf (closures s1))
      by (rewrite lastOf_nth; now subst g).
    assert (Hn2 : nth_error (closures s2) g = lastOf (closures s1))
      by (rewrite Hlast, lastOf_nth, Hg2; reflexivity).
    unfold agree. rewrite A1, A2, R1, R2, T1, T2, L1, L2.
    do 3 (split; [assumption |]).
    unfold historySettled. rewrite Hn1, Hn2.
    destruct (lastOf (closures s1)) as [c |] eqn:Hl;
      [| repeat split; congruence].
    destruct (fetchPending c); simpl; [| repeat split; congruence].
    set (c' := {| isMounted := isMounted c; tickCount := tickCount c;
                  fetchPending := false |}).
    set (t1 := set_closures (set_closure g c' (closures s1)) s1).
    set (t2 := set_closures (set_closure g c' (closures s2)) s2).
    destruct (initializeAndStream_frame (isMounted c) fetched t1)
      as (C1 & _ & _ & _ & D1).
    destruct (initializeAndStream_frame (isMounted c) fetched t2)
      as (C2 & _ & _ & _ & D2).
    rewrite C1, C2. subst t1 t2; simpl in *.
    assert (Hcl : lastOf (set_closure g c' (closures s1))
                  = lastOf (set_closure g c' (closures s2))).
    { rewrite !lastOf_set_current; try reflexivity;
        try (eapply nth_error_in_range; eauto);
        unfold currentRun in *; congruence. }
    destruct D1 as [(Hm1 & Hs1 & H1 & lp1 & Hl1 & P1) | ([Hm1 | Hs1] & H1 & P1)];
      destruct D2 as [(Hm2 & Hs2 & H2 & lp2 & Hl2 & P2) | ([Hm2 | Hs2] & H2 & P2)];
      try congruence; try contradiction.
    all: rewrite H1, H2, P1, P2; repeat split; try assumption; try congruence.
  - assert (Hg2 : g <> currentRun s2) by (unfold currentRun in *; congruence).
    destruct (historySettled_stale g fetched s1
                (stale_run_unmounted s1 g I1 (or_introl Hg))) as [D1 P1].
    destruct (historySettled_stale g fetched s2
                (stale_run_unmounted s2 g I2 (or_introl Hg2))) as [D2 P2].
    unfold agree. rewrite A1, A2, R1, R2, T1, T2, L1, L2, D1, D2, P1, P2,
      (O1 Hg), (O2 Hg2).
    repeat split; assumption.
Qed.

Lemma restart_agree (s1 s2 : View) :
  agree s1 s2 ->
  agree (runStreamEffect (cleanupStreamEffect s1))
        (runStreamEffect (cleanupStreamEffect s2)).
Proof.
  intros (Ha & Hr & Ht & Hh & Hp & Hlen & Hlast).
  destruct (cleanupStreamEffect_data s1) as (D1 & P1 & A1 & R1 & T1).
  destruct (cleanupStreamEffect_data s2) as (D2 & P2 & A2 & R2 & T2).
  destruct (cleanup_closures s1) as [L1 _].
  destruct (cleanup_closures s2) as [L2 _].
  unfold agree, runStreamEffect; simpl.
  rewrite A1, A2, R1, R2, T1, T2, D1, D2, P1, P2, !length_app, L1, L2, !lastOf_app, Hr.
  repeat split; try assumption. now rewrite Hlen.
Qed.

Lemma step_agree (ev : Event) (s1 s2 : View) :
  only_current_mounted s1 -> only_current_mounted s2 -> agree s1 s2 ->
  agree (step s1 ev) (step s2 ev).
Proof.
  intros I1 I2 Hag. destruct ev as [g e | g fetched | r | id |]; simpl.
  - now apply tick_agree.
  - now apply settle_agree.
  - pose proof Hag as (Ha & Hr & Ht & _).
    unfold setTimeRange. rewrite <- Ha, <- Ht.
    destruct (negb (attached s1) || String.eqb r (timeRange s1)); [exact Hag |].
    assert (Hag' : agree (set_timeRange r s1) (set_timeRange r s2)).
    { destruct Hag as (? & ? & ? & ? & ? & ? & ?). repeat split; assumption. }
    apply restart_agree in Hag'.
    destruct Hag' as (? & ? & ? & ? & ? & ? & ?). repeat split; assumption.
  - pose proof Hag as (Ha & Hr & Ht & _).
    unfold robotChanged. rewrite <- Ha, <- Hr.
    destruct (negb (attached s1) || eqb_robot id (robotId s1)); [exact Hag |].
    apply restart_agree.
    destruct Hag as (? & ? & ? & ? & ? & ? & ?). repeat split; assumption.
  - pose proof Hag as (Ha & Hr & Ht & Hh & Hp & Hlen & Hlast).
    unfold unmount. rewrite <- Ha.
    destruct (negb (attached s1)); [exact Hag |].
    destruct (cleanupStreamEffect_data s1) as (D1 & P1 & A1 & R1 & T1).
    destruct (cleanupStreamEffect_data s2) as (D2 & P2 & A2 & R2 & T2).
    destruct (cleanup_closures s1) as [L1 _].
    destruct (cleanup_closures s2) as [L2 _].
    unfold agree; simpl.
    rewrite R1, R2, T1, T2, D1, D2, P1, P2, L1, L2, !cleanup_lastOf, Hlast.
    repeat split; assumption.
Qed.

Lemma run_agree (evs : list Event) :
  forall s1 s2 : View,
  only_current_mounted s1 -> only_current_mounted s2 -> agree s1 s2 ->
  agree (run evs s1) (run evs s2).
Proof.
  induction evs as [| ev evs IH]; intros s1 s2 I1 I2 Hag; [exact Hag |].
  simpl. apply IH; try now apply step_keeps_only_current.
  now apply step_agree.
Qed.

Lemma setTimeRange_resets (r : string) (s : View) :
  attached s = true -> r <> timeRange s ->
  setTimeRange r s
  = resetEffect (runStreamEffect (cleanupStreamEffect (set_timeRange r s))).
Proof.
  intros Ha Hr. unfold setTimeRange. rewrite Ha.
  apply String.eqb_neq in Hr. now rewrite Hr.
Qed.

(** C6: a reset to a new time range in a state reached by any events
    leaves the window empty, so no sample of the previous window is in
    [CurrentWindow()], and the ref at the defaults (Torque 40, Temperature
    300, Speed 2800, Vibration 0.5, wear 35); and whatever events follow,
    the window and the ref do not depend on what they held before the
    reset: two histories of the same subject with the same number of effect
    runs go through equal windows and refs after it. *)
Theorem reset_discards_window_and_ref
    (id1 id2 : option string) (evs1 evs2 later : list Event) (r : string) (pt : Sample) :
  let s1 := run evs1 (mount id1) in
  let s2 := run evs2 (mount id2) in
  attached s1 = true -> r <> timeRange s1 ->
  CurrentWindow (setTimeRange r s1) = [] /\
  (In pt (CurrentWindow s1) -> ~ In pt (CurrentWindow (setTimeRange r s1))) /\
  prevValues (setTimeRange r s1)
  = {| prev_Torque := 40; prev_Temperature := 300; prev_Speed := 2800;
       prev_Vibration := 1 # 2; prev_current_tool_wear_pct := 35 |} /\
  (attached s2 = true -> r <> timeRange s2 ->
   robotId s2 = robotId s1 -> length (closures s2) = length (closures s1) ->
   historyData (run later (setTimeRange r s1))
   = historyData (run later (setTimeRange r s2)) /\
   prevValues (run later (setTimeRange r s1))
   = prevValues (run later (setTimeRange r s2))).
Proof.
  intros s1 s2 Ha1 Hr1.
  rewrite (setTimeRange_resets r s1 Ha1 Hr1).
  split; [reflexivity |]. split; [intros _ H; exact H |]. split; [reflexivity |].
  intros Ha2 Hr2 Hrob Hlen.
  rewrite (setTimeRange_resets r s2 Ha2 Hr2).
  assert (I1 : only_current_mounted s1) by apply reachable_only_current.
  assert (I2 : only_current_mounted s2) by apply reachable_only_current.
  assert (Hag : agree
                  (resetEffect (runStreamEffect (cleanupStreamEffect (set_timeRange r s1))))
                  (resetEffect (runStreamEffect (cleanupStreamEffect (set_timeRange r s2))))).
  { destruct (cleanupStreamEffect_data (set_timeRange r s1)) as (_ & _ & A1 & R1 & T1).
    destruct (cleanupStreamEffect_data (set_timeRange r s2)) as (_ & _ & A2 & R2 & T2).
    destruct (cleanup_closures (set_timeRange r s1)) as [L1 _].
    destruct (cleanup_closures (set_timeRange r s2)) as [L2 _].
    unfold agree, resetEffect, runStreamEffect; simpl in *.
    rewrite A1, A2, R1, R2, T1, T2, !length_app, L1, L2, !lastOf_app, Ha1, Ha2, Hrob, Hlen.
    repeat split. }
  assert (J1 : only_current_mounted
                 (resetEffect (runStreamEffect (cleanupStreamEffect (set_timeRange r s1))))).
  { rewrite <- (setTimeRange_resets r s1 Ha1 Hr1).
    apply (step_keeps_only_current s1 (SetTimeRange r) I1). }
  assert (J2 : only_current_mounted
                 (resetEffect (runStreamEffect (cleanupStreamEffect (set_timeRange r s2))))).
  { rewrite <- (setTimeRange_resets r s2 Ha2 Hr2).
    apply (step_keeps_only_current s2 (SetTimeRange r) I2). }
  destruct (run_agree later _ _ J1 J2 Hag) as (_ & _ & _ & Hh & Hp & _).
  split; assumption.
Qed.

End Reset.

(* ===================================================================== *)
(** ** The fallback shown for an empty window *)
(* ===================================================================== *)

Section Fallback.
Context {M : MathLib}.






End Fallback.

(* ===================================================================== *)
(** ** Concrete runs *)
(* ===================================================================== *)

Lemma valid_env_at (t : Z) : valid_env (env_at t).
Proof. unfold valid_env, unit_interval; simpl. repeat split; lra. Defined.

Lemma window_after_ticks_witness :
  nth_error (closures (@run SeriesMath [] (mount robot1))) 0 = Some fresh_closure /\
  isMounted fresh_closure = true /\
  length (historyData (@run SeriesMath
                         (ticks 0 [env_at 1700000005000; env_at 1700000010000])
                         (mount robot1))) = 2%nat /\
  fetchPending fresh_closure = true /\ [record_torque_only] <> [] /\
  length (historyData
            (@run SeriesMath (ticks 0 [env_at 1700000005000; env_at 1700000010000])
               (historySettled 0 (fetchedOk [record_torque_only]) (mount robot1))))
  = 3%nat /\
  length envs150 = 150%nat /\
  nth_error envs150 50 = Some (env_at 1700000255000) /\
  length (historyData (@run SeriesMath (ticks 0 envs150) (mount robot1))) = 100%nat /\
  exists first,
    nth_error (@generated SeriesMath 0 defaultPrevValues envs150) 50 = Some first /\
    hd_error (historyData (@run SeriesMath (ticks 0 envs150) (mount robot1)))
    = Some first /\
    timestamp first = 1700000255000%Z.
Proof.
  assert (Hd : [record_torque_only] <> []) by discriminate.
  destruct (@window_after_ticks SeriesMath robot1 [] 0 fresh_closure
              [env_at 1700000005000; env_at 1700000010000] eq_refl eq_refl)
    as (H1 & _ & _ & _ & Hseed & H150).
  destruct (H150 envs150 (env_at 1700000255000) eq_refl eq_refl)
    as (H2 & first & H3 & H4 & H5).
  split; [reflexivity |]. split; [reflexivity |]. split; [exact H1 |].
  split; [reflexivity |]. split; [exact Hd |].
  split; [exact (Hseed [record_torque_only] eq_refl Hd) |].
  split; [reflexivity |]. split; [reflexivity |].
  split; [exact H2 |]. exists first.
  split; [exact H3 |]. split; [exact H4 | exact H5].
Defined.

(** C1 as stated fails: a history served newest first is seeded in that
    order, and after one tick the window of three samples is not ordered by
    timestamp. *)
Lemma descending_seed_is_not_sorted :
  length (historyData after_descending_seed) = Nat.min (2 + 1) 100 /\
  map timestamp (historyData after_descending_seed)
  = [1700000060000; 1700000000000; 1700000065000]%Z /\
  nondecreasing (map timestamp (historyData after_descending_seed)) = false.
Proof. vm_compute. repeat split. Qed.

Lemma wear_monotone_and_capped_witness :
  Forall valid_env [env_at 1700000005000; env_at 1700000010000] /\
  Forall wear_event_ok seed_then_tick /\
  nth_error (closures (@run SeriesMath seed_then_tick (mount robot1))) 0
  = Some {| isMounted := true; tickCount := 1; fetchPending := false |} /\
  nondecreasingQ
    (wears (@generated SeriesMath 0 (prevValuesOfPoint (normalize record_worn))
              [env_at 1700000005000; env_at 1700000010000])) = true /\
  map Qred
    (wears (@generated SeriesMath 0 (prevValuesOfPoint (normalize record_worn))
              [env_at 1700000005000; env_at 1700000010000])) = [95; 95] /\
  length (historyData
            (@run SeriesMath (ticks 0 [env_at 1700000005000; env_at 1700000010000])
               (@run SeriesMath seed_then_tick (mount robot1)))) = 4%nat /\
  nondecreasingQ
    (wears (historyData (@run SeriesMath seed_then_tick (mount robot1)))) = true /\
  all_at_most 95
    (wears (historyData (@run SeriesMath seed_then_tick (mount robot1)))) = true /\
  map Qred (wears (historyData (@run SeriesMath seed_then_tick (mount robot1))))
  = [50; 252 # 5].
Proof.
  assert (He : Forall valid_env [env_at 1700000005000; env_at 1700000010000]).
  { constructor; [apply valid_env_at |]. constructor; [apply valid_env_at | constructor]. }
  assert (H : Forall wear_event_ok seed_then_tick).
  { constructor; [split; reflexivity |].
    constructor; [apply valid_env_at | constructor]. }
  destruct (@wear_monotone_and_capped SeriesMath 0 (env_at 1700000005000)
              (prevValuesOfPoint (normalize record_worn))
              [env_at 1700000005000; env_at 1700000010000]
              robot1 seed_then_tick 0
              {| isMounted := true; tickCount := 1; fetchPending := false |})
    as (_ & Hgen & Hrun & Hwin).
  split; [exact He |]. split; [exact H |]. split; [reflexivity |].
  split; [exact (proj1 (Hgen He)) |]. split; [reflexivity |].
  split; [rewrite (Hrun eq_refl eq_refl); reflexivity |].
  split; [exact (proj1 (Hwin H)) |]. split; [exact (proj2 (Hwin H)) |].
  reflexivity.
Defined.

(** C2 as stated fails: a seeded wear of 97 exceeds 95, and the first tick
    after it shows 95, a decrease. *)
Lemma seeded_wear_above_cap_drops :
  map Qred (wears (historyData after_worn_seed)) = [97; 95] /\
  nondecreasingQ (wears (historyData after_worn_seed)) = false /\
  all_at_most 95 (wears (historyData after_worn_seed)) = false.
Proof. vm_compute. repeat split. Qed.

Lemma tick_metrics_in_range_witness :
  Forall seeds_in_range seed_then_tick /\
  in_range (snd (@generateNewDataPoint SeriesMath 1 (env_at 1700000005000)
                   defaultPrevValues)) /\
  Forall in_range (historyData (@run SeriesMath seed_then_tick (mount robot1))).
Proof.
  assert (H : Forall seeds_in_range seed_then_tick).
  { repeat constructor; apply Qle_bool_iff; reflexivity. }
  split; [exact H |].
  exact (@tick_metrics_in_range SeriesMath 1 (env_at 1700000005000) defaultPrevValues
           robot1 seed_then_tick H).
Defined.




Lemma seed_race_policy_witness :
  nth_error (closures after_range_change) 1 = Some fresh_closure /\
  isMounted fresh_closure = true /\ fetchPending fresh_closure = true /\
  [record_torque_only] <> [] /\
  historyData after_range_change = [] /\
  (exists newPoint,
     historyData (@tickInterval SeriesMath 1 (env_at 1700000005000) after_range_change)
     = [newPoint] /\
     timestamp newPoint = 1700000005000%Z /\
     Torque newPoint = 404 # 10 /\
     nth_error
       (closures (@tickInterval SeriesMath 1 (env_at 1700000005000) after_range_change))
       1 = Some {| isMounted := true; tickCount := 1; fetchPending := true |}) /\
  length (historyData
            (@run SeriesMath (ticks 1 [env_at 1700000005000; env_at 1700000010000])
               after_range_change)) = 2%nat /\
  historyData
    (historySettled 1 (fetchedOk [record_torque_only])
       (@run SeriesMath (ticks 1 [env_at 1700000005000; env_at 1700000010000])
          after_range_change))
  = [{| timestamp := 1700000000000; Torque := 42; Temperature := 300;
        Speed := 2800; Vibration := 1 # 2; current_tool_wear_pct := 35 |}] /\
  prev_Torque
    (prevValues
       (historySettled 1 (fetchedOk [record_torque_only])
          (@run SeriesMath (ticks 1 [env_at 1700000005000; env_at 1700000010000])
             after_range_change))) = 42 /\
  prev_Speed
    (prevValues
       (historySettled 1 (fetchedOk [record_torque_only])
          (@run SeriesMath (ticks 1 [env_at 1700000005000; env_at 1700000010000])
             after_range_change))) = 2800 /\
  (0%nat <> currentRun after_range_change \/ attached after_range_change = false) /\
  historyData (historySettled 0 (fetchedOk [record_torque_only]) after_range_change)
  = [] /\
  prevValues (historySettled 0 (fetchedOk [record_torque_only]) after_range_change)
  = defaultPrevValues /\
  (0%nat <> currentRun after_unmount \/ attached after_unmount = false) /\
  nth_error (closures after_unmount) 0
  = Some {| isMounted := false; tickCount := 0; fetchPending := true |} /\
  historyData (historySettled 0 (fetchedOk [record_torque_only]) after_unmount) = [] /\
  "7d"%string <> timeRange after_range_change /\
  historyData
    (historySettled 1 (fetchedOk [record_torque_only])
       (@run SeriesMath [TimerFired 2 (env_at 1700000015000)]
          (setTimeRange "7d" after_range_change)))
  = historyData
      (@run SeriesMath [TimerFired 2 (env_at 1700000015000)]
         (setTimeRange "7d" after_range_change)) /\
  eqb_robot None (robotId after_range_change) = false /\
  historyData
    (historySettled 1 (fetchedOk [record_torque_only])
       (@run SeriesMath [TimerFired 2 (env_at 1700000015000)]
          (robotChanged None after_range_change)))
  = historyData
      (@run SeriesMath [TimerFired 2 (env_at 1700000015000)]
         (robotChanged None after_range_change)) /\
  historyData
    (historySettled 1 (fetchedOk [record_torque_only])
       (@run SeriesMath [] (unmount after_range_change)))
  = [].
Proof.
  assert (Hd : [record_torque_only] <> []) by discriminate.
  assert (Hstale : 0%nat <> currentRun after_range_change \/
                   attached after_range_change = false)
    by (left; discriminate).
  assert (Hgone : 0%nat <> currentRun after_unmount \/ attached after_unmount = false)
    by (right; reflexivity).
  assert (Hr : "7d"%string <> timeRange after_range_change) by discriminate.
  destruct (@seed_race_policy SeriesMath robot1 [SetTimeRange "24h"] 1 fresh_closure
              (env_at 1700000005000) [env_at 1700000005000; env_at 1700000010000]
              [record_torque_only] (fetchedOk [record_torque_only])
              "7d" None [TimerFired 2 (env_at 1700000015000)]
              eq_refl eq_refl eq_refl Hd)
    as ((pt & Hgen & Hh & _ & Hts & Hcl) & (H2 & lp & Hl & Ht & _ & Hs & _)
        & H3 & H5 & H6 & _).
  destruct (@seed_race_policy SeriesMath robot1 [SetTimeRange "24h"] 1 fresh_closure
              (env_at 1700000005000) [env_at 1700000005000; env_at 1700000010000]
              [record_torque_only] (fetchedOk [record_torque_only])
              "7d" None [] eq_refl eq_refl eq_refl Hd)
    as (_ & _ & _ & _ & _ & (H7 & _)).
  destruct (H3 [SetTimeRange "24h"] 0%nat Hstale) as [H3h H3p].
  destruct (H3 [Unmount] 0%nat Hgone) as [H4h _].
  rewrite H2 in Hl. injection Hl as <-.
  apply (f_equal snd) in Hgen. cbn [snd] in Hgen.
  split; [reflexivity |]. split; [reflexivity |]. split; [reflexivity |].
  split; [exact Hd |]. split; [reflexivity |].
  split.
  { exists pt. split; [exact Hh |]. split; [exact Hts |].
    split; [rewrite <- Hgen; reflexivity | exact Hcl]. }
  split; [reflexivity |].
  split; [exact H2 |]. split; [exact Ht |]. split; [exact Hs |].
  split; [exact Hstale |]. split; [exact H3h |]. split; [exact H3p |].
  split; [exact Hgone |]. split; [reflexivity |]. split; [exact H4h |].
  split; [exact Hr |]. split; [exact (proj1 (H5 Hr)) |].
  split; [reflexivity |]. split; [exact (proj1 (H6 eq_refl)) | exact H7].
Defined.

Lemma reset_discards_window_and_ref_witness :
  attached (@run SeriesMath seed_then_tick (mount robot1)) = true /\
  "24h"%string <> timeRange (@run SeriesMath seed_then_tick (mount robot1)) /\
  attached (@run SeriesMath [] (mount robot1)) = true /\
  "24h"%string <> timeRange (@run SeriesMath [] (mount robot1)) /\
  robotId (@run SeriesMath [] (mount robot1))
  = robotId (@run SeriesMath seed_then_tick (mount robot1)) /\
  length (closures (@run SeriesMath [] (mount robot1)))
  = length (closures (@run SeriesMath seed_then_tick (mount robot1))) /\
  In (normalize record_in_range)
     (CurrentWindow (@run SeriesMath seed_then_tick (mount robot1))) /\
  ~ In (normalize record_in_range)
       (CurrentWindow (setTimeRange "24h" (@run SeriesMath seed_then_tick (mount robot1)))) /\
  prevValues (@run SeriesMath seed_then_tick (mount robot1))
  <> prevValues (setTimeRange "24h" (@run SeriesMath seed_then_tick (mount robot1))) /\
  prevValues (setTimeRange "24h" (@run SeriesMath seed_then_tick (mount robot1)))
  = {| prev_Torque := 40; prev_Temperature := 300; prev_Speed := 2800;
       prev_Vibration := 1 # 2; prev_current_tool_wear_pct := 35 |} /\
  historyData (@run SeriesMath [TimerFired 1 (env_at 1700000010000)]
                 (setTimeRange "24h" (@run SeriesMath seed_then_tick (mount robot1))))
  = historyData (@run SeriesMath [TimerFired 1 (env_at 1700000010000)]
                   (setTimeRange "24h" (@run SeriesMath [] (mount robot1)))).
Proof.
  assert (Ha1 : attached (@run SeriesMath seed_then_tick (mount robot1)) = true)
    by reflexivity.
  assert (Hr1 : "24h"%string <> timeRange (@run SeriesMath seed_then_tick (mount robot1)))
    by discriminate.
  assert (Ha2 : attached (@run SeriesMath [] (mount robot1)) = true) by reflexivity.
  assert (Hr2 : "24h"%string <> timeRange (@run SeriesMath [] (mount robot1)))
    by discriminate.
  assert (Hin : In (normalize record_in_range)
                   (CurrentWindow (@run SeriesMath seed_then_tick (mount robot1))))
    by (left; reflexivity).
  destruct (@reset_discards_window_and_ref SeriesMath robot1 robot1 seed_then_tick []
              [TimerFired 1 (env_at 1700000010000)] "24h" (normalize record_in_range)
              Ha1 Hr1)
    as (_ & H2 & H3 & H4).
  destruct (H4 Ha2 Hr2 eq_refl eq_refl) as [H5 _].
  split; [exact Ha1 |]. split; [exact Hr1 |]. split; [exact Ha2 |].
  split; [exact Hr2 |]. split; [reflexivity |]. split; [reflexivity |].
  split; [exact Hin |]. split; [exact (H2 Hin) |].
  split; [intro H; apply (f_equal prev_current_tool_wear_pct) in H;
          vm_compute in H; discriminate H |].
  split; [exact H3 | exact H5].
Defined.

Lemma tick_sample_is_rounded_ref_witness :
  nth_error (closures (mount robot1)) 0 = Some fresh_closure /\
  isMounted fresh_closure = true /\
  exists newPoint,
    lastOf (historyData after_first_tick) = Some newPoint /\
    Torque newPoint = toFixed 1 (prev_Torque (prevValues after_first_tick)).
Proof.
  split; [reflexivity |]. split; [reflexivity |].
  destruct (@tick_sample_is_rounded_ref SeriesMath 0 (env_at 1700000005000)
              (mount robot1) fresh_closure eq_refl eq_refl)
    as [_ [pt (Hl & _ & Ht & _)]].
  exists pt. split; [exact Hl | exact Ht].
Defined.

(** C7 as stated fails: after the first tick from the defaults the ref
    holds a Torque of about 40.443 and the appended sample holds 40.4. *)
Lemma tick_ref_differs_from_sample :
  exists newPoint,
    lastOf (historyData after_first_tick) = Some newPoint /\
    Torque newPoint == 202 # 5 /\
    (4044 # 100) < prev_Torque (prevValues after_first_tick) /\
    ~ prev_Torque (prevValues after_first_tick) == Torque newPoint.
Proof.
  eexists. split; [vm_compute; reflexivity |].
  split; [reflexivity |]. split; [reflexivity |].
  intro H. vm_compute in H. discriminate H.
Qed.

Lemma failed_seed_leaves_defaults_witness :
  seedFails (Rejected NetworkError) = true /\
  seedFails (Fulfilled {| ok := false; json := Fulfilled (JsonArray [record_in_range]) |})
  = true /\
  seedFails (Fulfilled {| ok := true; json := Rejected SyntaxError |}) = true /\
  seedFails (fetchedOk []) = true /\
  historyData (historySettled 0 (Rejected NetworkError) (mount robot1)) = [] /\
  prevValues (historySettled 0 (Rejected NetworkError) (mount robot1))
  = {| prev_Torque := 40; prev_Temperature := 300; prev_Speed := 2800;
       prev_Vibration := 1 # 2; prev_current_tool_wear_pct := 35 |} /\
  console (historySettled 0 (Rejected NetworkError) (mount robot1))
  = [WarnHistoryUnavailable NetworkError] /\
  length (historyData
            (@run SeriesMath (ticks 0 envs150)
               (historySettled 0 (Rejected NetworkError) (mount robot1))))
  = Nat.min (length envs150) 100 /\
  attached (@run SeriesMath seed_then_tick (mount robot1)) = true /\
  "24h"%string <> timeRange (@run SeriesMath seed_then_tick (mount robot1)) /\
  length (historyData (@run SeriesMath seed_then_tick (mount robot1))) = 2%nat /\
  currentRun (setTimeRange "24h" (@run SeriesMath seed_then_tick (mount robot1)))
  = 1%nat /\
  historyData
    (historySettled 1 (fetchedOk [])
       (setTimeRange "24h" (@run SeriesMath seed_then_tick (mount robot1)))) = [] /\
  prevValues
    (historySettled 1 (fetchedOk [])
       (setTimeRange "24h" (@run SeriesMath seed_then_tick (mount robot1))))
  = {| prev_Torque := 40; prev_Temperature := 300; prev_Speed := 2800;
       prev_Vibration := 1 # 2; prev_current_tool_wear_pct := 35 |} /\
  nth_error (closures (@run SeriesMath seed_then_tick (mount robot1))) 0
  = Some {| isMounted := true; tickCount := 1; fetchPending := false |} /\
  length (historyData
            (@run SeriesMath (ticks 0 [env_at 1700000010000])
               (historySettled 0 (fetchedOk [])
                  (@run SeriesMath seed_then_tick (mount robot1))))) = 3%nat.
Proof.
  destruct (@failed_seed_leaves_defaults SeriesMath robot1 [] (Rejected NetworkError)
              0 (mount robot1) true envs150 "24h" 0 fresh_closure eq_refl)
    as (_ & _ & (H1 & H2) & _ & (_ & H3) & _).
  destruct (@failed_seed_leaves_defaults SeriesMath robot1 seed_then_tick (fetchedOk [])
              0 (mount robot1) true [env_at 1700000010000] "24h" 0
              {| isMounted := true; tickCount := 1; fetchPending := false |} eq_refl)
    as (_ & _ & _ & _ & _ & Hrange & Hgo).
  assert (Ha : attached (@run SeriesMath seed_then_tick (mount robot1)) = true)
    by reflexivity.
  assert (Hr : "24h"%string <> timeRange (@run SeriesMath seed_then_tick (mount robot1)))
    by discriminate.
  destruct (Hrange Ha Hr) as (R1 & R2 & _).
  do 4 (split; [reflexivity |]).
  split; [exact H1 |]. split; [exact H2 |]. split; [reflexivity |].
  split; [exact H3 |]. split; [exact Ha |]. split; [exact Hr |].
  split; [reflexivity |]. split; [reflexivity |].
  split; [exact R1 |]. split; [exact R2 |]. split; [reflexivity |].
  rewrite (Hgo eq_refl eq_refl). reflexivity.
Defined.

(** C8 as stated fails: after a seed and a tick for one robot, the fetch
    started by the selection of another robot fails; the window still holds
    the two samples of the first robot and the ref the values of its last
    tick, since only a change of the time range clears them. *)
Lemma failed_seed_after_robot_change :
  seedFails (Rejected NetworkError) = true /\
  robotId after_robot_change = robot2 /\
  currentRun after_robot_change = 1%nat /\
  nth_error (closures after_robot_change) 1 = Some fresh_closure /\
  map timestamp
    (historyData (historySettled 1 (Rejected NetworkError) after_robot_change))
  = [1700000000000; 1700000005000]%Z /\
  map Qred
    (wears (historyData (historySettled 1 (Rejected NetworkError) after_robot_change)))
  = [50; 252 # 5] /\
  historyData (historySettled 1 (Rejected NetworkError) after_robot_change) <> [] /\
  ~ prev_current_tool_wear_pct
      (prevValues (historySettled 1 (Rejected NetworkError) after_robot_change))
    == 35 /\
  prevValues (historySettled 1 (Rejected NetworkError) after_robot_change)
  <> defaultPrevValues.
Proof.
  do 6 (split; [vm_compute; reflexivity |]).
  split; [discriminate |].
  split; [intro H; vm_compute in H; discriminate H |].
  intro H. apply (f_equal prev_current_tool_wear_pct) in H.
  vm_compute in H. discriminate H.
Qed.

Lemma seed_recovers_missing_fields_witness :
  nth_error (closures (mount robot1)) 0 = Some fresh_closure /\
  isMounted fresh_closure = true /\ fetchPending fresh_closure = true /\
  In record_torque_only (slice_last 50 [record_torque_only]) /\
  length (historyData (historySettled 0 (fetchedOk [record_torque_only])
                         (mount robot1))) = 1%nat /\
  Torque (normalize record_torque_only) = 42 /\
  Temperature (normalize record_torque_only) = 300 /\
  current_tool_wear_pct (normalize record_torque_only) = 35.
Proof.
  assert (Hin : In record_torque_only (slice_last 50 [record_torque_only]))
    by (left; reflexivity).
  destruct (seed_recovers_missing_fields 0 (mount robot1) fresh_closure
              [record_torque_only] record_torque_only eq_refl eq_refl eq_refl Hin)
    as (Hlen & _ & _ & _ & Htemp & _ & _ & Hwear & Htorque & _).
  do 3 (split; [reflexivity |]). split; [exact Hin |].
  split; [exact Hlen |].
  split; [apply (Htorque 42 eq_refl); intro H; discriminate H |].
  split; [exact (Htemp eq_refl) | exact (Hwear eq_refl)].
Defined.

(** C9 as stated fails: in a record whose Temperature, Speed, Vibration and
    wear are missing, a Torque field that is present with the value 0 is
    not kept; the seeded sample carries the default 40 like the defaults of
    the missing fields. *)
Lemma seed_present_zero_not_kept :
  h_Torque record_torque_zero = Some 0 /\
  h_Temperature record_torque_zero = None /\
  h_Speed record_torque_zero = None /\
  h_Vibration record_torque_zero = None /\
  h_tool_wear_pct record_torque_zero = None /\
  historyData (historySettled 0 (fetchedOk [record_torque_zero]) (mount robot1))
  = [{| timestamp := 1700000000000; Torque := 40; Temperature := 300;
        Speed := 2800; Vibration := 1 # 2; current_tool_wear_pct := 35 |}] /\
  Torque (normalize record_torque_zero) = 40 /\
  ~ Torque (normalize record_torque_zero) == 0.
Proof.
  do 7 (split; [reflexivity |]).
  intro H. discriminate H.
Qed.

Lemma seed_zero_becomes_default_witness :
  nth_error (closures (mount robot1)) 0 = Some fresh_closure /\
  isMounted fresh_closure = true /\ fetchPending fresh_closure = true /\
  In record_all_zero (slice_last 50 [record_all_zero]) /\
  h_Torque record_all_zero = Some 0 /\
  Torque (normalize record_all_zero) = 40 /\
  Temperature (normalize record_all_zero) = 300 /\
  Speed (normalize record_all_zero) = 2800 /\
  Vibration (normalize record_all_zero) = 1 # 2 /\
  current_tool_wear_pct (normalize record_all_zero) = 35.
Proof.
  assert (Hin : In record_all_zero (slice_last 50 [record_all_zero]))
    by (left; reflexivity).
  destruct (seed_zero_becomes_default 0 (mount robot1) fresh_closure
              [record_all_zero] record_all_zero eq_refl eq_refl eq_refl Hin)
    as (_ & H1 & H2 & H3 & H4 & H5).
  do 3 (split; [reflexivity |]). split; [exact Hin |]. split; [reflexivity |].
  split; [exact (H1 0 eq_refl (Qeq_refl 0)) |].
  split; [exact (H2 0 eq_refl (Qeq_refl 0)) |].
  split; [exact (H3 0 eq_refl (Qeq_refl 0)) |].
  split; [exact (H4 0 eq_refl (Qeq_refl 0)) |].
  exact (H5 0 eq_refl (Qeq_refl 0)).
Defined.

(* ===================================================================== *)
(** ** The robots list: one robot per machine, whatever the fetches do *)
(* ===================================================================== *)

Lemma map_indexed_length {A B : Type} (f : A -> nat -> B) (k : nat) (l : list A) :
  length (map_indexed f k l) = length l.
Proof.
  revert k. induction l as [| x l IH]; intro k; simpl; [reflexivity |].
  now rewrite IH.
Qed.

Lemma map_indexed_nth {A B : Type} (f : A -> nat -> B) (l : list A) :
  forall k i, nth_error (map_indexed f k l) i
              = option_map (fun x => f x (k + i)%nat) (nth_error l i).
Proof.
  induction l as [| x l IH]; intros k [| i]; simpl; try reflexivity.
  - now rewrite Nat.add_0_r.
  - rewrite IH. now rewrite Nat.add_succ_r.
Qed.

Lemma fetchMachine_fails (id : string) (fetched : Promise MachineResponse) :
  machineFails fetched = true -> fetchMachine id fetched = Some (machineFallback id).
Proof.
  unfold machineFails, fetchMachine.
  destruct fetched as [res | err]; [| reflexivity].
  destruct (m_ok res); simpl; [| reflexivity].
  destruct (m_json res); [discriminate | reflexivity].
Qed.

Lemma formattedData_nth (outcome : string -> Promise MachineResponse) (i : nat) (id : string) :
  nth_error MACHINE_IDS i = Some id ->
  nth_error (formattedData (fetchResults outcome)) i
  = Some (formatRobot (fetchMachine id (outcome id)) i).
Proof.
  intro H. unfold formattedData, fetchResults.
  rewrite map_indexed_nth, nth_error_map, H. reflexivity.
Qed.

(** X1: a [fetchData] that completes while its effect is mounted replaces
    the robots list, whatever it held, by a list of eight robots, the one
    at place [i] built from the response for machine [i]; where the fetch
    for a machine fails, its place holds a robot with that id, status
    "unknown", risk 0, prediction "--" and no sensors.  A [fetchData] that
    completes after the cleanup leaves the list as it was. *)
Theorem failed_machine_still_listed
    (outcome : string -> Promise MachineResponse) (robotsData : list Robot)
    (i : nat) (id : string) :
  length (fetchData true outcome robotsData) = 8%nat /\
  fetchData false outcome robotsData = robotsData /\
  (nth_error MACHINE_IDS i = Some id ->
   nth_error (fetchData true outcome robotsData) i
   = Some (formatRobot (fetchMachine id (outcome id)) i) /\
   (machineFails (outcome id) = true ->
    exists robot,
      nth_error (fetchData true outcome robotsData) i = Some robot /\
      r_id robot = Some id /\
      r_name robot = ("Robot " ++ string_of_Z (Z.of_nat i + 1))%string /\
      r_status robot = "unknown"%string /\
      r_risk robot = 0 /\
      r_prediction robot = "--"%string /\
      r_sensors robot = noSensors)).
Proof.
  unfold fetchData. cbn [negb].
  split.
  { unfold formattedData, fetchResults. now rewrite map_indexed_length, length_map. }
  split; [reflexivity |].
  intro Hid.
  split; [apply (formattedData_nth outcome i id Hid) |].
  intro Hfail.
  eexists. split; [apply (formattedData_nth outcome i id Hid) |].
  rewrite (fetchMachine_fails id _ Hfail).
  unfold formatRobot; simpl.
  split; [| repeat split].
  rewrite Hid. destruct id; reflexivity.
Qed.

Lemma MACHINE_IDS_NoDup : NoDup MACHINE_IDS.
Proof.
  unfold MACHINE_IDS.
  repeat (constructor; [simpl; intuition discriminate |]).
  constructor.
Qed.

Lemma find_by_position (ids : list string) :
  NoDup ids ->
  forall (robots : list Robot),
  map r_id robots = map Some ids ->
  forall i id, nth_error ids i = Some id ->
  findRobot robots id = nth_error robots i.
Proof.
  intros Hnd. induction Hnd as [| x ids Hx Hnd IH]; intros robots Hmap i id Hi.
  - destruct i; discriminate.
  - destruct robots as [| r robots]; [discriminate |].
    simpl in Hmap. injection Hmap as Hr Hrest.
    unfold findRobot. simpl. rewrite Hr.
    destruct i as [| i]; simpl in Hi.
    + injection Hi as ->. now rewrite String.eqb_refl.
    + destruct (String.eqb x id) eqn:E.
      * apply String.eqb_eq in E. subst x.
        exfalso. apply Hx. eapply nth_error_In; eauto.
      * simpl. apply (IH robots Hrest i id Hi).
Qed.

Lemma formattedData_ids (outcome : string -> Promise MachineResponse) :
  (forall id, In id MACHINE_IDS -> echoes id (fetchMachine id (outcome id))) ->
  map r_id (formattedData (fetchResults outcome)) = map Some MACHINE_IDS.
Proof.
  intro Hecho. apply nth_error_ext. intro i.
  rewrite !nth_error_map.
  destruct (nth_error MACHINE_IDS i) as [id |] eqn:Hi.
  - rewrite (formattedData_nth outcome i id Hi). simpl. f_equal.
    specialize (Hecho id (nth_error_In _ _ Hi)).
    rewrite Hi.
    destruct (fetchMachine id (outcome id)) as [x |]; simpl in *; [exact Hecho |].
    reflexivity.
  - assert (Hlen : nth_error (formattedData (fetchResults outcome)) i = None).
    { apply nth_error_None. unfold formattedData, fetchResults.
      rewrite map_indexed_length, length_map. now apply nth_error_None. }
    now rewrite Hlen.
Qed.

(** X2: when every response repeats the machine id it was asked for or
    leaves it out, looking a robot up by a machine id gives the robot built
    from that machine's response, at that machine's place in the list. *)
Theorem robot_found_by_machine_id
    (outcome : string -> Promise MachineResponse) (i : nat) (id : string) :
  (forall id', In id' MACHINE_IDS -> echoes id' (fetchMachine id' (outcome id'))) ->
  nth_error MACHINE_IDS i = Some id ->
  findRobot (formattedData (fetchResults outcome)) id
  = Some (formatRobot (fetchMachine id (outcome id)) i).
Proof.
  intros Hecho Hi.
  rewrite (find_by_position MACHINE_IDS MACHINE_IDS_NoDup _
             (formattedData_ids outcome Hecho) i id Hi).
  now apply formattedData_nth.
Qed.

Lemma Math_round_le (x : Q) : inject_Z (Math_round x) <= x + (1 # 2).
Proof. unfold Math_round. apply Qfloor_le. Qed.

Lemma Math_round_gt (x : Q) : x - (1 # 2) < inject_Z (Math_round x).
Proof.
  unfold Math_round. pose proof (Qlt_floor (x + (1 # 2))) as H.
  rewrite inject_Z_plus in H. change (inject_Z 1) with 1 in H. lra.
Qed.

Lemma Qlt_bool_iff (a b : Q) : Qlt_bool a b = true <-> a < b.
Proof.
  unfold Qlt_bool. rewrite negb_true_iff. split; intro H.
  - destruct (Qlt_le_dec a b) as [Hlt | Hle]; [exact Hlt |].
    apply Qle_bool_iff in Hle. congruence.
  - destruct (Qle_bool b a) eqn:E; [| reflexivity].
    apply Qle_bool_iff in E. lra.
Qed.

Lemma falsy_iff (q : Q) : falsy q = true <-> q == 0.
Proof. unfold falsy. apply Qeq_bool_iff. Qed.

(** X3: a robot whose failure probability card is red (risk above 50) has
    the status "critical". *)
Theorem red_card_means_critical (r : option Prediction) (i : nat) :
  riskColor (formatRobot r i) = "#ef4444"%string ->
  r_status (formatRobot r i) = "critical"%string.
Proof.
  unfold riskColor. intro Hred.
  destruct (Qlt_bool 50 (r_risk (formatRobot r i))) eqn:Hrisk; [| discriminate].
  apply Qlt_bool_iff in Hrisk. clear Hred.
  unfold formatRobot in *; simpl in *.
  destruct (failure_probability match r with Some x => x | None => noPrediction end)
    as [p |]; [| lra].
  destruct (falsy p) eqn:Hf; [lra |].
  assert (Hp : (1 # 2) < p).
  { pose proof (Math_round_le (p * 100)) as Hle.
    change 50 with (inject_Z 50) in Hrisk. rewrite <- Zlt_Qlt in Hrisk.
    assert (H51 : inject_Z 51 <= inject_Z (Math_round (p * 100)))
      by (rewrite <- Zle_Qle; lia).
    change (inject_Z 51) with 51 in H51. lra. }
  unfold statusOf. simpl. rewrite Hf.
  apply Qlt_bool_iff in Hp. rewrite Hp, orb_true_r. reflexivity.
Qed.

Lemma Math_round_mono (x y : Q) : x <= y -> (Math_round x <= Math_round y)%Z.
Proof. intro H. unfold Math_round. apply Qfloor_resp_le. lra. Qed.

(** The whole number [formatRobot] stores as the risk. *)
Lemma risk_of_probability (x : Prediction) (p : Q) (i : nat) :
  failure_probability x = Some p ->
  r_risk (formatRobot (Some x) i)
  = inject_Z (if falsy p then 0 else Math_round (p * 100)).
Proof.
  intro Hx. unfold formatRobot; simpl. rewrite Hx. now destruct (falsy p).
Qed.

(** X4: the risk is a whole number; for probabilities between 0 and 1 it
    lies between 0 and 100, and of two machines the one with the higher
    failure probability never has the lower risk. *)
Theorem risk_is_a_percentage (x y : Prediction) (p q : Q) (i j : nat) :
  failure_probability x = Some p -> failure_probability y = Some q ->
  0 <= p -> p <= q -> q <= 1 ->
  exists n m : Z,
    r_risk (formatRobot (Some x) i) = inject_Z n /\
    r_risk (formatRobot (Some y) j) = inject_Z m /\
    (0 <= n)%Z /\ (n <= m)%Z /\ (m <= 100)%Z.
Proof.
  intros Hx Hy H0 Hpq H1.
  exists (if falsy p then 0 else Math_round (p * 100))%Z,
         (if falsy q then 0 else Math_round (q * 100))%Z.
  split; [now apply risk_of_probability |].
  split; [now apply risk_of_probability |].
  assert (Hlow : forall a, 0 <= a -> (0 <= Math_round (a * 100))%Z).
  { intros a Ha. change (Math_round 0 <= Math_round (a * 100))%Z.
    apply Math_round_mono. lra. }
  assert (Hhigh : (Math_round (q * 100) <= 100)%Z).
  { change (Math_round (q * 100) <= Math_round 100)%Z.
    apply Math_round_mono. lra. }
  destruct (falsy p) eqn:Hp; destruct (falsy q) eqn:Hq.
  - lia.
  - assert (Hq0 : (0 <= Math_round (q * 100))%Z) by (apply Hlow; lra). lia.
  - apply falsy_iff in Hq.
    assert (Hp0 : p == 0) by lra.
    apply falsy_iff in Hp0. congruence.
  - assert (Hp0 : (0 <= Math_round (p * 100))%Z) by (apply Hlow; exact H0).
    assert (Hmono : (Math_round (p * 100) <= Math_round (q * 100))%Z)
      by (apply Math_round_mono; lra).
    lia.
Qed.

Lemma toLowerCase_app (a b : string) :
  toLowerCase (a ++ b) = (toLowerCase a ++ toLowerCase b)%string.
Proof. induction a as [| c a IH]; simpl; [reflexivity | now rewrite IH]. Qed.

Lemma prefix_app (w post : string) : String.prefix w (w ++ post) = true.
Proof.
  induction w as [| c w IH]; simpl; [now destruct post |].
  destruct (ascii_dec c c) as [_ | Hne]; [exact IH | now contradiction Hne].
Qed.

Lemma includes_prefix (s sub : string) :
  String.prefix sub s = true -> includes s sub = true.
Proof.
  intro H. destruct s as [| c s].
  - destruct sub; [reflexivity | discriminate H].
  - change (includes (String c s) sub)
      with (String.prefix sub (String c s) || includes s sub).
    now rewrite H.
Qed.

Lemma includes_app (pre w post : string) : includes (pre ++ w ++ post) w = true.
Proof.
  induction pre as [| c pre IH].
  - change ("" ++ w ++ post)%string with (w ++ post)%string.
    apply includes_prefix, prefix_app.
  - change (includes (String c pre ++ w ++ post) w)
      with (String.prefix w (String c (pre ++ w ++ post))
            || includes (pre ++ w ++ post) w).
    rewrite IH. apply orb_true_r.
Qed.

(** X5: a status text that contains the word "risk" in any mix of upper
    and lower case makes the robot "critical", whatever surrounds the word
    and whatever the failure probability. *)
Theorem risk_text_in_any_case
    (x : Prediction) (pre word post : string) (i : nat) :
  status x = Some (pre ++ word ++ post)%string ->
  toLowerCase word = "risk"%string ->
  r_status (formatRobot (Some x) i) = "critical"%string.
Proof.
  intros Hs Hw. unfold formatRobot; simpl. rewrite Hs.
  assert (Hne : string_or (Some (pre ++ word ++ post)%string) None
                = Some (pre ++ word ++ post)%string).
  { destruct (pre ++ word ++ post)%string eqn:E; [| reflexivity].
    destruct pre; [| discriminate]. destruct word; discriminate. }
  rewrite Hne, !toLowerCase_app, Hw.
  unfold statusOf. now rewrite includes_app.
Qed.

(* ===================================================================== *)
(** ** The live sensor cards *)
(* ===================================================================== *)

Lemma or_default_nonzero (field : option Q) (dflt : Q) :
  ~ dflt == 0 -> ~ or_default field dflt == 0.
Proof.
  intro Hd. unfold or_default. destruct field as [q |]; [| exact Hd].
  destruct (falsy q) eqn:E; [exact Hd |].
  intro H. apply falsy_iff in H. congruence.
Qed.

Lemma normalize_nonzero (d : HistoryRecord) : nonzero_sample (normalize d).
Proof.
  unfold nonzero_sample, normalize; simpl.
  repeat split; apply or_default_nonzero; intro H; discriminate H.
Qed.

Section LiveSensors.
Context {M : MathLib}.

Lemma generated_nonzero (tc : nat) (e : TickEnv) (prev : PrevValues) :
  nonzero_sample (snd (generateNewDataPoint tc e prev)).
Proof.
  destruct (generated_in_range tc e prev) as ((H1 & _) & (H2 & _) & (H3 & _) & (H4 & _)).
  destruct (generated_wear_between tc e prev) as [H5 _].
  unfold nonzero_sample. repeat split; intro H; lra.
Qed.

Lemma step_keeps_nonzero (s : View) (ev : Event) :
  Forall nonzero_sample (historyData s) ->
  Forall nonzero_sample (historyData (step s ev)).
Proof.
  intro Hs. step_cases s ev H.
  destruct H as [? H1 _ | g e tc H1 _ | g f lp _ H1 _ _ | ? H1 _]; rewrite H1.
  - exact Hs.
  - apply appendPoint_Forall; [exact Hs | apply generated_nonzero].
  - unfold initialDataOf. apply Forall_forall. intros pt Hin.
    apply in_map_iff in Hin. destruct Hin as (d & <- & _). apply normalize_nonzero.
  - constructor.
Qed.

Lemma reachable_nonzero (id : option string) (evs : list Event) :
  Forall nonzero_sample (historyData (run evs (mount id))).
Proof.
  apply (run_invariant (fun s => Forall nonzero_sample (historyData s)) (fun _ => True)).
  - intros s ev H _. now apply step_keeps_nonzero.
  - apply Forall_forall. intros; exact I.
  - constructor.
Qed.

(** X6: in every state the mounted component can reach, no sample of the
    window has a zero Torque, Temperature, Speed, Vibration or wear:
    seeding replaces zeros by the defaults and ticks clamp from below. *)
Theorem window_never_holds_zero
    (id : option string) (evs : list Event) (pt : Sample) :
  In pt (historyData (run evs (mount id))) ->
  ~ Torque pt == 0 /\ ~ Temperature pt == 0 /\ ~ Speed pt == 0 /\
  ~ Vibration pt == 0 /\ ~ current_tool_wear_pct pt == 0.
Proof.
  intro Hin. pose proof (reachable_nonzero id evs) as H.
  rewrite Forall_forall in H. exact (H pt Hin).
Qed.

Lemma lastOf_In {A : Type} (l : list A) (x : A) : lastOf l = Some x -> In x l.
Proof.
  rewrite lastOf_nth. apply nth_error_In.
Qed.

Lemma truthy_nonzero (q : Q) : ~ q == 0 -> truthy (Some q) = true.
Proof.
  intro H. unfold truthy. destruct (falsy q) eqn:E; [| reflexivity].
  apply falsy_iff in E. contradiction.
Qed.

(** X7: when the API object has no usable Torque, Temperature or Speed
    (missing or zero), the live sensors of every reachable state carry all
    five readings, none of them zero: those of the newest sample of the
    window, or the defaults 40, 300, 2800, 0.5 and 35 while it is empty. *)
Theorem live_sensors_always_complete
    (id : option string) (evs : list Event) (sensors : Sensors) :
  noUsableSensors sensors ->
  let window := historyData (run evs (mount id)) in
  let live := liveSensors sensors window in
  (truthy (s_Torque live) = true /\ truthy (s_Temperature live) = true /\
   truthy (s_Speed live) = true /\ truthy (s_Vibration live) = true /\
   truthy (s_ToolWear live) = true) /\
  (window = [] ->
   s_Torque live = Some 40 /\ s_Temperature live = Some 300 /\
   s_Speed live = Some 2800 /\ s_Vibration live = Some (1 # 2) /\
   s_ToolWear live = Some 35) /\
  (forall latest, lastOf window = Some latest ->
   s_Torque live = Some (Torque latest) /\
   s_Temperature live = Some (Temperature latest) /\
   s_Speed live = Some (Speed latest) /\
   s_Vibration live = Some (Vibration latest) /\
   s_ToolWear live = Some (current_tool_wear_pct latest)).
Proof.
  intros (H1 & H2 & H3) window live. subst live.
  unfold liveSensors. rewrite H1, H2, H3. simpl orb. cbv iota.
  split; [| split].
  - destruct (lastOf window) as [latest |] eqn:Hl; simpl.
    + pose proof (reachable_nonzero id evs) as Hnz. rewrite Forall_forall in Hnz.
      destruct (Hnz latest (lastOf_In _ _ Hl)) as (N1 & N2 & N3 & N4 & N5).
      repeat split; now apply truthy_nonzero.
    + repeat split.
  - intro Hw. rewrite Hw. simpl. repeat split.
  - intros latest Hl. rewrite Hl. simpl. repeat split.
Qed.

(** X8: a tick of a mounted run, with no usable API sensors, puts the point
    it has just appended on the cards: Torque in [25, 55], Temperature in
    [290, 315], Speed in [2650, 2950]. *)
Theorem live_sensors_follow_the_tick
    (g : nat) (e : TickEnv) (s : View) (c : Closure) (sensors : Sensors) :
  nth_error (closures s) g = Some c -> isMounted c = true ->
  noUsableSensors sensors ->
  exists newPoint,
    lastOf (historyData (tickInterval g e s)) = Some newPoint /\
    timestamp newPoint = now e /\
    in_range newPoint /\
    liveSensors sensors (historyData (tickInterval g e s))
    = {| s_Torque := Some (Torque newPoint);
         s_Temperature := Some (Temperature newPoint);
         s_Speed := Some (Speed newPoint);
         s_Vibration := Some (Vibration newPoint);
         s_ToolWear := Some (current_tool_wear_pct newPoint);
         s_Slope_24h := None |}.
Proof.
  intros Hc Hm (H1 & H2 & H3).
  set (newPoint := snd (generateNewDataPoint (S (tickCount c)) e (prevValues s))).
  assert (Hh : historyData (tickInterval g e s) = appendPoint (historyData s) newPoint)
    by (rewrite (tickInterval_live g e s c Hc Hm); reflexivity).
  assert (Hl : lastOf (historyData (tickInterval g e s)) = Some newPoint).
  { rewrite Hh. unfold appendPoint. apply lastOf_slice_push.
    unfold MAX_DATA_POINTS. lia. }
  exists newPoint.
  split; [exact Hl |]. split; [reflexivity |].
  split; [apply generated_in_range |].
  unfold liveSensors. rewrite H1, H2, H3, Hl. reflexivity.
Qed.

End LiveSensors.

(* ===================================================================== *)
(** ** Rounding twice *)
(* ===================================================================== *)

Lemma Qfloor_half (m : Z) (a : Q) : a == inject_Z m + (1 # 2) -> Qfloor a = m.
Proof.
  intro Ha.
  pose proof (Qfloor_le a) as Hle. pose proof (Qlt_floor a) as Hlt.
  assert (H1 : inject_Z (Qfloor a) < inject_Z (m + 1)).
  { rewrite inject_Z_plus. change (inject_Z 1) with 1. lra. }
  assert (H2 : inject_Z m < inject_Z (Qfloor a + 1)) by lra.
  rewrite <- Zlt_Qlt in H1, H2. lia.
Qed.

Lemma toFixed_units_of_units (digits : nat) (n : Z) :
  toFixed_units digits (n # scale digits) = n.
Proof.
  unfold toFixed_units.
  assert (Hfloor : Qfloor (Qabs (n # scale digits) * inject_Z (Zpos (scale digits))
                           + (1 # 2)) = Z.abs n).
  { apply Qfloor_half. unfold Qeq, Qabs, Qmult, Qplus, inject_Z; simpl. lia. }
  rewrite Hfloor.
  destruct (Qle_bool 0 (n # scale digits)) eqn:E.
  - apply Qle_bool_iff in E. unfold Qle in E; simpl in E. lia.
  - assert (H : ~ 0 <= n # scale digits)
      by (intro H; apply Qle_bool_iff in H; congruence).
    unfold Qle in H; simpl in H. lia.
Qed.

Lemma toFixed_idempotent (digits : nat) (x : Q) :
  toFixed digits (toFixed digits x) = toFixed digits x.
Proof. unfold toFixed. now rewrite toFixed_units_of_units. Qed.

Section Cards.
Context {M : MathLib}.

(** X9: with no usable API sensors, each of the Torque, Temperature and
    Speed cards shows the value of the newest sample of the window rounded
    by [toFixed] to 1, 1 and 0 digits; after a tick of a mounted run that
    sample is the appended point, which the generator rounded to the very
    same digits, so the cards show its values as they are. *)
Theorem card_shows_the_sample_value
    (g : nat) (e : TickEnv) (s : View) (c : Closure) (sensors : Sensors)
    (window : list Sample) (latest : Sample) :
  noUsableSensors sensors ->
  (lastOf window = Some latest ->
   cardValue 1 (s_Torque (liveSensors sensors window))
   = Some (toFixed 1 (Torque latest)) /\
   cardValue 1 (s_Temperature (liveSensors sensors window))
   = Some (toFixed 1 (Temperature latest)) /\
   cardValue 0 (s_Speed (liveSensors sensors window))
   = Some (toFixed 0 (Speed latest))) /\
  (nth_error (closures s) g = Some c -> isMounted c = true ->
   let live := liveSensors sensors (historyData (tickInterval g e s)) in
   exists newPoint,
     lastOf (historyData (tickInterval g e s)) = Some newPoint /\
     timestamp newPoint = now e /\
     cardValue 1 (s_Torque live) = Some (Torque newPoint) /\
     cardValue 1 (s_Temperature live) = Some (Temperature newPoint) /\
     cardValue 0 (s_Speed live) = Some (Speed newPoint)).
Proof.
  intros (H1 & H2 & H3). split.
  - intro Hl. unfold liveSensors. rewrite H1, H2, H3, Hl. cbn [orb].
    repeat split.
  - intros Hc Hm live. subst live.
    set (newPoint := snd (generateNewDataPoint (S (tickCount c)) e (prevValues s))).
    assert (Hh : historyData (tickInterval g e s) = appendPoint (historyData s) newPoint)
      by (rewrite (tickInterval_live g e s c Hc Hm); reflexivity).
    assert (Hl : lastOf (historyData (tickInterval g e s)) = Some newPoint).
    { rewrite Hh. unfold appendPoint. apply lastOf_slice_push.
      unfold MAX_DATA_POINTS. lia. }
    exists newPoint. split; [exact Hl |]. split; [reflexivity |].
    unfold liveSensors. rewrite H1, H2, H3, Hl. cbn [orb].
    cbn [s_Torque s_Temperature s_Speed]. unfold cardValue. cbn [option_map].
    subst newPoint. unfold generateNewDataPoint.
    cbn [snd Torque Temperature Speed].
    now rewrite !toFixed_idempotent.
Qed.

End Cards.

(* ===================================================================== *)
(** ** The degradation trend and the RUL curve *)
(* ===================================================================== *)

Lemma clamp_mono (lo hi x y : Q) :
  x <= y -> Qmax lo (Qmin hi x) <= Qmax lo (Qmin hi y).
Proof.
  intro H. apply Q.max_le_compat_l. apply Q.min_le_compat_l. exact H.
Qed.

Section Trend.
Context {M : MathLib}.

Lemma currentRisk_nonneg (robot : option Robot) :
  (forall r, robot = Some r -> 0 <= r_risk r) -> 0 <= currentRiskOf robot.
Proof.
  intro H. unfold currentRiskOf. destruct robot as [r |]; [| lra].
  destruct (falsy (r_risk r)); [lra | now apply H].
Qed.

(** X10: the degradation chart always has twelve points, labelled "-6d" to
    "-1d", "Today" and "+1d" to "+5d"; the first seven carry an actual
    health between 5 and 95, the last six a projection between 0 and 95,
    and "Today" carries both, with the same value. *)
Theorem trend_history_shape_and_bounds (robot : option Robot) :
  map tp_day (trendHistory robot)
  = ["-6d"; "-5d"; "-4d"; "-3d"; "-2d"; "-1d"; "Today";
     "+1d"; "+2d"; "+3d"; "+4d"; "+5d"]%string /\
  map (fun p => isSome (tp_Trend p)) (trendHistory robot)
  = [true; true; true; true; true; true; true; false; false; false; false; false] /\
  map (fun p => isSome (tp_Projection p)) (trendHistory robot)
  = [false; false; false; false; false; false; true; true; true; true; true; true] /\
  (forall p t, In p (trendHistory robot) -> tp_Trend p = Some t -> 5 <= t /\ t <= 95) /\
  (forall p q, In p (trendHistory robot) -> tp_Projection p = Some q ->
               0 <= q /\ q <= 95) /\
  (exists today, nth_error (trendHistory robot) 6 = Some today /\
                 tp_day today = "Today"%string /\
                 tp_Projection today = tp_Trend today).
Proof.
  split; [reflexivity |]. split; [reflexivity |]. split; [reflexivity |].
  split; [| split].
  - intros p t Hin Ht. unfold trendHistory in Hin.
    apply in_app_or in Hin. destruct Hin as [Hin | Hin];
      apply in_map_iff in Hin; destruct Hin as (i & <- & _); simpl in Ht.
    + injection Ht as <-. apply clamp_between. lra.
    + discriminate Ht.
  - intros p q Hin Hq. unfold trendHistory in Hin.
    apply in_app_or in Hin. destruct Hin as [Hin | Hin];
      apply in_map_iff in Hin; destruct Hin as (i & <- & _); simpl in Hq.
    + destruct (Z.of_nat i - 6 =? 0)%Z; [| discriminate Hq].
      injection Hq as <-.
      match goal with
      | |- 0 <= Qmax 5 (Qmin 95 ?x) /\ _ =>
          destruct (clamp_between 5 95 x) as [H5 H95]; [lra |]
      end.
      split; lra.
    + injection Hq as <-. apply clamp_between. lra.
  - eexists. split; [reflexivity |]. split; reflexivity.
Qed.

(** X11: for a robot whose risk is not negative, the projected health
    never rises from one future day to the next. *)
Theorem projection_never_rises (robot : option Robot) :
  (forall r, robot = Some r -> 0 <= r_risk r) ->
  exists v1 v2 v3 v4 v5,
    map tp_Projection (skipn 7 (trendHistory robot))
    = [Some v1; Some v2; Some v3; Some v4; Some v5] /\
    v5 <= v4 /\ v4 <= v3 /\ v3 <= v2 /\ v2 <= v1.
Proof.
  intro Hrisk. pose proof (currentRisk_nonneg robot Hrisk) as Hr.
  do 5 eexists. split; [reflexivity |].
  set (risk := currentRiskOf robot) in *.
  assert (Hd : 0 <= (85 - risk * (1 # 5) - (100 - risk - 20)) / 6).
  { apply Qle_shift_div_l; [reflexivity |]. lra. }
  set (d := (85 - risk * (1 # 5) - (100 - risk - 20)) / 6) in *.
  repeat split; apply clamp_mono;
    change (inject_Z (Z.of_nat 0 + 1)) with 1;
    change (inject_Z (Z.of_nat 1 + 1)) with 2;
    change (inject_Z (Z.of_nat 2 + 1)) with 3;
    change (inject_Z (Z.of_nat 3 + 1)) with 4;
    change (inject_Z (Z.of_nat 4 + 1)) with 5; lra.
Qed.

Lemma trendHistory_by_risk (r1 r2 : option Robot) :
  currentRiskOf r1 = currentRiskOf r2 -> trendHistory r1 = trendHistory r2.
Proof. intro H. unfold trendHistory. now rewrite H. Qed.

Lemma Math_round_small (a : Q) : 0 <= a -> a < (1 # 2) -> Math_round a = 0%Z.
Proof.
  intros H0 H1. unfold Math_round.
  pose proof (Qfloor_le (a + (1 # 2))) as Hle.
  pose proof (Qlt_floor (a + (1 # 2))) as Hlt.
  rewrite inject_Z_plus in Hlt. change (inject_Z 1) with 1 in Hlt.
  assert (A : inject_Z (Qfloor (a + (1 # 2))) < inject_Z 1)
    by (change (inject_Z 1) with 1; lra).
  assert (B : inject_Z (-1) < inject_Z (Qfloor (a + (1 # 2))))
    by (change (inject_Z (-1)) with (-1); lra).
  rewrite <- Zlt_Qlt in A, B. lia.
Qed.

(** X12: a machine whose failure probability is missing or below 0.5
    percent, as it is for every machine whose fetch failed, gets a risk of
    0, and the asset view then draws for it the degradation trend of a
    risk of 5, the one it draws when there is no robot at all. *)
Theorem negligible_risk_is_drawn_as_five (r : option Prediction) (i : nat) :
  match r with
  | Some x => match failure_probability x with
              | Some p => 0 <= p /\ p < (1 # 200)
              | None => True
              end
  | None => True
  end ->
  r_risk (formatRobot r i) == 0 /\
  trendHistory (Some (formatRobot r i)) = trendHistory None.
Proof.
  intro Hp.
  assert (Hrisk : r_risk (formatRobot r i) = 0).
  { unfold formatRobot; simpl.
    destruct r as [x |]; simpl; [| reflexivity].
    destruct (failure_probability x) as [p |]; [| reflexivity].
    destruct (falsy p); [reflexivity |].
    destruct Hp as [H0 H1].
    rewrite (Math_round_small (p * 100)); [reflexivity | lra | lra]. }
  split; [now rewrite Hrisk |].
  apply trendHistory_by_risk. unfold currentRiskOf. now rewrite Hrisk.
Qed.

Lemma numberOr0_eq (x : Q) : numberOr0 x == x.
Proof.
  unfold numberOr0. destruct (falsy x) eqn:E; [| reflexivity].
  apply falsy_iff in E. now rewrite E.
Qed.

(** X13: the RUL chart of the asset view is never a placeholder: it plots 30
    points, labelled "Day -30" down to "Day -1" in this order, each with the
    value [rulHistory] computed for it, which is never negative. *)
Theorem rul_chart_plots_thirty_days :
  exists rows,
    rulChart = LinePlot rows /\
    length rows = 30%nat /\
    forall i, (i < 30)%nat ->
      exists row v,
        nth_error rows i = Some row /\
        rp_time row = Some ("Day -" ++ string_of_Z (30 - Z.of_nat i))%string /\
        rp_rul_prediction row = Some v /\
        0 <= v /\
        v == Qmax 0 (45 - inject_Z (Z.of_nat i) * (6 # 5)
                     + Math_sin (inject_Z (Z.of_nat i)) * 2).
Proof.
  eexists. split; [reflexivity |]. split; [reflexivity |].
  intros i Hi.
  change (nth_error _ i) with
    (nth_error (map (fun item =>
                       {| rp_time := rp_time item;
                          rp_rul_prediction :=
                            Some (numberOr0_opt (rp_rul_prediction item)) |})
                    rulHistory) i).
  unfold rulHistory. rewrite map_map, nth_error_map.
  rewrite (nth_error_nth' (seq 0 30) 0%nat) by (rewrite length_seq; exact Hi).
  rewrite seq_nth by exact Hi. simpl.
  eexists. eexists. split; [reflexivity |]. split; [reflexivity |].
  split; [reflexivity |].
  set (x := 45 - inject_Z (Z.of_nat i) * (6 # 5)
            + Math_sin (inject_Z (Z.of_nat i)) * 2).
  pose proof (numberOr0_eq (Qmax 0 x)) as He.
  pose proof (Q.le_max_l 0 x) as Hm.
  split; [rewrite He; exact Hm | exact He].
Qed.

End Trend.

(* ===================================================================== *)
(** ** The telemetry chart and the SPC chart *)
(* ===================================================================== *)

Lemma pushMetrics_acc (acc : list PlotPoint) (d : DataRow) :
  pushMetrics acc d = acc ++ pushMetrics [] d.
Proof.
  unfold pushMetrics.
  destruct (d_time d) as [[| c rest] |]; try (now rewrite app_nil_r).
  destruct (d_Vibration d), (d_Torque d), (d_Temperature d); simpl;
    rewrite <- ?app_assoc; simpl; try reflexivity; now rewrite app_nil_r.
Qed.

Lemma forEach_pushMetrics (rows : list DataRow) :
  forall acc, fold_left pushMetrics rows acc = acc ++ flat_map (pushMetrics []) rows.
Proof.
  induction rows as [| d rows IH]; intro acc; simpl.
  - now rewrite app_nil_r.
  - rewrite IH, (pushMetrics_acc acc d), <- app_assoc. reflexivity.
Qed.

Lemma pushMetrics_length (d : DataRow) : (length (pushMetrics [] d) <= 3)%nat.
Proof.
  unfold pushMetrics.
  destruct (d_time d) as [[| c rest] |]; simpl; try lia.
  destruct (d_Vibration d), (d_Torque d), (d_Temperature d); simpl; lia.
Qed.

Lemma pushMetrics_time (d : DataRow) (p : PlotPoint) :
  In p (pushMetrics [] d) -> d_time d = Some (p_time p) /\ p_time p <> EmptyString.
Proof.
  unfold pushMetrics.
  destruct (d_time d) as [[| c rest] |]; simpl; try tauto.
  destruct (d_Vibration d), (d_Torque d), (d_Temperature d); simpl;
    intro H; repeat destruct H as [H | H]; try contradiction;
    subst p; simpl; split; (reflexivity || discriminate).
Qed.

(** X14: the array the trend chart builds with [forEach] and [push] is the
    concatenation, row by row, of the points each row gives on its own; it
    has at most three points per row, and each point carries the non-empty
    time label of a row of the input. *)
Theorem trend_points_row_by_row (rows : list DataRow) :
  fold_left pushMetrics rows [] = flat_map (pushMetrics []) rows /\
  (length (fold_left pushMetrics rows []) <= 3 * length rows)%nat /\
  (forall p, In p (fold_left pushMetrics rows []) ->
     p_time p <> EmptyString /\
     exists d, In d rows /\ d_time d = Some (p_time p)).
Proof.
  assert (H : fold_left pushMetrics rows [] = flat_map (pushMetrics []) rows)
    by apply (forEach_pushMetrics rows []).
  split; [exact H |]. rewrite H. split.
  - clear H. induction rows as [| d rows IH]; simpl; [lia |].
    rewrite length_app. pose proof (pushMetrics_length d). lia.
  - intros p Hin. apply in_flat_map in Hin. destruct Hin as (d & Hd & Hp).
    destruct (pushMetrics_time d p Hp) as [Ht Hne].
    split; [exact Hne |]. now exists d.
Qed.

(** X15: in the trend chart only the first row is checked: without a
    [time] key there the chart is refused whatever follows, while a later
    row without a time label is left out of the plot without a word, the
    chart being the one of the other rows. *)
Theorem trend_chart_checks_first_row_only
    (firstItem bad : DataRow) (rest : list DataRow) :
  nonEmptyString (d_time bad) = false ->
  (d_time firstItem = None ->
   MultiMetricTrendChart (Some (firstItem :: rest)) false
   = Placeholder "Invalid data format") /\
  MultiMetricTrendChart (Some (firstItem :: bad :: rest)) false
  = MultiMetricTrendChart (Some (firstItem :: rest)) false.
Proof.
  intro Hbad. split.
  - intro Ht. unfold MultiMetricTrendChart. now rewrite Ht.
  - unfold MultiMetricTrendChart.
    assert (Hskip : forall acc, pushMetrics acc bad = acc).
    { intro acc. unfold pushMetrics.
      destruct (d_time bad) as [[| c r] |]; try reflexivity. discriminate Hbad. }
    simpl fold_left. now rewrite Hskip.
Qed.

Lemma spc_rows_nth (rows : list DataRow) (i : nat) (row : DataRow) :
  nth_error rows i = Some row ->
  nth_error
    (map (fun item =>
            {| d_timestamp := d_timestamp item; d_time := d_time item;
               d_Torque := d_Torque item; d_Temperature := d_Temperature item;
               d_Speed := d_Speed item; d_Vibration := d_Vibration item;
               d_current_tool_wear_pct :=
                 Some (numberOr0_opt (d_current_tool_wear_pct item)) |}) rows) i
  = Some {| d_timestamp := d_timestamp row; d_time := d_time row;
            d_Torque := d_Torque row; d_Temperature := d_Temperature row;
            d_Speed := d_Speed row; d_Vibration := d_Vibration row;
            d_current_tool_wear_pct :=
              Some (numberOr0_opt (d_current_tool_wear_pct row)) |}.
Proof. intro H. now rewrite nth_error_map, H. Qed.

(** X16: the SPC chart checks the first row only and never drops a row: a
    first row without wear refuses the whole chart, but once the first row
    has a time and a wear, every row is plotted, and a later row whose
    wear is missing is drawn at 0, with its other fields untouched. *)
Theorem spc_chart_draws_gaps_at_zero
    (firstItem : DataRow) (rest : list DataRow) (k : nat) (row : DataRow) :
  isSome (d_time firstItem) = true ->
  nth_error rest k = Some row -> d_current_tool_wear_pct row = None ->
  (d_current_tool_wear_pct firstItem = None ->
   SpcChart (Some (firstItem :: rest)) false
   = Placeholder "Data error: Missing 'current_tool_wear_pct' field") /\
  (isSome (d_current_tool_wear_pct firstItem) = true ->
   exists rows,
     SpcChart (Some (firstItem :: rest)) false = LinePlot rows /\
     length rows = S (length rest) /\
     nth_error rows (S k)
     = Some {| d_timestamp := d_timestamp row; d_time := d_time row;
               d_Torque := d_Torque row; d_Temperature := d_Temperature row;
               d_Speed := d_Speed row; d_Vibration := d_Vibration row;
               d_current_tool_wear_pct := Some 0 |}).
Proof.
  intros Htime Hrow Hwear. unfold SpcChart. rewrite Htime. simpl negb. cbv iota.
  split.
  - intro Hw. now rewrite Hw.
  - intro Hw. rewrite Hw. simpl negb. cbv iota.
    eexists. split; [reflexivity |]. split.
    + rewrite length_map. reflexivity.
    + rewrite (spc_rows_nth (firstItem :: rest) (S k) row Hrow), Hwear. reflexivity.
Qed.

Section ChartWiring.
Context {M : MathLib} {L : Locale}.

Lemma combinedData_nonempty (historyData : list Sample) (env : RenderEnv) :
  exists pt rest, combinedData historyData env = pt :: rest.
Proof.
  destruct historyData as [| pt rest]; simpl; eauto.
Qed.

Lemma pushMetrics_sample (b : bool) (pt : Sample) :
  toLocaleTimeString (timestamp pt) b <> EmptyString ->
  pushMetrics [] (rowOfSample b pt) = threePoints b pt.
Proof.
  intro H. unfold pushMetrics, rowOfSample, threePoints; simpl.
  destruct (toLocaleTimeString (timestamp pt) b); [contradiction | reflexivity].
Qed.

Lemma pushMetrics_samples (b : bool) (l : list Sample) :
  (forall t b', toLocaleTimeString t b' <> EmptyString) ->
  flat_map (pushMetrics []) (map (rowOfSample b) l) = flat_map (threePoints b) l.
Proof.
  intro Hlabel. induction l as [| pt l IH]; simpl; [reflexivity |].
  rewrite IH, pushMetrics_sample by apply Hlabel. reflexivity.
Qed.

Lemma threePoints_length (b : bool) (l : list Sample) :
  length (flat_map (threePoints b) l) = (3 * length l)%nat.
Proof.
  induction l as [| pt l IH]; simpl; [reflexivity |].
  simpl in IH. rewrite IH. lia.
Qed.

(** X17: whatever the window holds, the telemetry chart of the asset view
    is a plot, never a placeholder, provided time labels are never empty:
    empty windows are replaced by the 20 mock samples before the chart sees
    them.  The plot has three points per sample, Vibration, Torque and
    Temperature in this order, with the values of the sample. *)
Theorem telemetry_chart_always_plots (historyData : list Sample) (env : RenderEnv) :
  (forall t b, toLocaleTimeString t b <> EmptyString) ->
  let withSeconds := match historyData with [] => false | _ => true end in
  telemetryChart historyData env
  = LinePlot (flat_map (threePoints withSeconds) (combinedData historyData env)) /\
  length (flat_map (threePoints withSeconds) (combinedData historyData env))
  = (3 * length (combinedData historyData env))%nat /\
  (0 < length (combinedData historyData env))%nat /\
  forall pt, numberOr0 (Vibration pt) == Vibration pt /\
             numberOr0 (Torque pt) == Torque pt /\
             numberOr0 (Temperature pt) == Temperature pt.
Proof.
  intros Hlabel withSeconds.
  pose proof (pushMetrics_samples withSeconds (combinedData historyData env) Hlabel)
    as Hflat.
  pose proof (threePoints_length withSeconds (combinedData historyData env)) as Hlen.
  destruct (combinedData_nonempty historyData env) as (pt & rest & Hc).
  split; [| split; [exact Hlen | split]].
  - unfold telemetryChart, combinedRows. fold withSeconds.
    rewrite Hc in *. simpl map. simpl length. simpl Nat.eqb.
    unfold MultiMetricTrendChart. simpl isSome. simpl negb. cbv iota.
    rewrite (forEach_pushMetrics _ []). simpl app.
    cbn [flat_map map] in Hflat |- *. rewrite Hflat.
    unfold threePoints at 1. reflexivity.
  - rewrite Hc. simpl. lia.
  - intro p. repeat split; apply numberOr0_eq.
Qed.

(** X18: the SPC chart of the asset view is a plot too, with one row per
    sample of [combinedData], in the same order, each with the timestamp
    and the wear of its sample. *)
Theorem spc_chart_plots_every_sample
    (historyData : list Sample) (env : RenderEnv) (i : nat) (pt : Sample) :
  nth_error (combinedData historyData env) i = Some pt ->
  exists rows row wear,
    spcChart historyData env = LinePlot rows /\
    length rows = length (combinedData historyData env) /\
    nth_error rows i = Some row /\
    d_timestamp row = Some (timestamp pt) /\
    d_Torque row = Some (Torque pt) /\
    d_current_tool_wear_pct row = Some wear /\
    wear == current_tool_wear_pct pt.
Proof.
  intro Hpt.
  destruct (combinedData_nonempty historyData env) as (pt0 & rest & Hc).
  unfold spcChart, combinedRows.
  set (b := match historyData with [] => false | _ => true end).
  rewrite Hc in *. simpl map. simpl length. simpl Nat.eqb.
  unfold SpcChart. simpl isSome. simpl negb. cbv iota.
  eexists. eexists. eexists. split; [reflexivity |].
  split; [simpl; now rewrite !length_map |].
  change (rowOfSample b pt0 :: map (rowOfSample b) rest)
    with (map (rowOfSample b) (pt0 :: rest)).
  split.
  { apply spc_rows_nth. rewrite nth_error_map, Hpt. reflexivity. }
  simpl. repeat split. apply numberOr0_eq.
Qed.

End ChartWiring.

(* ===================================================================== *)
(** ** Concrete runs of the views *)
(* ===================================================================== *)

Lemma one_machine_answers_echoes (id : string) :
  In id MACHINE_IDS -> echoes id (fetchMachine id (one_machine_answers id)).
Proof.
  intros _. unfold one_machine_answers.
  destruct (String.eqb id "H29424"); simpl; [reflexivity |].
  destruct id; reflexivity.
Defined.

Lemma failed_machine_still_listed_witness :
  nth_error MACHINE_IDS 1 = Some "H29425"%string /\
  machineFails (one_machine_answers "H29425") = true /\
  length (fetchData true one_machine_answers []) = 8%nat /\
  fetchData false one_machine_answers [] = [] /\
  exists robot,
    nth_error (fetchData true one_machine_answers []) 1 = Some robot /\
    r_id robot = Some "H29425"%string /\
    r_name robot = "Robot 2"%string /\
    r_status robot = "unknown"%string /\
    r_prediction robot = "--"%string.
Proof.
  destruct (failed_machine_still_listed one_machine_answers [] 1 "H29425")
    as (Hlen & Hgone & Hplace).
  destruct (Hplace eq_refl) as (_ & Hfail).
  destruct (Hfail eq_refl) as (robot & H1 & H2 & Hname & H3 & _ & H4 & _).
  split; [reflexivity |]. split; [reflexivity |]. split; [exact Hlen |].
  split; [exact Hgone |].
  exists robot. split; [exact H1 |]. split; [exact H2 |]. split; [exact Hname |].
  split; [exact H3 | exact H4].
Defined.

Lemma robot_found_by_machine_id_witness :
  nth_error MACHINE_IDS 0 = Some "H29424"%string /\
  findRobot (formattedData (fetchResults one_machine_answers)) "H29424"
  = Some (formatRobot (Some prediction_at_risk) 0).
Proof.
  split; [reflexivity |].
  exact (robot_found_by_machine_id one_machine_answers 0 "H29424"
           one_machine_answers_echoes eq_refl).
Defined.

Lemma red_card_means_critical_witness :
  riskColor (formatRobot (Some prediction_at_risk) 0) = "#ef4444"%string /\
  r_status (formatRobot (Some prediction_at_risk) 0) = "critical"%string.
Proof.
  assert (H : riskColor (formatRobot (Some prediction_at_risk) 0) = "#ef4444"%string)
    by reflexivity.
  split; [exact H |].
  exact (red_card_means_critical (Some prediction_at_risk) 0 H).
Defined.

Lemma risk_is_a_percentage_witness :
  failure_probability prediction_at_risk = Some (4 # 5) /\
  failure_probability prediction_at_higher_risk = Some (9 # 10) /\
  0 <= 4 # 5 /\ 4 # 5 <= 9 # 10 /\ 9 # 10 <= 1 /\
  r_risk (formatRobot (Some prediction_at_risk) 0) = 80 /\
  r_risk (formatRobot (Some prediction_at_higher_risk) 1) = 90 /\
  exists n m : Z,
    r_risk (formatRobot (Some prediction_at_risk) 0) = inject_Z n /\
    r_risk (formatRobot (Some prediction_at_higher_risk) 1) = inject_Z m /\
    (0 <= n)%Z /\ (n <= m)%Z /\ (m <= 100)%Z.
Proof.
  assert (H0 : 0 <= 4 # 5) by (unfold Qle; simpl; lia).
  assert (Hpq : 4 # 5 <= 9 # 10) by (unfold Qle; simpl; lia).
  assert (H1 : 9 # 10 <= 1) by (unfold Qle; simpl; lia).
  split; [reflexivity |]. split; [reflexivity |]. split; [exact H0 |].
  split; [exact Hpq |]. split; [exact H1 |].
  split; [reflexivity |]. split; [reflexivity |].
  exact (risk_is_a_percentage prediction_at_risk prediction_at_higher_risk
           (4 # 5) (9 # 10) 0 1 eq_refl eq_refl H0 Hpq H1).
Defined.

Lemma risk_text_in_any_case_witness :
  status prediction_at_risk = Some ("High " ++ "RiSk" ++ " level")%string /\
  toLowerCase "RiSk" = "risk"%string /\
  r_status (formatRobot (Some {| machine_id := None;
                                 status := Some "High RiSk level"%string;
                                 failure_probability := None;
                                 rul_prediction := None;
                                 degradation_score := None;
                                 sensor_data := None |}) 0)
  = "critical"%string.
Proof.
  split; [reflexivity |]. split; [reflexivity |].
  exact (risk_text_in_any_case
           {| machine_id := None; status := Some "High RiSk level"%string;
              failure_probability := None; rul_prediction := None;
              degradation_score := None; sensor_data := None |}
           "High " "RiSk" " level" 0 eq_refl eq_refl).
Defined.

Lemma window_never_holds_zero_witness :
  In (normalize record_all_zero)
     (historyData (@run SeriesMath [HistorySettled 0 (fetchedOk [record_all_zero])]
                     (mount robot1))) /\
  ~ Torque (normalize record_all_zero) == 0 /\
  ~ Speed (normalize record_all_zero) == 0.
Proof.
  assert (Hin : In (normalize record_all_zero)
                   (historyData
                      (@run SeriesMath [HistorySettled 0 (fetchedOk [record_all_zero])]
                         (mount robot1))))
    by (left; reflexivity).
  destruct (@window_never_holds_zero SeriesMath robot1
              [HistorySettled 0 (fetchedOk [record_all_zero])]
              (normalize record_all_zero) Hin)
    as (H1 & _ & H3 & _).
  split; [exact Hin |]. split; [exact H1 | exact H3].
Defined.

Lemma noSensors_unusable : noUsableSensors noSensors.
Proof. repeat split. Defined.

Lemma live_sensors_always_complete_witness :
  noUsableSensors noSensors /\
  historyData (@run SeriesMath [] (mount robot1)) = [] /\
  s_Torque (liveSensors noSensors (historyData (@run SeriesMath [] (mount robot1))))
  = Some 40 /\
  truthy (s_Speed (liveSensors noSensors
                     (historyData (@run SeriesMath seed_then_tick (mount robot1)))))
  = true.
Proof.
  destruct (@live_sensors_always_complete SeriesMath robot1 [] noSensors
              noSensors_unusable)
    as (_ & Hempty & _).
  destruct (Hempty eq_refl) as (H40 & _).
  destruct (@live_sensors_always_complete SeriesMath robot1 seed_then_tick noSensors
              noSensors_unusable)
    as ((_ & _ & Hspeed & _) & _).
  split; [exact noSensors_unusable |]. split; [reflexivity |].
  split; [exact H40 | exact Hspeed].
Defined.

Lemma live_sensors_follow_the_tick_witness :
  nth_error (closures (mount robot1)) 0 = Some fresh_closure /\
  isMounted fresh_closure = true /\
  noUsableSensors noSensors /\
  exists newPoint,
    lastOf (historyData after_first_tick) = Some newPoint /\
    s_Torque (liveSensors noSensors (historyData after_first_tick))
    = Some (Torque newPoint) /\
    in_range newPoint.
Proof.
  destruct (@live_sensors_follow_the_tick SeriesMath 0 (env_at 1700000005000)
              (mount robot1) fresh_closure noSensors eq_refl eq_refl noSensors_unusable)
    as (pt & Hl & _ & Hr & Hlive).
  split; [reflexivity |]. split; [reflexivity |]. split; [exact noSensors_unusable |].
  exists pt. split; [exact Hl |]. split; [| exact Hr].
  unfold after_first_tick. rewrite Hlive. reflexivity.
Defined.

Lemma card_shows_the_sample_value_witness :
  noUsableSensors noSensors /\
  nth_error (closures (mount robot1)) 0 = Some fresh_closure /\
  isMounted fresh_closure = true /\
  lastOf [normalize record_in_range] = Some (normalize record_in_range) /\
  cardValue 1 (s_Torque (liveSensors noSensors [normalize record_in_range]))
  = Some (toFixed 1 42) /\
  exists newPoint,
    lastOf (historyData after_first_tick) = Some newPoint /\
    Torque newPoint = 404 # 10 /\
    cardValue 1 (s_Torque (liveSensors noSensors (historyData after_first_tick)))
    = Some (Torque newPoint) /\
    cardValue 0 (s_Speed (liveSensors noSensors (historyData after_first_tick)))
    = Some (Speed newPoint).
Proof.
  destruct (@card_shows_the_sample_value SeriesMath 0 (env_at 1700000005000)
              (mount robot1) fresh_closure noSensors
              [normalize record_in_range] (normalize record_in_range)
              noSensors_unusable)
    as (Hany & Htick).
  destruct (Hany eq_refl) as (Hseeded & _).
  destruct (Htick eq_refl eq_refl) as (pt & Hl & _ & Ht & _ & Hs).
  split; [exact noSensors_unusable |]. split; [reflexivity |]. split; [reflexivity |].
  split; [reflexivity |]. split; [exact Hseeded |].
  exists pt. split; [exact Hl |].
  split; [| split; [exact Ht | exact Hs]].
  unfold after_first_tick in Hl. vm_compute in Hl. injection Hl as <-. reflexivity.
Defined.

Lemma projection_never_rises_witness :
  (forall r, Some (formatRobot (Some prediction_at_risk) 0) = Some r -> 0 <= r_risk r) /\
  exists v1 v2 v3 v4 v5,
    map tp_Projection
      (skipn 7 (@trendHistory SeriesMath (Some (formatRobot (Some prediction_at_risk) 0))))
    = [Some v1; Some v2; Some v3; Some v4; Some v5] /\
    v5 <= v4 /\ v2 <= v1.
Proof.
  assert (H : forall r, Some (formatRobot (Some prediction_at_risk) 0) = Some r ->
                        0 <= r_risk r).
  { intros r Hr. injection Hr as <-. unfold Qle; simpl; lia. }
  destruct (@projection_never_rises SeriesMath
              (Some (formatRobot (Some prediction_at_risk) 0)) H)
    as (v1 & v2 & v3 & v4 & v5 & Hmap & H54 & _ & _ & H21).
  split; [exact H |].
  exists v1, v2, v3, v4, v5. split; [exact Hmap |]. split; [exact H54 | exact H21].
Defined.

Lemma negligible_risk_is_drawn_as_five_witness :
  (0 <= 0 /\ 0 < (1 # 200)) /\
  r_risk (formatRobot (Some (machineFallback "H29425")) 1) == 0 /\
  @trendHistory SeriesMath (Some (formatRobot (Some (machineFallback "H29425")) 1))
  = @trendHistory SeriesMath None.
Proof.
  assert (H : 0 <= 0 /\ 0 < (1 # 200)) by (split; [apply Qle_refl | reflexivity]).
  split; [exact H |].
  exact (@negligible_risk_is_drawn_as_five SeriesMath
           (Some (machineFallback "H29425")) 1 H).
Defined.

Lemma rul_chart_plots_thirty_days_witness :
  (0 < 30)%nat /\
  exists rows row v,
    @rulChart SeriesMath = LinePlot rows /\
    nth_error rows 0 = Some row /\
    rp_time row = Some "Day -30"%string /\
    rp_rul_prediction row = Some v /\ 0 <= v.
Proof.
  assert (H0 : (0 < 30)%nat) by lia.
  destruct (@rul_chart_plots_thirty_days SeriesMath) as (rows & Hc & _ & Hrows).
  destruct (Hrows 0%nat H0) as (row & v & Hn & Ht & Hv & Hpos & _).
  split; [exact H0 |].
  exists rows, row, v. split; [exact Hc |]. split; [exact Hn |].
  split; [exact Ht |]. split; [exact Hv | exact Hpos].
Defined.

Lemma trend_points_row_by_row_witness :
  In {| p_time := "10:00:00"; p_value := 42; p_metric := "Torque" |}
     (fold_left pushMetrics [row_with_all; row_without_time_and_wear] []) /\
  (length (fold_left pushMetrics [row_with_all; row_without_time_and_wear] [])
   <= 3 * 2)%nat /\
  exists d, In d [row_with_all; row_without_time_and_wear] /\
            d_time d = Some "10:00:00"%string.
Proof.
  assert (Hin : In {| p_time := "10:00:00"; p_value := 42; p_metric := "Torque" |}
                   (fold_left pushMetrics [row_with_all; row_without_time_and_wear] []))
    by (right; left; reflexivity).
  destruct (trend_points_row_by_row [row_with_all; row_without_time_and_wear])
    as (_ & Hlen & Hp).
  destruct (Hp _ Hin) as (_ & d & Hd & Ht).
  split; [exact Hin |]. split; [exact Hlen |]. exists d. split; [exact Hd | exact Ht].
Defined.

Lemma trend_chart_checks_first_row_only_witness :
  nonEmptyString (d_time row_without_time_and_wear) = false /\
  d_time row_without_time_and_wear = None /\
  MultiMetricTrendChart (Some [row_without_time_and_wear; row_with_all]) false
  = Placeholder "Invalid data format" /\
  MultiMetricTrendChart (Some [row_with_all; row_without_time_and_wear]) false
  = MultiMetricTrendChart (Some [row_with_all]) false.
Proof.
  destruct (trend_chart_checks_first_row_only row_without_time_and_wear
              row_without_time_and_wear [row_with_all] eq_refl) as [H1 _].
  destruct (trend_chart_checks_first_row_only row_with_all
              row_without_time_and_wear [] eq_refl) as [_ H2].
  split; [reflexivity |]. split; [reflexivity |].
  split; [exact (H1 eq_refl) | exact H2].
Defined.

Lemma spc_chart_draws_gaps_at_zero_witness :
  isSome (d_time row_with_all) = true /\
  nth_error [row_without_time_and_wear] 0 = Some row_without_time_and_wear /\
  d_current_tool_wear_pct row_without_time_and_wear = None /\
  isSome (d_current_tool_wear_pct row_with_all) = true /\
  exists rows row,
    SpcChart (Some [row_with_all; row_without_time_and_wear]) false = LinePlot rows /\
    length rows = 2%nat /\
    nth_error rows 1 = Some row /\
    d_current_tool_wear_pct row = Some 0 /\
    d_Torque row = Some 43.
Proof.
  destruct (spc_chart_draws_gaps_at_zero row_with_all [row_without_time_and_wear] 0
              row_without_time_and_wear eq_refl eq_refl eq_refl) as [_ H].
  destruct (H eq_refl) as (rows & Hc & Hlen & Hn).
  split; [reflexivity |]. split; [reflexivity |]. split; [reflexivity |].
  split; [reflexivity |].
  exists rows. eexists. split; [exact Hc |]. split; [exact Hlen |].
  split; [exact Hn |]. split; reflexivity.
Defined.

Lemma EpochLocale_labels (t : Z) (b : bool) :
  @toLocaleTimeString EpochLocale t b <> EmptyString.
Proof. discriminate. Defined.

Lemma telemetry_chart_always_plots_witness :
  (forall t b, @toLocaleTimeString EpochLocale t b <> EmptyString) /\
  @telemetryChart SeriesMath EpochLocale [] render_early
  = LinePlot (flat_map (@threePoints EpochLocale false)
                (@combinedData SeriesMath [] render_early)) /\
  length (flat_map (@threePoints EpochLocale false)
            (@combinedData SeriesMath [] render_early)) = 60%nat.
Proof.
  destruct (@telemetry_chart_always_plots SeriesMath EpochLocale [] render_early
              EpochLocale_labels) as (H1 & H2 & _).
  split; [exact EpochLocale_labels |]. split; [exact H1 | exact H2].
Defined.

Lemma spc_chart_plots_every_sample_witness :
  nth_error (@combinedData SeriesMath [] render_early) 0
  = Some (@mockPoint SeriesMath render_early 0) /\
  exists rows row,
    @spcChart SeriesMath EpochLocale [] render_early = LinePlot rows /\
    length rows = 20%nat /\
    nth_error rows 0 = Some row /\
    d_timestamp row = Some 1699996400000%Z.
Proof.
  destruct (@spc_chart_plots_every_sample SeriesMath EpochLocale [] render_early 0
              (@mockPoint SeriesMath render_early 0) eq_refl)
    as (rows & row & wear & Hc & Hlen & Hn & Ht & _).
  split; [reflexivity |].
  exists rows, row. split; [exact Hc |]. split; [exact Hlen |].
  split; [exact Hn | exact Ht].
Defined.

Lemma trend_history_shape_and_bounds_witness :
  exists today t,
    nth_error (@trendHistory SeriesMath None) 6 = Some today /\
    In today (@trendHistory SeriesMath None) /\
    tp_Trend today = Some t /\
    5 <= t /\ t <= 95.
Proof.
  destruct (@trend_history_shape_and_bounds SeriesMath None)
    as (_ & _ & _ & Htrend & _ & today & Hn & _ & _).
  assert (Hin : In today (@trendHistory SeriesMath None))
    by (eapply nth_error_In; exact Hn).
  assert (Ht : exists t, tp_Trend today = Some t).
  { injection Hn as <-. eexists. reflexivity. }
  destruct Ht as [t Ht].
  destruct (Htrend today t Hin Ht) as [H5 H95].
  exists today, t. split; [exact Hn |]. split; [exact Hin |].
  split; [exact Ht |]. split; [exact H5 | exact H95].
Defined.
